(** * Kernel ridge regression versus SVR: the comparison notebook and the
    2D-histogram page

  A model of the two documentation artifacts of the repository:

  - [_posts/scikit/kernel-ridge-regression-and-SVR/comparision.ipynb],
    a notebook whose code cells generate a noisy sinusoid, fit two
    regressors, assemble a three-panel figure and publish it;
  - [_posts/python/statistical/histogram2d/2015-06-30-2d-histograms.html],
    a rendered page with a front-matter block.

  Python floats are read as real numbers: arithmetic is exact, so the
  statements below are about the values the arithmetic denotes and not
  about IEEE rounding.  Everything the notebook obtains from a library
  (random draws, clock readings, fitted regressors, service replies) is
  a field of a [World] and stays universally quantified. *)

From Stdlib Require Import Reals Lra Lia ZArith List String.
From stdpp Require Import base option list strings gmap.

Local Open Scope nat_scope.

(** ** Array arithmetic (the part of numpy the notebook uses) *)

Module Numpy.

(** A 1-D float array and a 2-D float array (a list of rows). *)
Abbreviation ndarray1 := (list R).
Abbreviation ndarray2 := (list (list R)).

(** [rng.rand(n)] and [rng.rand(rows, cols)]: the generator is a stream
    [u] of draws and a position in it; a call consumes the next draws in
    row-major order. *)
Definition rand1 (u : nat → R) (pos n : nat) : ndarray1 :=
  u <$> seq pos n.

Definition rand2 (u : nat → R) (pos rows cols : nat) : ndarray2 :=
  (λ i, rand1 u (pos + i * cols) cols) <$> seq 0 rows.

(** [c * a], [c - a] and [np.sin(a)], elementwise. *)
Definition mul1 (c : R) (a : ndarray1) : ndarray1 := Rmult c <$> a.
Definition rsub1 (c : R) (a : ndarray1) : ndarray1 := Rminus c <$> a.
Definition mul2 (c : R) (a : ndarray2) : ndarray2 := mul1 c <$> a.
Definition sin1 (a : ndarray1) : ndarray1 := sin <$> a.
Definition sin2 (a : ndarray2) : ndarray2 := sin1 <$> a.
Definition neg1 (a : ndarray1) : ndarray1 := Ropp <$> a.
Definition add_scalar1 (a : ndarray1) (c : R) : ndarray1 := (λ v, v + c)%R <$> a.
Definition div_scalar1 (a : ndarray1) (c : R) : ndarray1 := (λ v, v / c)%R <$> a.

(** [a.ravel()]: the rows one after the other. *)
Definition ravel (a : ndarray2) : ndarray1 := concat a.

(** [a.mean(1)]: the mean of every row. *)
Definition mean_axis1 (a : ndarray2) : ndarray1 :=
  (λ row, foldr Rplus 0%R row / INR (length row))%R <$> a.

(** [len(a[::step])]. *)
Definition step_len (n step : nat) : nat := (n + step - 1) / step.

(** [a[::step] += v].  The right-hand side must have the length of the
    slice, or length one (it is then broadcast); numpy raises
    [ValueError] otherwise, which is [None] here. *)
Definition iadd_step (step : nat) (a v : ndarray1) : option ndarray1 :=
  let add_at (j : nat → nat) :=
    imap (λ i ai, if decide (i mod step = 0)
                  then Rplus ai (default 0%R (v !! j i))
                  else ai) a in
  if decide (length v = step_len (length a) step) then
    Some (add_at (λ i, i / step))
  else if decide (length v = 1) then
    Some (add_at (λ _, 0))
  else None.

(** [np.linspace(a, b, n)] and [np.logspace(a, b, n)]. *)
Definition linspace (a b : R) (n : nat) : ndarray1 :=
  (λ i, a + INR i * (b - a) / INR (n - 1))%R <$> seq 0 n.

Definition logspace (a b : R) (n : nat) : ndarray1 :=
  Rpower 10 <$> linspace a b n.

(** [a[:, None]]: every entry becomes a row of its own. *)
Definition new_axis (a : ndarray1) : ndarray2 := (λ v, [v]) <$> a.

(** [int(r)] for a float [r]: truncation towards zero. *)
Definition trunc (r : R) : Z :=
  if Rle_dec 0 r then Int_part r else (- Int_part (- r))%Z.

(** [np.concatenate([a, b])]. *)
Definition concatenate (a b : ndarray1) : ndarray1 := a ++ b.

(** [a / b] under [from __future__ import division]: a float. *)
Definition true_div (a b : Z) : R := (IZR a / IZR b)%R.

End Numpy.

(** ** Python objects, the interpreter session and its effects *)

Module Py.
Import Numpy.

Inductive exn :=
| TypeError | ValueError | IndexError | KeyError
| ImportError | NotFittedError | PlotlyError
| SystemError.                 (* a reference to no object: not reachable *)

Abbreviation loc := nat.

(** What subscripting or iterating an object yields. *)
Inductive value :=
| VFloat (r : R)               (* a float scalar *)
| VRow (a : list R)            (* a row of a 2-D array *)
| VRef (l : loc).              (* a reference to an object *)

(** A string built by the [%] operator: the format and its arguments. *)
Inductive fmt_arg := AFloat (r : R) | AInt (z : Z) | AStr (s : string).
Record text := Fmt { t_format : string; t_args : list fmt_arg }.
Definition Lit (s : string) : text := Fmt s [].

(** scikit-learn estimators, by constructor and arguments. *)
Inductive est_spec :=
| SVR (kernel : string) (C gamma : R)
| KernelRidge (kernel : string) (alpha gamma : R)
| GridSearchCV (base : est_spec) (cv : nat) (param_grid : list (string * list R)).

(** A Plotly trace: its type, the objects given as [x] and [y], the
    name, the other attributes, and the number of the axes
    [append_trace] assigns. *)
Record trace := Trace {
  tr_type : string;
  tr_x : loc;
  tr_y : loc;
  tr_name : option text;
  tr_attrs : list (string * string);
  tr_axes : option nat }.

(** A Plotly figure: the subplot grid made by [make_subplots] (for
    every cell the number [n] of its axes [xn], [yn], or [None] for an
    empty cell), the traces in order, and the layout: the attributes of
    [xaxis1], [xaxis2], ... and of [yaxis1], [yaxis2], ..., the subplot
    titles and the other entries. *)
Record figure := Figure {
  fig_grid : list (list (option nat));
  fig_data : list loc;
  fig_xaxes : list (gmap string string);
  fig_yaxes : list (gmap string string);
  fig_titles : list string;
  fig_layout : gmap string string }.

Inductive obj :=
| ONd1 (a : list R)
| ONd2 (a : list (list R))
| OList (items : list value)
| ORandomState (seed : Z) (pos : nat)
| OEstimator (spec : est_spec) (fitted : option (list (list R) * list R))
| OTrace (t : trace)
| OFigure (f : figure).

(** The calls into imported packages that the session records. *)
Inductive api :=
| call_RandomState | call_rand | call_randn
| call_time
| call_SVR | call_KernelRidge | call_GridSearchCV
| call_fit | call_predict | call_learning_curve
| call_make_subplots | call_Scatter | call_Histogram2d
| call_Layout | call_Figure | call_update | call_append_trace | call_iplot
| call_display.

Inductive event :=
| EImport (module : string)
| ECall (f : api)
| EWarn (message : string)
| EPrint (t : text)
| EShell (cmd : string) (status : Z)
| EPublish (args : list string) (kwargs : list (string * string))
           (source : option string).

(** The session: the objects created so far (a reference is an index),
    the number of clock readings taken, and what has been observed. *)
Record Kernel := mkKernel {
  heap : list obj;
  clock : nat;
  log : list event }.

Definition empty_kernel : Kernel := mkKernel [] 0 [].

Inductive Res (A : Type) :=
| Ok (a : A) (k : Kernel)
| Raise (e : exn) (k : Kernel).
Arguments Ok {A} a k.
Arguments Raise {A} e k.

Definition Py (A : Type) : Type := Kernel → Res A.

#[global] Instance Py_ret : MRet Py := λ A a k, Ok a k.
#[global] Instance Py_bind : MBind Py := λ A B f m k,
  match m k with
  | Ok a k' => f a k'
  | Raise e k' => Raise e k'
  end.

Definition raise {A} (e : exn) : Py A := λ k, Raise e k.

Definition lift {A} (e : exn) (o : option A) : Py A :=
  match o with Some a => mret a | None => raise e end.

(** Creating an object, reading it and updating it in place. *)
Definition alloc (o : obj) : Py loc := λ k,
  Ok (length (heap k)) (mkKernel (heap k ++ [o]) (clock k) (log k)).

Definition load (l : loc) : Py obj := λ k,
  match heap k !! l with
  | Some o => Ok o k
  | None => Raise SystemError k
  end.

Definition store (l : loc) (o : obj) : Py unit := λ k,
  match heap k !! l with
  | Some _ => Ok tt (mkKernel (<[l := o]> (heap k)) (clock k) (log k))
  | None => Raise SystemError k
  end.

Definition emit (e : event) : Py unit := λ k,
  Ok tt (mkKernel (heap k) (clock k) (log k ++ [e])).

Definition tick : Py nat := λ k,
  Ok (clock k) (mkKernel (heap k) (S (clock k)) (log k)).

(** Reading an object of an expected kind. *)
Definition load_nd1 (l : loc) : Py (list R) :=
  o ← load l; match o with ONd1 a => mret a | _ => raise TypeError end.
Definition load_nd2 (l : loc) : Py (list (list R)) :=
  o ← load l; match o with ONd2 a => mret a | _ => raise TypeError end.
Definition load_list (l : loc) : Py (list value) :=
  o ← load l; match o with OList a => mret a | _ => raise TypeError end.
Definition load_trace (l : loc) : Py trace :=
  o ← load l; match o with OTrace t => mret t | _ => raise TypeError end.
Definition load_figure (l : loc) : Py figure :=
  o ← load l; match o with OFigure f => mret f | _ => raise TypeError end.

(** [for x in xs: body]. *)
Fixpoint for_each {A} (xs : list A) (body : A → Py unit) : Py unit :=
  match xs with
  | [] => mret tt
  | x :: xs' => body x ;; for_each xs' body
  end.

(** [len(n)], [n[i]] and [float(v)]. *)
Definition len (n : loc) : Py nat :=
  o ← load n;
  match o with
  | ONd1 a => mret (length a)
  | ONd2 a => mret (length a)
  | OList a => mret (length a)
  | _ => raise TypeError
  end.

Definition getitem (n : loc) (i : nat) : Py value :=
  o ← load n;
  match o with
  | ONd1 a => lift IndexError (VFloat <$> a !! i)
  | ONd2 a => lift IndexError (VRow <$> a !! i)
  | OList a => lift IndexError (a !! i)
  | _ => raise TypeError
  end.

Definition float (v : value) : Py R :=
  match v with
  | VFloat r => mret r
  | VRow [r] => mret r
  | VRow _ => raise TypeError
  | VRef _ => raise TypeError
  end.

(** [l.append(v)]: in place. *)
Definition list_append (l : loc) (v : value) : Py unit :=
  items ← load_list l; store l (OList (items ++ [v])).

End Py.

(** ** What the scripts obtain from outside *)

Record World := mkWorld {
(** [np.random.RandomState(seed).rand]: the stream of uniform draws. *)
uniform : Z → nat → R;
(** [randn] of a generator: the stream of normal draws. *)
gauss : Z → nat → R;
(** The seed the operating system gives to numpy's module-level generator. *)
entropy : Z;
(** [time.time()]: the reading returned by the n-th call. *)
now : nat → R;
(** The regression function an estimator learns from training data. *)
regress : Py.est_spec → list (list R) → list R → list R → R;
(** [best_estimator_.support_]: the indices of the support vectors. *)
support : Py.est_spec → list (list R) → list R → list nat;
(** [learning_curve]: absolute train sizes, train scores, test scores. *)
curve : Py.est_spec → list (list R) → list R → list R →
        list R * list (list R) * list (list R);
(** Whether iterating the two-entry dict of estimators yields ["KRR"]
    first (Python 2 orders a dict by hash). *)
krr_first : bool;
(** Exit status of the [pip install] shell command. *)
pip_status : Z;
(** Whether [import publisher] finds the module. *)
publisher_importable : bool;
(** Whether the plotting service answers [iplot] with its warning about
    the number of points. *)
plot_warning : bool;
(** The files a script can read, by path relative to its directory. *)
files : gmap string string }.

(** ** Library calls, as steps of the session *)

Module Lib.
Import Numpy Py.
Local Open Scope R_scope.

Section Calls.
Context (W : World).

Definition import (module : string) : Py unit := emit (EImport module).

Definition print (t : text) : Py unit := emit (EPrint t).

(** [display(HTML(...))] *)
Definition display (html : string) : Py unit := emit (ECall call_display).

(** [time.time()] *)
Definition time_time : Py R :=
  emit (ECall call_time);; n ← tick; mret (now W n).

(** [np.random.RandomState(seed)], and the module-level generator that
    [import numpy] makes available as [np.random]. *)
Definition new_RandomState (seed : Z) : Py loc :=
  emit (ECall call_RandomState);; alloc (ORandomState seed 0).

Definition import_numpy : Py loc :=
  import "numpy";; alloc (ORandomState (entropy W) 0).

(** [rng.rand(n)], [rng.rand(rows, cols)] and [rng.randn(n)] advance the
    generator. *)
Definition rng_rand1 (rng : loc) (n : nat) : Py (list R) :=
  o ← load rng;
  match o with
  | ORandomState seed pos =>
      emit (ECall call_rand);;
      store rng (ORandomState seed (pos + n));;
      mret (rand1 (uniform W seed) pos n)
  | _ => raise TypeError
  end.

Definition rng_rand2 (rng : loc) (rows cols : nat) : Py (list (list R)) :=
  o ← load rng;
  match o with
  | ORandomState seed pos =>
      emit (ECall call_rand);;
      store rng (ORandomState seed (pos + rows * cols));;
      mret (rand2 (uniform W seed) pos rows cols)
  | _ => raise TypeError
  end.

Definition rng_randn (rng : loc) (n : nat) : Py (list R) :=
  o ← load rng;
  match o with
  | ORandomState seed pos =>
      emit (ECall call_randn);;
      store rng (ORandomState seed (pos + n));;
      mret (rand1 (gauss W seed) pos n)
  | _ => raise TypeError
  end.

(** A float where numpy wants an integer (a size or a slice bound): the
    numpy of the notebook warns and truncates. *)
Definition index_of_float (r : R) : Py nat :=
  emit (EWarn "VisibleDeprecationWarning");; mret (Z.to_nat (trunc r)).

(** [a[idx]] for a list of indices: a new array, [IndexError] when an
    index is out of range. *)
Definition take_indices {A} (a : list A) (idx : list nat) : option (list A) :=
  mapM (λ i, a !! i) idx.

(** Constructing an estimator: the inner estimator of a grid search is
    constructed first. *)
Fixpoint ctor_calls (s : est_spec) : list event :=
  match s with
  | SVR _ _ _ => [ECall call_SVR]
  | KernelRidge _ _ _ => [ECall call_KernelRidge]
  | GridSearchCV base _ _ => ctor_calls base ++ [ECall call_GridSearchCV]
  end.

Definition construct (s : est_spec) : Py loc :=
  for_each (ctor_calls s) emit;; alloc (OEstimator s None).

(** [est.fit(X, y)]: the estimator is fitted in place. *)
Definition est_fit (est : loc) (Xv : list (list R)) (yv : list R) : Py unit :=
  emit (ECall call_fit);;
  o ← load est;
  match o with
  | OEstimator s _ =>
      if decide (length Xv = length yv)
      then store est (OEstimator s (Some (Xv, yv)))
      else raise ValueError
  | _ => raise TypeError
  end.

(** [est.predict(X)]: one target per row. *)
Definition est_predict (est : loc) (Xq : list (list R)) : Py (list R) :=
  emit (ECall call_predict);;
  o ← load est;
  match o with
  | OEstimator s (Some (Xt, yt)) => mret (regress W s Xt yt <$> Xq)
  | OEstimator _ None => raise NotFittedError
  | _ => raise TypeError
  end.

(** [est.best_estimator_.support_] *)
Definition est_support (est : loc) : Py (list nat) :=
  o ← load est;
  match o with
  | OEstimator s (Some (Xt, yt)) => mret (support W s Xt yt)
  | OEstimator _ None => raise NotFittedError
  | _ => raise TypeError
  end.

(** [learning_curve(est, X, y, train_sizes=..., ...)]: works on clones
    of the estimator and returns three new arrays. *)
Definition est_learning_curve (est : loc) (Xv : list (list R)) (yv sizes : list R)
  : Py (loc * loc * loc) :=
  emit (ECall call_learning_curve);;
  o ← load est;
  match o with
  | OEstimator s _ =>
      let r := curve W s Xv yv sizes in
      a ← alloc (ONd1 r.1.1);
      b ← alloc (ONd2 r.1.2);
      c ← alloc (ONd2 r.2);
      mret (a, b, c)
  | _ => raise TypeError
  end.

(** Numbering the non-empty cells of a subplot grid row by row; [true]
    stands for a spec [{}], [false] for [None]. *)
Fixpoint number_row (next : nat) (row : list bool) : list (option nat) * nat :=
  match row with
  | [] => ([], next)
  | true :: r => let '(cells, n) := number_row (S next) r in (Some next :: cells, n)
  | false :: r => let '(cells, n) := number_row next r in (None :: cells, n)
  end.

Fixpoint number_grid (next : nat) (specs : list (list bool))
  : list (list (option nat)) * nat :=
  match specs with
  | [] => ([], next)
  | row :: rows =>
      let '(cells, n) := number_row next row in
      let '(grid, n') := number_grid n rows in
      (cells :: grid, n')
  end.

(** [tools.make_subplots(rows=.., cols=.., specs=.., subplot_titles=..)];
    it prints the grid. *)
Definition make_subplots (specs : list (list bool)) (titles : list string) : Py loc :=
  emit (ECall call_make_subplots);;
  print (Lit "This is the format of your plot grid:");;
  let '(grid, n) := number_grid 1 specs in
  alloc (OFigure {| fig_grid := grid; fig_data := [];
                    fig_xaxes := replicate (n - 1) ∅;
                    fig_yaxes := replicate (n - 1) ∅;
                    fig_titles := titles; fig_layout := ∅ |}).

(** [go.Scatter(x=.., y=.., ...)] and [go.Histogram2d(x=.., y=.., ...)] *)
Definition new_Scatter (x y : loc) (name : option text) (attrs : list (string * string))
  : Py loc :=
  emit (ECall call_Scatter);;
  alloc (OTrace {| tr_type := "scatter"; tr_x := x; tr_y := y;
                   tr_name := name; tr_attrs := attrs; tr_axes := None |}).

Definition new_Histogram2d (x y : loc) (attrs : list (string * string)) : Py loc :=
  emit (ECall call_Histogram2d);;
  alloc (OTrace {| tr_type := "histogram2d"; tr_x := x; tr_y := y;
                   tr_name := None; tr_attrs := attrs; tr_axes := None |}).

(** [go.Figure(data=.., layout=go.Layout(xaxis=.., yaxis=.., ...))]; a
    list of traces given to [iplot] is wrapped in the same way, with an
    empty layout. *)
Definition new_Figure (data : list loc) (xaxis yaxis layout : gmap string string)
  : Py loc :=
  emit (ECall call_Figure);;
  alloc (OFigure {| fig_grid := []; fig_data := data;
                    fig_xaxes := [xaxis]; fig_yaxes := [yaxis];
                    fig_titles := []; fig_layout := layout |}).

(** [fig.append_trace(trace, row, col)]: the trace gets the axes of the
    cell and is added at the end of the figure's data. *)
Definition fig_append_trace (fig tr : loc) (row col : nat) : Py unit :=
  emit (ECall call_append_trace);;
  f ← load_figure fig;
  t ← load_trace tr;
  if (row =? 0)%nat || (col =? 0)%nat then raise PlotlyError else
  match fig_grid f !! (row - 1)%nat with
  | None => raise PlotlyError
  | Some cells =>
      match cells !! (col - 1)%nat with
      | None => raise PlotlyError
      | Some None => raise TypeError
      | Some (Some n) =>
          store tr (OTrace {| tr_type := tr_type t; tr_x := tr_x t; tr_y := tr_y t;
                              tr_name := tr_name t; tr_attrs := tr_attrs t;
                              tr_axes := Some n |});;
          store fig (OFigure {| fig_grid := fig_grid f;
                                fig_data := fig_data f ++ [tr];
                                fig_xaxes := fig_xaxes f; fig_yaxes := fig_yaxes f;
                                fig_titles := fig_titles f;
                                fig_layout := fig_layout f |})
      end
  end.

(** [fig['layout']['xaxisN'].update(...)] and the same for [yaxisN]. *)
Definition update_xaxis (fig : loc) (n : nat) (attrs : gmap string string) : Py unit :=
  emit (ECall call_update);;
  f ← load_figure fig;
  match fig_xaxes f !! (n - 1)%nat with
  | Some d =>
      store fig (OFigure {| fig_grid := fig_grid f; fig_data := fig_data f;
                            fig_xaxes := <[(n - 1)%nat := attrs ∪ d]> (fig_xaxes f);
                            fig_yaxes := fig_yaxes f;
                            fig_titles := fig_titles f;
                            fig_layout := fig_layout f |})
  | None => raise KeyError
  end.

Definition update_yaxis (fig : loc) (n : nat) (attrs : gmap string string) : Py unit :=
  emit (ECall call_update);;
  f ← load_figure fig;
  match fig_yaxes f !! (n - 1)%nat with
  | Some d =>
      store fig (OFigure {| fig_grid := fig_grid f; fig_data := fig_data f;
                            fig_xaxes := fig_xaxes f;
                            fig_yaxes := <[(n - 1)%nat := attrs ∪ d]> (fig_yaxes f);
                            fig_titles := fig_titles f;
                            fig_layout := fig_layout f |})
  | None => raise KeyError
  end.

(** [fig['layout'].update(...)] *)
Definition update_layout (fig : loc) (attrs : gmap string string) : Py unit :=
  emit (ECall call_update);;
  f ← load_figure fig;
  store fig (OFigure {| fig_grid := fig_grid f; fig_data := fig_data f;
                        fig_xaxes := fig_xaxes f; fig_yaxes := fig_yaxes f;
                        fig_titles := fig_titles f;
                        fig_layout := attrs ∪ fig_layout f |}).

(** [py.iplot(fig, ...)]: the figure is sent; the service may answer
    with its warnings about the number of points, which plotly passes
    on. *)
Definition py_iplot (fig : loc) : Py unit :=
  emit (ECall call_iplot);;
  _ ← load_figure fig;
  if plot_warning W then
    emit (EWarn "UserWarning: Woah there! Look at all those points!");;
    emit (EWarn "The draw time for this plot will be slow for all clients.");;
    emit (EWarn "UserWarning: Estimated Draw Time Too Long")
  else mret tt.

(** [! cmd]: the shell command runs; its exit status is not a Python
    value. *)
Definition shell (cmd : string) (status : Z) : Py unit := emit (EShell cmd status).

End Calls.
End Lib.

(** ** The comparison notebook, cell by cell *)

Module Comparison.
Import Numpy Py Lib.
Local Open Scope R_scope.

Section Cells.
Context (W : World).

(** *** Cells 1 and 2: version and imports *)

Definition cell1 : Py unit := import "sklearn".

Definition cell2 : Py unit :=
  for_each ["plotly.plotly"; "plotly.graph_objs"; "plotly.tools"; "__future__";
            "time"; "numpy"; "sklearn.svm"; "sklearn.model_selection";
            "sklearn.model_selection"; "sklearn.kernel_ridge"]%string import.

(** *** Cell 3: generate sample data *)

(** [X = 5 * rng.rand(10000, 1)]
    [y = np.sin(X).ravel()] *)
Definition sample_targets (rng : loc) : Py (loc * loc) :=
  X ← (a ← rng_rand2 W rng (Z.to_nat 10000) 1; alloc (ONd2 (mul2 5 a)));
  y ← (a ← load_nd2 X; alloc (ONd1 (ravel (sin2 a))));
  mret (X, y).

(** [y[::5] += 3 * (0.5 - rng.rand(X.shape[0]/5))] *)
Definition add_noise (rng X y : loc) : Py unit :=
  yv ← load_nd1 y;
  a ← load_nd2 X;
  n ← index_of_float (true_div (Z.of_nat (length a)) 5);
  r ← rng_rand1 W rng n;
  yv' ← lift ValueError (iadd_step 5 yv (mul1 3 (rsub1 0.5 r)));
  store y (ONd1 yv').

Definition sample_data (rng : loc) : Py (loc * loc) :=
  '(X, y) ← sample_targets rng;
  add_noise rng X y;;
  mret (X, y).

(** The names a later cell reads. *)
Record Globals3 := { g_rng : loc; g_X : loc; g_y : loc; g_X_plot : loc }.

Definition cell3 : Py Globals3 :=
  rng ← new_RandomState 0;
  '(X, y) ← sample_data rng;
  X_plot ← alloc (ONd2 (new_axis (linspace 0 5 (Z.to_nat 100000))));
  mret {| g_rng := rng; g_X := X; g_y := y; g_X_plot := X_plot |}.

(** *** Cell 4: fit regression model *)

Record Globals4 := {
  g_svr : loc; g_kr : loc;
  g_svr_fit : R; g_kr_fit : R;
  g_y_svr : loc; g_svr_predict : R;
  g_y_kr : loc; g_kr_predict : R }.

Definition cell4 (g : Globals3) : Py Globals4 :=
  let train_size := 100%nat in
  svr ← construct (GridSearchCV (SVR "rbf" 1 0.1) 5
                     [("C", [1; 10; 100; 1000]); ("gamma", logspace (-2) 2 5)]%string);
  kr ← construct (GridSearchCV (KernelRidge "rbf" 1 0.1) 5
                    [("alpha", [1; 0.1; 0.01; 0.001]); ("gamma", logspace (-2) 2 5)]%string);
  t0 ← time_time W;
  (Xv ← load_nd2 (g_X g); yv ← load_nd1 (g_y g);
   est_fit svr (take train_size Xv) (take train_size yv));;
  svr_fit ← (t ← time_time W; mret (t - t0));
  print (Fmt "SVR complexity and bandwidth selected and model fitted in %.3f s"
             [AFloat svr_fit]);;
  t0 ← time_time W;
  (Xv ← load_nd2 (g_X g); yv ← load_nd1 (g_y g);
   est_fit kr (take train_size Xv) (take train_size yv));;
  kr_fit ← (t ← time_time W; mret (t - t0));
  print (Fmt "KRR complexity and bandwidth selected and model fitted in %.3f s"
             [AFloat kr_fit]);;
  sv_ratio ← (sv ← est_support W svr;
              mret (true_div (Z.of_nat (length sv)) (Z.of_nat train_size)));
  print (Fmt "Support vector ratio: %.3f" [AFloat sv_ratio]);;
  t0 ← time_time W;
  y_svr ← (Xp ← load_nd2 (g_X_plot g); p ← est_predict W svr Xp; alloc (ONd1 p));
  svr_predict ← (t ← time_time W; mret (t - t0));
  (Xp ← load_nd2 (g_X_plot g);
   print (Fmt "SVR prediction for %d inputs in %.3f s"
              [AInt (Z.of_nat (length Xp)); AFloat svr_predict]));;
  t0 ← time_time W;
  y_kr ← (Xp ← load_nd2 (g_X_plot g); p ← est_predict W kr Xp; alloc (ONd1 p));
  kr_predict ← (t ← time_time W; mret (t - t0));
  (Xp ← load_nd2 (g_X_plot g);
   print (Fmt "KRR prediction for %d inputs in %.3f s"
              [AInt (Z.of_nat (length Xp)); AFloat kr_predict]));;
  mret {| g_svr := svr; g_kr := kr; g_svr_fit := svr_fit; g_kr_fit := kr_fit;
          g_y_svr := y_svr; g_svr_predict := svr_predict;
          g_y_kr := y_kr; g_kr_predict := kr_predict |}.

(** *** Cell 5: plot results *)

(** [def to_plotly(n):]
    [    l = []]
    [    for i in range(len(n)):]
    [        k=float(n[i])]
    [        l.append( k)]
    [    return l] *)
Definition to_plotly (n : loc) : Py loc :=
  l ← alloc (OList []);
  m ← len n;
  for_each (seq 0 m) (λ i,
    v ← getitem n i;
    k ← float v;
    list_append l (VFloat k));;
  mret l.

(** [a[idx]] (a copy) and [a[:n]] (a view, never written through), as
    objects of their own. *)
Definition index2 (a : loc) (idx : list nat) : Py loc :=
  v ← load_nd2 a; sel ← lift IndexError (take_indices v idx); alloc (ONd2 sel).
Definition index1 (a : loc) (idx : list nat) : Py loc :=
  v ← load_nd1 a; sel ← lift IndexError (take_indices v idx); alloc (ONd1 sel).
Definition slice2 (a : loc) (n : nat) : Py loc :=
  v ← load_nd2 a; alloc (ONd2 (take n v)).
Definition slice1 (a : loc) (n : nat) : Py loc :=
  v ← load_nd1 a; alloc (ONd1 (take n v)).

(** The body of [for train_test_size in sizes:]. *)
Definition time_estimator (g : Globals3) (X y estimator train_time test_time : loc)
    (train_test_size : R) : Py unit :=
  t0 ← time_time W;
  (Xv ← load_nd2 X; n ← index_of_float train_test_size;
   yv ← load_nd1 y; m ← index_of_float train_test_size;
   est_fit estimator (take n Xv) (take m yv));;
  (t ← time_time W; list_append train_time (VFloat (t - t0)));;
  t0 ← time_time W;
  (Xp ← load_nd2 (g_X_plot g); est_predict W estimator (take 1000 Xp));;
  (t ← time_time W; list_append test_time (VFloat (t - t0))).

Definition color_of (name : string) : string :=
  if String.eqb name "SVR" then "red" else "green".

(** The body of [for name, estimator in {...}.items():]. *)
Definition time_and_trace (g : Globals3) (X y sizes plot2 : loc)
    (item : string * loc) : Py unit :=
  let '(name, estimator) := item in
  train_time ← alloc (OList []);
  test_time ← alloc (OList []);
  sz ← load_nd1 sizes;
  for_each sz (time_estimator g X y estimator train_time test_time);;
  trace5 ← new_Scatter sizes train_time (Some (Fmt "%s (train)" [AStr name]))
             [("mode", "lines+markers"); ("marker.color", color_of name)]%string;
  trace6 ← new_Scatter sizes test_time (Some (Fmt "%s (test)" [AStr name]))
             [("mode", "lines+markers"); ("marker.color", color_of name);
              ("line.dash", "dash")]%string;
  list_append plot2 (VRef trace5);;
  list_append plot2 (VRef trace6).

Record Globals5 := {
  g_fig : loc;
  g_X' : loc; g_y' : loc;       (* [X] and [y] as bound when the cell ends *)
  g_svr' : loc; g_kr' : loc;    (* [svr] and [kr] as bound when the cell ends *)
  g_sizes : loc; g_plot2 : loc }.

Definition cell5 (g : Globals3) (g4 : Globals4) : Py Globals5 :=
  fig ← make_subplots [[true; true]; [true; false]]
          ["SVR versus Kernel Ridge"; "Execution Time"; "Learning Curves"]%string;
  sv_ind ← est_support W (g_svr g4);
  trace1 ← (x ← (a ← index2 (g_X g) sv_ind; to_plotly a);
            y ← (a ← index1 (g_y g) sv_ind; to_plotly a);
            new_Scatter x y (Some (Lit "SVR support vectors"))
              [("mode", "markers"); ("marker.color", "red"); ("marker.size", "10");
               ("marker.line.color", "black"); ("marker.line.width", "1")]%string);
  trace2 ← (x ← (a ← slice2 (g_X g) 100; to_plotly a);
            y ← (a ← slice1 (g_y g) 100; to_plotly a);
            new_Scatter x y (Some (Lit "data"))
              [("mode", "markers"); ("marker.color", "green"); ("marker.size", "5");
               ("marker.line.color", "black")]%string);
  trace3 ← (x ← to_plotly (g_X_plot g);
            y ← to_plotly (g_y_svr g4);
            new_Scatter x y
              (Some (Fmt "SVR (fit: %.3fs, predict: %.3fs)"
                         [AFloat (g_svr_fit g4); AFloat (g_svr_predict g4)]))
              [("marker.line.color", "red"); ("mode", "lines")]%string);
  trace4 ← (x ← to_plotly (g_X_plot g);
            y ← to_plotly (g_y_kr g4);
            new_Scatter x y
              (Some (Fmt "KRR (fit: %.3fs, predict: %.3fs)"
                         [AFloat (g_kr_fit g4); AFloat (g_kr_predict g4)]))
              [("marker.line.color", "green"); ("mode", "lines")]%string);
  update_xaxis fig 1 {[ "title" := "data" ]}%string;;
  update_yaxis fig 1 {[ "title" := "target" ]}%string;;
  for_each [trace1; trace2; trace3; trace4] (λ i, fig_append_trace fig i 1 1);;
  (* Visualize training and prediction time; generate sample data *)
  '(X, y) ← sample_data (g_rng g);
  sizes ← alloc (ONd1 (logspace 1 4 7));
  plot2 ← alloc (OList []);
  krr_est ← construct (KernelRidge "rbf" 0.1 10);
  svr_est ← construct (SVR "rbf" 10 10);
  for_each (if krr_first W
            then [("KRR", krr_est); ("SVR", svr_est)]
            else [("SVR", svr_est); ("KRR", krr_est)])%string
           (time_and_trace g X y sizes plot2);;
  (m ← len plot2;
   for_each (seq 0 m) (λ i,
     v ← getitem plot2 i;
     match v with
     | VRef t => fig_append_trace fig t 1 2
     | _ => raise TypeError
     end));;
  update_xaxis fig 2 (<[ "type" := "log" ]> {[ "title" := "Train size" ]})%string;;
  update_yaxis fig 2 (<[ "type" := "log" ]> {[ "title" := "Time (seconds)" ]})%string;;
  (* Visualize learning curves *)
  svr ← construct (SVR "rbf" 10 0.1);
  kr ← construct (KernelRidge "rbf" 0.1 0.1);
  '(train_sizes, train_scores_svr, test_scores_svr) ←
    (Xv ← load_nd2 X; yv ← load_nd1 y;
     est_learning_curve W svr (take 100 Xv) (take 100 yv) (linspace 0.1 1 10));
  '(train_sizes_abs, train_scores_kr, test_scores_kr) ←
    (Xv ← load_nd2 X; yv ← load_nd1 y;
     est_learning_curve W kr (take 100 Xv) (take 100 yv) (linspace 0.1 1 10));
  trace7 ← (y7 ← (ts ← load_nd2 test_scores_svr; alloc (ONd1 (neg1 (mean_axis1 ts))));
            new_Scatter train_sizes y7 (Some (Lit "SVR"))
              [("mode", "lines+markers"); ("marker.color", "red")]%string);
  trace8 ← (y8 ← (ts ← load_nd2 test_scores_kr; alloc (ONd1 (neg1 (mean_axis1 ts))));
            new_Scatter train_sizes y8 (Some (Lit "KRR"))
              [("mode", "lines+markers"); ("marker.color", "green")]%string);
  fig_append_trace fig trace7 2 1;;
  fig_append_trace fig trace8 2 1;;
  update_xaxis fig 3 {[ "title" := "Train size" ]}%string;;
  update_yaxis fig 3 {[ "title" := "Mean Squared Error" ]}%string;;
  update_layout fig {[ "height" := "900" ]}%string;;
  mret {| g_fig := fig; g_X' := X; g_y' := y; g_svr' := svr; g_kr' := kr;
          g_sizes := sizes; g_plot2 := plot2 |}.

(** *** Cell 6: send the figure *)

Definition cell6 (g5 : Globals5) : Py unit := py_iplot W (g_fig g5).

(** *** The last cell: style sheets, install and publish *)

Definition import_publisher : Py unit :=
  import "publisher";;
  if publisher_importable W then mret tt else raise ImportError.

(** [publisher.publish(notebook, url, title, description, **kwargs)]
    reads the notebook it is given by name. *)
Definition publish (args : list string) (kwargs : list (string * string)) : Py unit :=
  emit (EPublish args kwargs (files W !! default ""%string (head args))).

(** The markup given to [display(HTML(...))] is written without its
    inner quotation marks. *)
Definition publish_cell : Py unit :=
  import "IPython.display";;
  display "<link href=//fonts.googleapis.com/css?family=Open+Sans:600,400,300,200|Inconsolata|Ubuntu+Mono:400,700 rel=stylesheet type=text/css />";;
  display "<link rel=stylesheet type=text/css href=http://help.plot.ly/documentation/all_static/css/ipython-notebook-custom.css>";;
  shell "pip install git+https://github.com/plotly/publisher.git --upgrade" (pip_status W);;
  import_publisher;;
  publish
    ["comparision.ipynb"; "scikit-learn/plot-kernel-ridge-regression/";
     "Plot kernel ridge regression| plotly"; " "]%string
    [("title", "Plot kernel ridge regression | plotly");
     ("name", "Comparison of Kernel Ridge Regression and SVR");
     ("has_thumbnail", "true"); ("thumbnail", "thumbnail/kernel-ridge.jpg");
     ("language", "scikit-learn"); ("page_type", "example_index");
     ("display_as", "general_examples"); ("order", "8");
     ("ipynb", "~Diksha_Gabha/2659")]%string.

(** *** The notebook, run from top to bottom *)

Definition plotted : Py (Globals3 * Globals4 * Globals5) :=
  cell1;;
  cell2;;
  g3 ← cell3;
  g4 ← cell4 g3;
  g5 ← cell5 g3 g4;
  mret (g3, g4, g5).

Definition notebook : Py (Globals3 * Globals4 * Globals5) :=
  g ← plotted;
  cell6 g.2;;
  publish_cell;;
  mret g.

End Cells.
End Comparison.

(** ** The scripts shown on the 2D-histogram page *)

Module Histogram2d.
Import Numpy Py Lib.
Local Open Scope R_scope.

Section Scripts.
Context (W : World).

(** [In [1]]: [import plotly], [plotly.__version__] *)
Definition version_check : Py unit := import "plotly".

(** [In [2]]: the slider demo, an embedded frame *)
Definition slider_control : Py unit :=
  import "IPython.core.display";;
  display "<iframe height=600 width=950 src=https://jsfiddle.net/plotlygraphs/y9sdy76h/4/embedded/result,js,html/></iframe>".

Definition imports : Py loc :=
  import "plotly.plotly";;
  import "plotly.graph_objs";;
  import_numpy W.

(** [x = np.random.randn(500)], [y = np.random.randn(500)+1] *)
Definition bivariate (np_random : loc) : Py (loc * loc) :=
  x ← (a ← rng_randn W np_random 500; alloc (ONd1 a));
  y ← (a ← rng_randn W np_random 500; alloc (ONd1 (add_scalar1 a 1)));
  mret (x, y).

(** [py.iplot(data)] for a list of traces. *)
Definition iplot_data (data : list loc) : Py loc :=
  fig ← new_Figure data ∅ ∅ ∅;
  py_iplot W fig;;
  mret fig.

(** [In [3]]: 2D histogram of a bivariate normal distribution *)
Definition bivariate_histogram : Py loc :=
  np_random ← imports;
  '(x, y) ← bivariate np_random;
  h ← new_Histogram2d x y [];
  iplot_data [h].

(** [In [4]]: binning and styling options *)
Definition styled_histogram : Py loc :=
  np_random ← imports;
  '(x, y) ← bivariate np_random;
  h ← new_Histogram2d x y
        [("histnorm", "probability"); ("autobinx", "False");
         ("xbins.start", "-3"); ("xbins.end", "3"); ("xbins.size", "0.1");
         ("autobiny", "False");
         ("ybins.start", "-2.5"); ("ybins.end", "4"); ("ybins.size", "0.1");
         ("colorscale", "[[0, 'rgb(12,51,131)'], [0.25, 'rgb(10,136,186)'], [0.5, 'rgb(242,211,56)'], [0.75, 'rgb(242,143,56)'], [1, 'rgb(217,30,30)']]")]%string;
  iplot_data [h].

(** [In [1]], the last script: histogram overlaid with a scatter chart *)
Definition overlaid_histogram : Py loc :=
  np_random ← imports;
  x0 ← (a ← rng_randn W np_random 100; alloc (ONd1 (add_scalar1 (div_scalar1 a 5) 0.5)));
  y0 ← (a ← rng_randn W np_random 100; alloc (ONd1 (add_scalar1 (div_scalar1 a 5) 0.5)));
  x1 ← (a ← rng_rand1 W np_random 50; alloc (ONd1 a));
  y1 ← (a ← rng_rand1 W np_random 50; alloc (ONd1 (add_scalar1 a 1.0)));
  x ← (a ← load_nd1 x0; b ← load_nd1 x1; alloc (ONd1 (concatenate a b)));
  y ← (a ← load_nd1 y0; b ← load_nd1 y1; alloc (ONd1 (concatenate a b)));
  trace1 ← new_Scatter x0 y0 None
             [("mode", "markers"); ("showlegend", "False"); ("marker.symbol", "x");
              ("marker.opacity", "0.7"); ("marker.color", "white");
              ("marker.size", "8"); ("marker.line.width", "1")]%string;
  trace2 ← new_Scatter x1 y1 None
             [("mode", "markers"); ("showlegend", "False"); ("marker.symbol", "circle");
              ("marker.opacity", "0.7"); ("marker.color", "white");
              ("marker.size", "8"); ("marker.line.width", "1")]%string;
  trace3 ← new_Histogram2d x y
             [("colorscale", "YlGnBu"); ("zmax", "10"); ("nbinsx", "14");
              ("nbinsy", "14"); ("zauto", "False")]%string;
  emit (ECall call_Layout);;
  fig ← new_Figure [trace1; trace2; trace3]
          (list_to_map [("ticks", ""); ("showgrid", "False"); ("zeroline", "False");
                        ("nticks", "20")]%string)
          (list_to_map [("ticks", ""); ("showgrid", "False"); ("zeroline", "False");
                        ("nticks", "20")]%string)
          (list_to_map [("autosize", "False"); ("height", "550"); ("width", "550");
                        ("hovermode", "closest")]%string);
  py_iplot W fig;;
  mret fig.

End Scripts.
End Histogram2d.

(** ** The front matter of the 2D-histogram page *)

Module FrontMatter.
Local Open Scope string_scope.

(** Lines 2 to 15 of the page, between the two [---] lines. *)
Definition front_matter_lines : list string :=
  ["permalink: python/2D-Histogram/";
   "description: How to make 2D Histograms in Python with Plotly.";
   "name: Python 2D Histograms | plotly";
   "has_thumbnail: true";
   "thumbnail: thumbnail/histogram2d.jpg";
   "layout: user-guide";
   "name: 2D Histograms";
   "language: python";
   "title: Python 2D Histograms | plotly";
   "display_as: statistical";
   "has_thumbnail: true";
   "ipynb: ~notebook_demo/24";
   "order: 6";
   "page_type: u-guide"].

(** A line [key: value] is split at its first colon followed by a
    space. *)
Definition parse_line (line : string) : option (string * string) :=
  match index 0 ": " line with
  | Some i => Some (substring 0 i line,
                    substring (i + 2) (String.length line - (i + 2)) line)
  | None => None
  end.

Definition front_matter : option (list (string * string)) :=
  mapM parse_line front_matter_lines.

(** The keys the documentation pipeline reads. *)
Definition pipeline_keys : list string :=
  ["permalink"; "description"; "name"; "layout"; "language"; "title";
   "display_as"; "has_thumbnail"; "thumbnail"; "ipynb"; "order"; "page_type"].

Definition known_key (k : string) : bool :=
  bool_decide (k ∈ pipeline_keys).

(** How often a key occurs in a list of entries. *)
Definition occurrences (k : string) (entries : list (string * string)) : nat :=
  length (filter (λ e, e.1 = k) entries).

(** The values a key has in a list of entries, in the order of the lines. *)
Definition values_of (k : string) (entries : list (string * string)) : list string :=
  snd <$> filter (λ e, e.1 = k) entries.

(** The claim of a well-formed mapping: every line is one of the keys with
    a value, and no key occurs twice. *)
Definition well_formed_mapping (lines : list string) : Prop :=
  ∃ entries, mapM parse_line lines = Some entries ∧
    Forall (λ e, known_key e.1 = true) entries ∧
    ∀ k, (occurrences k entries ≤ 1)%nat.

End FrontMatter.

(** ** What is observed of a session *)

Module Observe.
Import Numpy Py.

(** The calls a script makes, without what comes back: warnings, printed
    text, the exit status of a shell command and the file that [publish]
    read are left out. *)
Inductive call :=
| CImport (module : string)
| CApi (f : api)
| CShell (cmd : string)
| CPublish (args : list string) (kwargs : list (string * string)).

Definition call_of (e : event) : option call :=
  match e with
  | EImport m => Some (CImport m)
  | ECall f => Some (CApi f)
  | EShell cmd _ => Some (CShell cmd)
  | EPublish args kwargs _ => Some (CPublish args kwargs)
  | EWarn _ | EPrint _ => None
  end.

Definition calls (l : list event) : list call := omap call_of l.

Definition warnings (l : list event) : list string :=
  omap (λ e, match e with EWarn m => Some m | _ => None end) l.

(** The four kinds of step of an example script.  Imports, clock
    readings, [display] and shell commands belong to no step. *)
Inductive phase := Generate | FitPredict | Plot | Publish.

#[global] Instance phase_eq_dec : EqDecision phase.
Proof. solve_decision. Defined.

Definition phase_of (c : call) : option phase :=
  match c with
  | CApi call_RandomState | CApi call_rand | CApi call_randn => Some Generate
  | CApi call_SVR | CApi call_KernelRidge | CApi call_GridSearchCV
  | CApi call_fit | CApi call_predict | CApi call_learning_curve => Some FitPredict
  | CApi call_make_subplots | CApi call_Scatter | CApi call_Histogram2d
  | CApi call_Layout | CApi call_Figure | CApi call_update
  | CApi call_append_trace | CApi call_iplot => Some Plot
  | CPublish _ _ => Some Publish
  | CApi call_time | CApi call_display | CImport _ | CShell _ => None
  end.

Definition phases (l : list event) : list phase := omap phase_of (calls l).

(** Consecutive steps of one kind count once. *)
Fixpoint collapse (l : list phase) : list phase :=
  match l with
  | [] => []
  | p :: l' =>
      match collapse l' with
      | q :: r => if decide (p = q) then q :: r else p :: q :: r
      | [] => [p]
      end
  end.

Definition stages (l : list event) : list phase := collapse (phases l).

(** Generate, then fit and predict, then plot, then publish. *)
Definition four_step_order (l : list event) : Prop :=
  stages l = [Generate; FitPredict; Plot; Publish].

(** The data given to a trace. *)
Inductive data_kind := FloatList | OtherList | Array | NoData.

#[global] Instance data_kind_eq_dec : EqDecision data_kind.
Proof. solve_decision. Defined.

Definition is_float (v : value) : bool :=
  match v with VFloat _ => true | _ => false end.

Definition kind_at (k : Kernel) (l : loc) : data_kind :=
  match heap k !! l with
  | Some (OList items) => if forallb is_float items then FloatList else OtherList
  | Some (ONd1 _) | Some (ONd2 _) => Array
  | _ => NoData
  end.

(** What [json.dumps] accepts among these: a list of floats, not a numpy
    array. *)
Definition json_serializable (k : Kernel) (l : loc) : bool :=
  bool_decide (kind_at k l = FloatList).

Definition trace_at (k : Kernel) (t : loc) : option trace :=
  match heap k !! t with Some (OTrace tr) => Some tr | _ => None end.

Definition figure_at (k : Kernel) (fig : loc) : option figure :=
  match heap k !! fig with Some (OFigure f) => Some f | _ => None end.

(** The traces of a figure, in order. *)
Definition traces_of (k : Kernel) (fig : loc) : option (list trace) :=
  f ← figure_at k fig; mapM (trace_at k) (fig_data f).

(** For every trace: its axes, the kind of its [x] and of its [y]. *)
Definition trace_view (k : Kernel) (t : trace) : option nat * data_kind * data_kind :=
  (tr_axes t, kind_at k (tr_x t), kind_at k (tr_y t)).

Definition figure_view (k : Kernel) (fig : loc)
  : option (list (option nat * data_kind * data_kind)) :=
  match traces_of k fig with
  | Some ts => Some (trace_view k <$> ts)
  | None => None
  end.

Definition all_serializable (k : Kernel) (fig : loc) : Prop :=
  ∃ ts, traces_of k fig = Some ts ∧
        Forall (λ t, json_serializable k (tr_x t) = true ∧
                     json_serializable k (tr_y t) = true) ts.

(** The cell of a subplot grid at a row and a column, counted from 1. *)
Definition grid_cell (f : figure) (row col : nat) : option (option nat) :=
  cells ← fig_grid f !! (row - 1); cells !! (col - 1).

(** The traces that were appended to the subplot at a row and a column. *)
Definition subplot_traces (k : Kernel) (fig : loc) (row col : nat) : option (list trace) :=
  f ← figure_at k fig;
  ts ← traces_of k fig;
  match grid_cell f row col with
  | Some (Some n) => Some (filter (λ t, tr_axes t = Some n) ts)
  | _ => None
  end.

(** A step changes no object that exists when it starts. *)
Definition immutable_step {A} (m : Py A) : Prop :=
  ∀ k a k', m k = Ok a k' → ∀ l o, heap k !! l = Some o → heap k' !! l = Some o.

(** The elements of a sequence object, and the float a numeric element
    converts to. *)
Definition elements (o : obj) : option (list value) :=
  match o with
  | ONd1 a => Some (VFloat <$> a)
  | ONd2 a => Some (VRow <$> a)
  | OList a => Some a
  | _ => None
  end.

Definition float_of (v : value) : option R :=
  match v with
  | VFloat r => Some r
  | VRow [r] => Some r
  | _ => None
  end.

(** A 2-D array with one column. *)
Definition column (a : list (list R)) : Prop := Forall (λ row, length row = 1) a.

(** [a[idx]] when every index is in range. *)
Definition select {A} (d : A) (a : list A) (idx : list nat) : list A :=
  (λ i, default d (a !! i)) <$> idx.

End Observe.

(** ** The values the notebook computes *)

Module Expected.
Import Numpy Py Comparison Observe.
Local Open Scope R_scope.

(** The arrays [X] and [y] of a sample drawn with the generator at
    position [pos] of its stream [u], and the noise added to [y]. *)
Definition sample_X (u : nat → R) (pos : nat) : list (list R) :=
  mul2 5 (rand2 u pos (Z.to_nat 10000) 1).

Definition sample_noise (u : nat → R) (pos : nat) : list R :=
  mul1 3 (rsub1 0.5 (rand1 u (pos + Z.to_nat 10000 * 1) (Z.to_nat 2000))).

Definition sample_y (u : nat → R) (pos : nat) : list R :=
  imap (λ i v, if decide (i mod 5 = 0)%nat
               then Rplus v (default 0 (sample_noise u pos !! (i / 5)%nat))
               else v)
       (ravel (sin2 (sample_X u pos))).

(** What scikit-learn guarantees about [support_]: the indices point
    into the training set. *)
Definition support_in_range (W : World) : Prop :=
  ∀ s Xt yt, Forall (λ i, i < length Xt)%nat (support W s Xt yt).

(** What numpy guarantees about [rand]: draws from [0, 1). *)
Definition uniform_in_range (W : World) : Prop :=
  ∀ seed n, 0 <= uniform W seed n < 1.

(** The calls of one pass of the timing loop and of the seven passes. *)
Definition timing_calls : list call :=
  [CApi call_time; CApi call_fit; CApi call_time;
   CApi call_time; CApi call_predict; CApi call_time].

Definition estimator_calls : list call :=
  concat (replicate 7 timing_calls) ++ [CApi call_Scatter; CApi call_Scatter].

Definition cell1_calls : list call := [CImport "sklearn"].

Definition cell2_calls : list call :=
  CImport <$> ["plotly.plotly"; "plotly.graph_objs"; "plotly.tools"; "__future__";
               "time"; "numpy"; "sklearn.svm"; "sklearn.model_selection";
               "sklearn.model_selection"; "sklearn.kernel_ridge"]%string.

Definition cell3_calls : list call :=
  [CApi call_RandomState; CApi call_rand; CApi call_rand].

Definition cell4_calls : list call :=
  [CApi call_SVR; CApi call_GridSearchCV; CApi call_KernelRidge; CApi call_GridSearchCV;
   CApi call_time; CApi call_fit; CApi call_time;
   CApi call_time; CApi call_fit; CApi call_time;
   CApi call_time; CApi call_predict; CApi call_time;
   CApi call_time; CApi call_predict; CApi call_time].

Definition cell5_calls : list call :=
  [CApi call_make_subplots;
   CApi call_Scatter; CApi call_Scatter; CApi call_Scatter; CApi call_Scatter;
   CApi call_update; CApi call_update;
   CApi call_append_trace; CApi call_append_trace;
   CApi call_append_trace; CApi call_append_trace;
   CApi call_rand; CApi call_rand;
   CApi call_KernelRidge; CApi call_SVR]
  ++ estimator_calls ++ estimator_calls ++
  [CApi call_append_trace; CApi call_append_trace;
   CApi call_append_trace; CApi call_append_trace;
   CApi call_update; CApi call_update;
   CApi call_SVR; CApi call_KernelRidge;
   CApi call_learning_curve; CApi call_learning_curve;
   CApi call_Scatter; CApi call_Scatter;
   CApi call_append_trace; CApi call_append_trace;
   CApi call_update; CApi call_update; CApi call_update].

Definition plotted_calls : list call :=
  cell1_calls ++ cell2_calls ++ cell3_calls ++ cell4_calls ++ cell5_calls.

Definition pip_install : string :=
  "pip install git+https://github.com/plotly/publisher.git --upgrade".

Definition publish_args : list string :=
  ["comparision.ipynb"; "scikit-learn/plot-kernel-ridge-regression/";
   "Plot kernel ridge regression| plotly"; " "]%string.

Definition publish_kwargs : list (string * string) :=
  [("title", "Plot kernel ridge regression | plotly");
   ("name", "Comparison of Kernel Ridge Regression and SVR");
   ("has_thumbnail", "true"); ("thumbnail", "thumbnail/kernel-ridge.jpg");
   ("language", "scikit-learn"); ("page_type", "example_index");
   ("display_as", "general_examples"); ("order", "8");
   ("ipynb", "~Diksha_Gabha/2659")]%string.

(** The calls of cell 6 and of the last cell up to the import of
    [publisher], and the call that follows it. *)
Definition install_calls : list call :=
  [CApi call_iplot; CImport "IPython.display"; CApi call_display; CApi call_display;
   CShell pip_install; CImport "publisher"].

Definition notebook_calls : list call :=
  plotted_calls ++ install_calls ++ [CPublish publish_args publish_kwargs].

(** The warnings of a run: two from the float sizes of [rand] and two
    for each of the fourteen fits on a float slice, then what the
    plotting service answers. *)
Definition plot_warnings (W : World) : list string :=
  if plot_warning W
  then ["UserWarning: Woah there! Look at all those points!";
        "The draw time for this plot will be slow for all clients.";
        "UserWarning: Estimated Draw Time Too Long"]%string
  else [].

Definition notebook_warnings (W : World) : list string :=
  replicate 30 "VisibleDeprecationWarning"%string ++ plot_warnings W.

(** The figure of the notebook when cell 5 ends: for every trace its
    axes and the kinds of its data. *)
Definition plotted_view : list (option nat * data_kind * data_kind) :=
  replicate 4 (Some 1%nat, FloatList, FloatList) ++
  replicate 4 (Some 2%nat, Array, FloatList) ++
  replicate 2 (Some 3%nat, Array, Array).

(** The names the cells bind, as references. *)
Definition G3 : Globals3 := {| g_rng := 0; g_X := 1; g_y := 2; g_X_plot := 3 |}.

Definition G4 (W : World) : Globals4 :=
  {| g_svr := 4; g_kr := 5;
     g_svr_fit := now W 1 - now W 0; g_kr_fit := now W 3 - now W 2;
     g_y_svr := 6; g_svr_predict := now W 5 - now W 4;
     g_y_kr := 7; g_kr_predict := now W 7 - now W 6 |}.

Definition G5 : Globals5 :=
  {| g_fig := 8; g_X' := 25; g_y' := 26; g_svr' := 39; g_kr' := 40;
     g_sizes := 27; g_plot2 := 28 |}.

(** What the theorems below use of the session when cell 5 ends. *)
Record plotted_session (W : World) (k : Kernel) : Prop := {
  ps_calls : calls (log k) = plotted_calls;
  ps_warnings : warnings (log k) = replicate 30 "VisibleDeprecationWarning"%string;
  ps_grid : fig_grid <$> figure_at k 8 = Some [[Some 1; Some 2]; [Some 3; None]]%nat;
  ps_view : figure_view k 8 = Some plotted_view;
  ps_count : length ∘ fig_data <$> figure_at k 8 = Some 10%nat;
  ps_subplot11 : length <$> subplot_traces k 8 1 1 = Some 4%nat;
  ps_subplot12 : length <$> subplot_traces k 8 1 2 = Some 4%nat;
  ps_subplot21 : length <$> subplot_traces k 8 2 1 = Some 2%nat;
  ps_X : heap k !! 1%nat = Some (ONd2 (sample_X (uniform W 0) 0));
  ps_y : heap k !! 2%nat = Some (ONd1 (sample_y (uniform W 0) 0));
  ps_X' : heap k !! 25%nat =
          Some (ONd2 (sample_X (uniform W 0) (0 + Z.to_nat 10000 * 1 + Z.to_nat 2000)));
  ps_y' : heap k !! 26%nat =
          Some (ONd1 (sample_y (uniform W 0) (0 + Z.to_nat 10000 * 1 + Z.to_nat 2000))) }.

(** The two artifacts, by path from the directory of the notebook. *)
Definition notebook_path : string := "comparision.ipynb".
Definition page_path : string :=
  "../../python/statistical/histogram2d/2015-06-30-2d-histograms.html".

(** What cell 6 and the last cell add to the log. *)
Definition iplot_events (W : World) : list event :=
  ECall call_iplot :: (EWarn <$> plot_warnings W).

Definition install_events (W : World) : list event :=
  [EImport "IPython.display"; ECall call_display; ECall call_display;
   EShell pip_install (pip_status W); EImport "publisher"].

Definition publish_event (W : World) : event :=
  EPublish publish_args publish_kwargs (files W !! notebook_path).

(** The stages of the notebook, in the order of the run. *)
Definition notebook_stages : list phase :=
  [Generate; FitPredict; Plot; Generate; FitPredict; Plot;
   FitPredict; Plot; FitPredict; Plot; Publish].

(** The claim that values stay unchanged once produced, at the places of
    the notebook that write a name twice: the noise step changes no object
    that exists when it starts, and the names [X], [y], [svr] and [kr]
    refer at the end of cell 5 to what cells 3 and 4 bound them to. *)
Definition values_stay_unchanged (W : World) : Prop :=
  (∀ rng X y, immutable_step (add_noise W rng X y)) ∧
  (∀ g3 g4 g5 k, plotted W empty_kernel = Ok (g3, g4, g5) k →
     g_X' g5 = g_X g3 ∧ g_y' g5 = g_y g3 ∧ g_svr' g5 = g_svr g4 ∧ g_kr' g5 = g_kr g4).

(** A session that holds a generator and nothing else. *)
Definition generator_only (seed : Z) (pos : nat) : Kernel :=
  mkKernel [ORandomState seed pos] 0 [].

(** A world for examples: every draw is 0, the clock counts its
    readings, nothing is learnt, the install fails as in the recorded
    run, and the service warns as in the recorded run. *)
Definition W0 : World :=
  {| uniform := λ _ _, 0; gauss := λ _ _, 0; entropy := 0;
     now := INR;
     regress := λ _ _ _ _, 0; support := λ _ _ _, [];
     curve := λ _ _ _ _, ([], [], []);
     krr_first := true; pip_status := 1;
     publisher_importable := true; plot_warning := true;
     files := ∅ |}.

(** Two worlds that differ at most in the content of one file. *)
Definition same_but_file (path : string) (W W' : World) : Prop :=
  uniform W = uniform W' ∧ gauss W = gauss W' ∧ entropy W = entropy W' ∧
  now W = now W' ∧ regress W = regress W' ∧ support W = support W' ∧
  curve W = curve W' ∧ krr_first W = krr_first W' ∧
  pip_status W = pip_status W' ∧
  publisher_importable W = publisher_importable W' ∧
  plot_warning W = plot_warning W' ∧
  ∀ q, q ≠ path → files W !! q = files W' !! q.

(** What the theorems below use of the session of a script of the
    2D-histogram page that plots [n] traces. *)
Record histogram_session (n : nat) (fig : loc) (k : Kernel) : Prop := {
  hs_stages : stages (log k) = [Generate; Plot];
  hs_view : figure_view k fig = Some (replicate n (None, Array, Array)) }.

(** The world in which one file has the given content, and which is the
    same otherwise. *)
Definition with_file (path content : string) (W : World) : World :=
  {| uniform := uniform W; gauss := gauss W; entropy := entropy W; now := now W;
     regress := regress W; support := support W; curve := curve W;
     krr_first := krr_first W; pip_status := pip_status W;
     publisher_importable := publisher_importable W;
     plot_warning := plot_warning W;
     files := <[path := content]> (files W) |}.

End Expected.


(** ** The timing loop and the figure, in detail *)

Module Timing.
Import Numpy Py Observe.
Local Open Scope R_scope.

(** The durations a run of the timing loop appends to [train_time] and
    to [test_time] when it starts with the clock read [c] times: every
    pass reads the clock four times. *)
Definition train_durations (W : World) (c n : nat) : list value :=
  (λ j, VFloat (now W (c + 4 * j + 1) - now W (c + 4 * j))) <$> seq 0 n.

Definition test_durations (W : World) (c n : nat) : list value :=
  (λ j, VFloat (now W (c + 4 * j + 3) - now W (c + 4 * j + 2))) <$> seq 0 n.

(** The training data of the estimator after the loop. *)
Definition last_fit (sz : list R) (Xv : list (list R)) (yv : list R)
    (old : option (list (list R) * list R)) : option (list (list R) * list R) :=
  match last sz with
  | Some s => Some (take (Z.to_nat (trunc s)) Xv, take (Z.to_nat (trunc s)) yv)
  | None => old
  end.

(** What scikit-learn asks of the calls [estimator.fit(X[:n], y[:n])] and
    [estimator.predict(X_plot[:1000])] of the loop, besides [X] and [y]
    being as long as each other: an RBF regressor with positive
    parameters, as the two of the dict are, and arrays with one column
    and at least one row; [fit] raises [ValueError] on an empty slice, so
    the sizes must be at least 1. *)
Definition rbf_regressor (s : est_spec) : Prop :=
  match s with
  | SVR kernel C gamma => kernel = "rbf"%string ∧ 0 < C ∧ 0 < gamma
  | KernelRidge kernel alpha gamma => kernel = "rbf"%string ∧ 0 < alpha ∧ 0 < gamma
  | GridSearchCV _ _ _ => False
  end.

Definition fit_and_predict_accept (spec : est_spec) (Xv : list (list R))
    (yv : list R) (Xp : list (list R)) : Prop :=
  rbf_regressor spec ∧ column Xv ∧ column Xp ∧
  (0 < length Xv)%nat ∧ length Xv = length yv ∧ (0 < length Xp)%nat.
End Timing.

Module Detail.
Import Numpy Py Comparison Observe Expected Timing.
Local Open Scope R_scope.
Local Open Scope string_scope.

(** What a script printed, in order. *)
Definition prints (l : list event) : list text :=
  omap (λ e, match e with EPrint t => Some t | _ => None end) l.

(** The value of a trace attribute. *)
Fixpoint assoc (key : string) (l : list (string * string)) : option string :=
  match l with
  | [] => None
  | (k, v) :: l' => if String.eqb key k then Some v else assoc key l'
  end.

(** The colour a trace is drawn in: of its markers, or else of its line. *)
Definition colour (t : trace) : option string :=
  match assoc "marker.color" (tr_attrs t) with
  | Some c => Some c
  | None => assoc "marker.line.color" (tr_attrs t)
  end.

(** A field of every trace of a figure, in order. *)
Definition trace_fields {A} (f : trace → A) (k : Kernel) (fig : loc) : option (list A) :=
  match traces_of k fig with
  | Some ts => Some (f <$> ts)
  | None => None
  end.

(** Both entries of the dict of estimators. *)
Definition for_both {A} (f : string → list A) (names : list string) : list A :=
  concat (f <$> names).

(** The title and the scale of an axis, and of a figure: its x axes,
    its y axes, the titles of its subplots and its height. *)
Definition axis_view (m : gmap string string) : option string * option string :=
  (m !! "title", m !! "type").

Definition layout_view (f : figure) :=
  (axis_view <$> fig_xaxes f, axis_view <$> fig_yaxes f, fig_titles f,
   fig_layout f !! "height").

(** The floats held by a data object of a trace. *)
Definition data_at (k : Kernel) (l : loc) : option (list R) :=
  o ← heap k !! l; vs ← elements o; mapM float_of vs.

(** The training data of an estimator. *)
Definition fitted_at (k : Kernel) (l : loc) : option (option (list (list R) * list R)) :=
  match heap k !! l with
  | Some (OEstimator _ f) => Some f
  | _ => None
  end.

(** The names of the dict of estimators in the order of iteration. *)
Definition dict_order (W : World) : list string :=
  if krr_first W then ["KRR"; "SVR"] else ["SVR"; "KRR"].

(** The two samples, the grid and the fitted curves of a run. *)
Definition sample1_X (W : World) := sample_X (uniform W 0) 0.
Definition sample1_y (W : World) := sample_y (uniform W 0) 0.
Definition sample2_X (W : World) := sample_X (uniform W 0) (0 + Z.to_nat 10000 * 1 + Z.to_nat 2000).
Definition sample2_y (W : World) := sample_y (uniform W 0) (0 + Z.to_nat 10000 * 1 + Z.to_nat 2000).
Definition plot_grid : list (list R) := new_axis (linspace 0 5 (Z.to_nat 100000)).
Definition svr_search : est_spec :=
  GridSearchCV (SVR "rbf" 1 0.1) 5 [("C", [1; 10; 100; 1000]%R); ("gamma", logspace (-2) 2 5)].
Definition kr_search : est_spec :=
  GridSearchCV (KernelRidge "rbf" 1 0.1) 5
    [("alpha", [1; 0.1; 0.01; 0.001]%R); ("gamma", logspace (-2) 2 5)].
Definition sv_ind (W : World) : list nat :=
  support W svr_search (take 100 (sample1_X W)) (take 100 (sample1_y W)).
Definition svr_curve (W : World) :=
  curve W (SVR "rbf" 10 0.1) (take 100 (sample2_X W)) (take 100 (sample2_y W)) (linspace 0.1 1 10).
Definition kr_curve (W : World) :=
  curve W (KernelRidge "rbf" 0.1 0.1) (take 100 (sample2_X W)) (take 100 (sample2_y W)) (linspace 0.1 1 10).

(** What the theorems below use of the objects and of the output of
    the session when cell 5 ends. *)
Record plotted_detail (W : World) (k : Kernel) : Prop := {
  pd_layout :
    layout_view <$> figure_at k 8 =
      Some ([(Some "data", None); (Some "Train size", Some "log");
             (Some "Train size", None)],
            [(Some "target", None); (Some "Time (seconds)", Some "log");
             (Some "Mean Squared Error", None)],
            ["SVR versus Kernel Ridge"; "Execution Time"; "Learning Curves"],
            Some "900");
  pd_cells : fig_grid <$> figure_at k 8 = Some [[Some 1; Some 2]; [Some 3; None]]%nat;
  pd_axes :
    trace_fields tr_axes k 8 =
      Some (replicate 4 (Some 1) ++ replicate 4 (Some 2) ++ replicate 2 (Some 3))%nat%list;
  pd_names :
    trace_fields tr_name k 8 =
      Some ([Some (Lit "SVR support vectors"); Some (Lit "data");
             Some (Fmt "SVR (fit: %.3fs, predict: %.3fs)"
                       [AFloat (now W 1 - now W 0); AFloat (now W 5 - now W 4)]);
             Some (Fmt "KRR (fit: %.3fs, predict: %.3fs)"
                       [AFloat (now W 3 - now W 2); AFloat (now W 7 - now W 6)])] ++
            for_both (λ n, [Some (Fmt "%s (train)" [AStr n]);
                            Some (Fmt "%s (test)" [AStr n])]) (dict_order W) ++
            [Some (Lit "SVR"); Some (Lit "KRR")])%list;
  pd_colours :
    trace_fields colour k 8 =
      Some ([Some "red"; Some "green"; Some "red"; Some "green"] ++
            for_both (λ n, [Some (color_of n); Some (color_of n)]) (dict_order W) ++
            [Some "red"; Some "green"])%list;
  pd_xs : trace_fields tr_x k 8 = Some [10; 15; 19; 22; 27; 27; 27; 27; 41; 41]%nat;
  pd_ys : trace_fields tr_y k 8 = Some [12; 17; 20; 23; 31; 32; 35; 36; 47; 49]%nat;
  pd_plot2 : heap k !! 28%nat = Some (OList [VRef 33; VRef 34; VRef 37; VRef 38]);
  pd_data : fig_data <$> figure_at k 8 = Some [13; 18; 21; 24; 33; 34; 37; 38; 48; 50]%nat;
  pd_x1 : heap k !! 10%nat = Some (OList (VFloat <$> ravel (select [] (sample1_X W) (sv_ind W))));
  pd_y1 : heap k !! 12%nat = Some (OList (VFloat <$> select 0%R (sample1_y W) (sv_ind W)));
  pd_x2 : heap k !! 15%nat = Some (OList (VFloat <$> ravel (take 100 (sample1_X W))));
  pd_y2 : heap k !! 17%nat = Some (OList (VFloat <$> take 100 (sample1_y W)));
  pd_x3 : heap k !! 19%nat = Some (OList (VFloat <$> ravel plot_grid));
  pd_y3 : heap k !! 20%nat =
            Some (OList (VFloat <$> (regress W svr_search (take 100 (sample1_X W)) (take 100 (sample1_y W))
                                       <$> plot_grid)));
  pd_x4 : heap k !! 22%nat = Some (OList (VFloat <$> ravel plot_grid));
  pd_y4 : heap k !! 23%nat =
            Some (OList (VFloat <$> (regress W kr_search (take 100 (sample1_X W)) (take 100 (sample1_y W))
                                       <$> plot_grid)));
  pd_sizes : heap k !! 27%nat = Some (ONd1 (logspace 1 4 7));
  pd_train1 : heap k !! 31%nat = Some (OList (train_durations W 8 7));
  pd_test1 : heap k !! 32%nat = Some (OList (test_durations W 8 7));
  pd_train2 : heap k !! 35%nat = Some (OList (train_durations W 36 7));
  pd_test2 : heap k !! 36%nat = Some (OList (test_durations W 36 7));
  pd_sizes_svr : heap k !! 41%nat = Some (ONd1 (svr_curve W).1.1);
  pd_sizes_kr : heap k !! 44%nat = Some (ONd1 (kr_curve W).1.1);
  pd_y7 : heap k !! 47%nat = Some (ONd1 (neg1 (mean_axis1 (svr_curve W).2)));
  pd_y8 : heap k !! 49%nat = Some (ONd1 (neg1 (mean_axis1 (kr_curve W).2)));
  pd_rng : heap k !! 0%nat =
             Some (ORandomState 0 (0 + Z.to_nat 10000 * 1 + Z.to_nat 2000 +
                                   Z.to_nat 10000 * 1 + Z.to_nat 2000));
  pd_X : heap k !! 1%nat = Some (ONd2 (sample1_X W));
  pd_y : heap k !! 2%nat = Some (ONd1 (sample1_y W));
  pd_X' : heap k !! 25%nat = Some (ONd2 (sample2_X W));
  pd_y' : heap k !! 26%nat = Some (ONd1 (sample2_y W));
  pd_grid : heap k !! 3%nat = Some (ONd2 plot_grid);
  pd_svr : heap k !! 4%nat =
             Some (OEstimator svr_search (Some (take 100 (sample1_X W), take 100 (sample1_y W))));
  pd_kr : heap k !! 5%nat =
            Some (OEstimator kr_search (Some (take 100 (sample1_X W), take 100 (sample1_y W))));
  pd_krr_timed : heap k !! 29%nat =
    Some (OEstimator (KernelRidge "rbf" 0.1 10)
            (last_fit (logspace 1 4 7) (sample2_X W) (sample2_y W) None));
  pd_svr_timed : heap k !! 30%nat =
    Some (OEstimator (SVR "rbf" 10 10) (last_fit (logspace 1 4 7) (sample2_X W) (sample2_y W) None));
  pd_svr' : heap k !! 39%nat = Some (OEstimator (SVR "rbf" 10 0.1) None);
  pd_kr' : heap k !! 40%nat = Some (OEstimator (KernelRidge "rbf" 0.1 0.1) None);
  pd_prints :
    prints (log k) =
      [Fmt "SVR complexity and bandwidth selected and model fitted in %.3f s"
           [AFloat (now W 1 - now W 0)];
       Fmt "KRR complexity and bandwidth selected and model fitted in %.3f s"
           [AFloat (now W 3 - now W 2)];
       Fmt "Support vector ratio: %.3f"
           [AFloat (true_div (Z.of_nat (length (sv_ind W))) (Z.of_nat 100))];
       Fmt "SVR prediction for %d inputs in %.3f s"
           [AInt (Z.of_nat (length plot_grid)); AFloat (now W 5 - now W 4)];
       Fmt "KRR prediction for %d inputs in %.3f s"
           [AInt (Z.of_nat (length plot_grid)); AFloat (now W 7 - now W 6)];
       Lit "This is the format of your plot grid:"];
  pd_clock : clock k = 64%nat;
  pd_length : length (heap k) = 51%nat }.

End Detail.


(** * Proofs *)

Import Numpy Py Lib Comparison Observe Expected.
Local Open Scope R_scope.

(** ** Running a program step by step *)

Lemma bind_run {A B} (m : Py A) (f : A → Py B) k :
  (m ≫= f) k = match m k with Ok a k' => f a k' | Raise e k' => Raise e k' end.
Proof. reflexivity. Qed.

Lemma lookup_alloc (h : list obj) o : (h ++ [o]) !! length h = Some o.
Proof. rewrite lookup_app_r by lia. by rewrite Nat.sub_diag. Qed.

Ltac py_unfold :=
  unfold load_nd1, load_nd2, load_list, load_trace, load_figure;
  unfold mbind, Py_bind, mret, Py_ret, raise, lift, alloc, load, store, emit, tick.

Ltac py_simpl := cbn beta iota delta [heap clock log].

(** Evaluation of everything that does not look inside an array. *)
Ltac py_exec :=
  lazy beta iota zeta delta
    [mbind Py_bind mret Py_ret raise lift alloc load store emit tick
     load_nd1 load_nd2 load_list load_trace load_figure
     heap clock log length app lookup list_lookup insert list_insert
     for_each fst snd g_rng g_X g_y g_X_plot
     g_svr g_kr g_svr_fit g_kr_fit g_y_svr g_svr_predict g_y_kr g_kr_predict
     g_fig g_X' g_y' g_svr' g_kr' g_sizes g_plot2
     plotted cell1 cell2 cell3 cell4 cell5 cell6
     import print display time_time new_RandomState construct ctor_calls
     est_predict est_support est_learning_curve
     make_subplots number_grid number_row replicate Nat.sub Nat.eqb orb
     new_Scatter new_Histogram2d new_Figure
     fig_append_trace update_xaxis update_yaxis update_layout
     slice1 slice2 time_estimator time_and_trace getitem len index_of_float
     shell empty_kernel list_append
     fig_grid fig_data fig_xaxes fig_yaxes fig_titles fig_layout
     tr_type tr_x tr_y tr_name tr_attrs tr_axes Lit seq].

(** ** Arithmetic of the arrays *)

Lemma trunc_IZR z : (0 <= z)%Z → trunc (IZR z) = z.
Proof.
  intros Hz. unfold trunc. destruct (Rle_dec 0 (IZR z)) as [_|Hn].
  - symmetry. apply Int_part_spec. lra.
  - exfalso. apply Hn. by apply IZR_le.
Qed.

Lemma noise_count :
  Z.to_nat (trunc (true_div (Z.of_nat (Z.to_nat 10000)) 5)) = Z.to_nat 2000.
Proof.
  rewrite Z2Nat.id by lia. unfold true_div.
  replace (IZR 10000 / IZR 5) with (IZR 2000) by lra.
  by rewrite trunc_IZR by lia.
Qed.

Lemma length_rand1 u pos n : length (rand1 u pos n) = n.
Proof. unfold rand1. by rewrite length_fmap, length_seq. Qed.

Lemma length_rand2 u pos rows cols : length (rand2 u pos rows cols) = rows.
Proof. unfold rand2. by rewrite length_fmap, length_seq. Qed.

Lemma lookup_rand1 u pos n i : (i < n)%nat → rand1 u pos n !! i = Some (u (pos + i)%nat).
Proof. intros Hi. unfold rand1. by rewrite list_lookup_fmap, lookup_seq_lt. Qed.

Lemma rand2_col u pos rows : rand2 u pos rows 1 = new_axis (rand1 u pos rows).
Proof.
  unfold rand2, new_axis, rand1. apply list_eq. intros i.
  rewrite !list_lookup_fmap. destruct (decide (i < rows)%nat) as [Hi|Hi].
  - rewrite !lookup_seq_lt by done. simpl. by rewrite Nat.mul_1_r.
  - rewrite !lookup_seq_ge by lia. done.
Qed.

Lemma ravel_new_axis a : ravel (new_axis a) = a.
Proof. unfold ravel, new_axis. induction a as [|x a IH]; [done|]. csimpl. by f_equal. Qed.

Lemma sin2_new_axis a : sin2 (new_axis a) = new_axis (sin1 a).
Proof. unfold sin2, new_axis, sin1. by rewrite <- !list_fmap_compose. Qed.

Lemma mul2_new_axis c a : mul2 c (new_axis a) = new_axis (mul1 c a).
Proof. unfold mul2, new_axis, mul1. by rewrite <- !list_fmap_compose. Qed.

Lemma column_new_axis a : column (new_axis a).
Proof. unfold column, new_axis. by apply Forall_fmap, Forall_true. Qed.

Lemma column_take n a : column a → column (take n a).
Proof. apply Forall_take. Qed.

Lemma column_select a idx :
  column a → Forall (λ i, i < length a)%nat idx → column (select [] a idx).
Proof.
  intros Ha Hidx. unfold column, select. apply Forall_fmap.
  eapply Forall_impl; [exact Hidx|]. intros i Hi. simpl.
  destruct (lookup_lt_is_Some_2 a i Hi) as [x Hx]. rewrite Hx. simpl.
  by eapply (Forall_lookup_1 _ _ _ _ Ha).
Qed.

Lemma take_indices_select {A} (d : A) a idx :
  Forall (λ i, i < length a)%nat idx → take_indices a idx = Some (select d a idx).
Proof.
  intros Hidx. unfold take_indices, select. apply mapM_Some.
  induction Hidx as [|i idx Hi _ IH]; csimpl; constructor; [|done].
  by destruct (lookup_lt_is_Some_2 a i Hi) as [x ->].
Qed.

Lemma logspace_1_4_7 :
  logspace 1 4 7 =
    [Rpower 10 (1 + INR 0 * (4 - 1) / INR 6); Rpower 10 (1 + INR 1 * (4 - 1) / INR 6);
     Rpower 10 (1 + INR 2 * (4 - 1) / INR 6); Rpower 10 (1 + INR 3 * (4 - 1) / INR 6);
     Rpower 10 (1 + INR 4 * (4 - 1) / INR 6); Rpower 10 (1 + INR 5 * (4 - 1) / INR 6);
     Rpower 10 (1 + INR 6 * (4 - 1) / INR 6)].
Proof. reflexivity. Qed.

(** ** The sample *)

Lemma sample_X_new_axis u pos :
  sample_X u pos = new_axis (mul1 5 (rand1 u pos (Z.to_nat 10000))).
Proof. unfold sample_X. by rewrite rand2_col, mul2_new_axis. Qed.

Lemma length_sample_X u pos : length (sample_X u pos) = Z.to_nat 10000.
Proof. unfold sample_X, mul2. by rewrite length_fmap, length_rand2. Qed.

Lemma column_sample_X u pos : column (sample_X u pos).
Proof. rewrite sample_X_new_axis. apply column_new_axis. Qed.

Lemma ravel_sin2_sample_X u pos :
  ravel (sin2 (sample_X u pos)) = sin1 (mul1 5 (rand1 u pos (Z.to_nat 10000))).
Proof. by rewrite sample_X_new_axis, sin2_new_axis, ravel_new_axis. Qed.

Lemma length_ravel_sin2_sample_X u pos :
  length (ravel (sin2 (sample_X u pos))) = Z.to_nat 10000.
Proof.
  rewrite ravel_sin2_sample_X. unfold sin1, mul1.
  by rewrite !length_fmap, length_rand1.
Qed.

Lemma length_sample_noise u pos : length (sample_noise u pos) = Z.to_nat 2000.
Proof. unfold sample_noise, mul1, rsub1. by rewrite !length_fmap, length_rand1. Qed.

Lemma length_sample_y u pos : length (sample_y u pos) = Z.to_nat 10000.
Proof. unfold sample_y. by rewrite length_imap, length_ravel_sin2_sample_X. Qed.

Lemma iadd_step_sample u pos :
  iadd_step 5 (ravel (sin2 (sample_X u pos))) (sample_noise u pos) = Some (sample_y u pos).
Proof.
  unfold iadd_step. rewrite decide_True; [done|].
  rewrite length_ravel_sin2_sample_X, length_sample_noise. unfold step_len.
  apply (Nat.div_unique _ 5 _ 4); lia.
Qed.

Lemma length_take_sample u pos u' pos' n :
  length (take n (sample_X u pos)) = length (take n (sample_y u' pos')).
Proof. by rewrite !length_take, length_sample_X, length_sample_y. Qed.

Lemma option_fmap_Some {A B} (f : A → B) x : f <$> Some x = Some (f x).
Proof. reflexivity. Qed.

(** The entries of [X], of [sin(X)] and of [y]. *)
Lemma lookup_sample_X u pos i :
  (i < Z.to_nat 10000)%nat → sample_X u pos !! i = Some [5 * u (pos + i)%nat].
Proof.
  intros Hi. rewrite sample_X_new_axis. unfold new_axis, mul1.
  by rewrite !list_lookup_fmap, lookup_rand1.
Qed.

Lemma lookup_sin_sample_X u pos i :
  (i < Z.to_nat 10000)%nat →
  ravel (sin2 (sample_X u pos)) !! i = Some (sin (5 * u (pos + i)%nat)).
Proof.
  intros Hi. rewrite ravel_sin2_sample_X. unfold sin1, mul1.
  by rewrite !list_lookup_fmap, lookup_rand1.
Qed.

Lemma lookup_sample_noise u pos j :
  (j < Z.to_nat 2000)%nat →
  sample_noise u pos !! j =
    Some (3 * (0.5 - u (pos + Z.to_nat 10000 * 1 + j)%nat)).
Proof.
  intros Hj. unfold sample_noise, mul1, rsub1.
  by rewrite !list_lookup_fmap, lookup_rand1.
Qed.

Lemma lookup_sample_y_off u pos i :
  (i < Z.to_nat 10000)%nat → (i mod 5 ≠ 0)%nat →
  sample_y u pos !! i = Some (sin (5 * u (pos + i)%nat)).
Proof.
  intros Hi Hm. unfold sample_y.
  rewrite list_lookup_imap, lookup_sin_sample_X by done.
  rewrite option_fmap_Some. by rewrite decide_False.
Qed.

Lemma lookup_sample_y_on u pos i :
  (i < Z.to_nat 10000)%nat → (i mod 5 = 0)%nat →
  sample_y u pos !! i =
    Some (sin (5 * u (pos + i)%nat) +
          3 * (0.5 - u (pos + Z.to_nat 10000 * 1 + i / 5)%nat)).
Proof.
  intros Hi Hm. unfold sample_y.
  rewrite list_lookup_imap, lookup_sin_sample_X by done.
  rewrite option_fmap_Some. rewrite decide_True by done.
  rewrite lookup_sample_noise; [done|].
  apply Nat.Div0.div_lt_upper_bound. lia.
Qed.

(** ** Runs of the data generation *)

Lemma sample_targets_run W rng k seed pos :
  heap k !! rng = Some (ORandomState seed pos) →
  sample_targets W rng k =
    Ok (length (heap k), S (length (heap k)))
       (mkKernel (<[rng := ORandomState seed (pos + Z.to_nat 10000 * 1)]> (heap k)
                    ++ [ONd2 (sample_X (uniform W seed) pos);
                        ONd1 (ravel (sin2 (sample_X (uniform W seed) pos)))])
                 (clock k) (log k ++ [ECall call_rand])).
Proof.
  intros Hr. unfold sample_targets, rng_rand2.
  py_unfold. py_simpl. rewrite Hr. py_simpl. rewrite Hr. py_simpl.
  rewrite lookup_alloc. py_simpl.
  rewrite length_app, length_insert. cbn [length]. rewrite Nat.add_1_r.
  by rewrite <- app_assoc.
Qed.

Lemma add_noise_run W rng X y k seed pos :
  let u := uniform W seed in
  heap k !! rng = Some (ORandomState seed (pos + Z.to_nat 10000 * 1)) →
  heap k !! X = Some (ONd2 (sample_X u pos)) →
  heap k !! y = Some (ONd1 (ravel (sin2 (sample_X u pos)))) →
  rng ≠ y →
  add_noise W rng X y k =
    Ok tt (mkKernel
             (<[y := ONd1 (sample_y u pos)]>
                (<[rng := ORandomState seed (pos + Z.to_nat 10000 * 1 + Z.to_nat 2000)]>
                   (heap k)))
             (clock k)
             (log k ++ [EWarn "VisibleDeprecationWarning"; ECall call_rand])).
Proof.
  intros u Hr HX Hy Hne. unfold add_noise, index_of_float, rng_rand1.
  py_unfold. py_simpl. rewrite Hy, HX, Hr. py_simpl. rewrite Hr. py_simpl.
  rewrite length_sample_X, noise_count.
  fold u. change (mul1 3 _) with (sample_noise u pos).
  rewrite iadd_step_sample. py_unfold. py_simpl.
  rewrite list_lookup_insert_ne by done. rewrite Hy.
  by rewrite <- app_assoc.
Qed.

Lemma sample_data_run W rng k seed pos :
  let u := uniform W seed in
  heap k !! rng = Some (ORandomState seed pos) →
  sample_data W rng k =
    Ok (length (heap k), S (length (heap k)))
       (mkKernel
          (<[rng := ORandomState seed (pos + Z.to_nat 10000 * 1 + Z.to_nat 2000)]> (heap k)
             ++ [ONd2 (sample_X u pos); ONd1 (sample_y u pos)])
          (clock k)
          (log k ++ [ECall call_rand; EWarn "VisibleDeprecationWarning"; ECall call_rand])).
Proof.
  intros u Hr. unfold sample_data. rewrite bind_run.
  rewrite (sample_targets_run _ _ _ _ _ Hr). cbn beta iota.
  pose proof (lookup_lt_Some _ _ _ Hr) as Hlt.
  rewrite bind_run. erewrite (add_noise_run W rng _ _ _ seed pos); cycle 1.
  - cbn [heap]. rewrite lookup_app_l by (by rewrite length_insert).
    by rewrite list_lookup_insert_eq.
  - cbn [heap]. rewrite lookup_app_r by (by rewrite length_insert).
    by rewrite length_insert, Nat.sub_diag.
  - cbn [heap]. rewrite lookup_app_r by (rewrite length_insert; lia).
    rewrite length_insert. by replace (S _ - _)%nat with 1%nat by lia.
  - lia.
  - cbn beta iota. cbn [heap clock log]. unfold mret, Py_ret. f_equal. f_equal.
    + rewrite insert_app_l by (by rewrite length_insert).
      rewrite list_insert_insert_eq.
      rewrite insert_app_r_alt by (rewrite length_insert; lia).
      rewrite length_insert. by replace (S _ - _)%nat with 1%nat by lia.
    + by rewrite <- app_assoc.
Qed.

(** ** Runs of [to_plotly] *)

Lemma float_run v r k : float_of v = Some r → float v k = Ok r k.
Proof. destruct v as [|[|?[|]]|]; simpl; intros; simplify_eq; done. Qed.

Lemma len_run n o vs k :
  heap k !! n = Some o → elements o = Some vs → len n k = Ok (length vs) k.
Proof.
  intros Hn Ho. unfold len. py_unfold. rewrite Hn.
  destruct o; simplify_eq/=; by rewrite ?length_fmap.
Qed.

Lemma getitem_run n o vs i v k :
  heap k !! n = Some o → elements o = Some vs → vs !! i = Some v →
  getitem n i k = Ok v k.
Proof.
  intros Hn Ho Hi. unfold getitem. py_unfold. rewrite Hn.
  destruct o; simplify_eq/=; rewrite ?list_lookup_fmap in Hi.
  - destruct (a !! i); simplify_eq/=; done.
  - destruct (a !! i); simplify_eq/=; done.
  - by rewrite Hi.
Qed.

Lemma list_append_run l items v k :
  heap k !! l = Some (OList items) →
  list_append l v k =
    Ok tt (mkKernel (<[l := OList (items ++ [v])]> (heap k)) (clock k) (log k)).
Proof. intros Hl. unfold list_append. py_unfold. by rewrite Hl; py_simpl; rewrite Hl. Qed.

(** The loop of [to_plotly], by induction on the indices still to visit:
    [l] holds the floats of the elements visited so far. *)
Lemma to_plotly_loop n o vs k0 :
  heap k0 !! n = Some o → elements o = Some vs →
  ∀ rest visited rs c lg acc,
    vs = visited ++ rest →
    mapM float_of rest = Some rs →
    for_each (seq (length visited) (length rest)) (λ i,
      v ← getitem n i; r ← float v; list_append (length (heap k0)) (VFloat r))
      (mkKernel (heap k0 ++ [OList acc]) c lg)
    = Ok tt (mkKernel (heap k0 ++ [OList (acc ++ (VFloat <$> rs))]) c lg).
Proof.
  intros Hn Ho.
  pose proof (lookup_lt_Some _ _ _ Hn) as Hlt.
  induction rest as [|v rest IH]; intros visited rs c lg acc Hvs Hrs.
  - injection Hrs as <-. simpl. by rewrite app_nil_r.
  - rewrite mapM_Some in Hrs.
    apply Forall2_cons_inv_l in Hrs as (r & rs' & Hr & Hrs' & ->).
    apply mapM_Some in Hrs'.
    cbn [length seq for_each]. rewrite !bind_run.
    erewrite getitem_run; [|by simpl; rewrite lookup_app_l|done|].
    2:{ rewrite Hvs. by apply list_lookup_middle. }
    cbn beta iota. rewrite bind_run, (float_run _ _ _ Hr). cbn beta iota.
    erewrite list_append_run by (simpl; apply lookup_alloc).
    cbn beta iota. simpl heap.
    rewrite insert_app_r_alt, Nat.sub_diag by lia. simpl.
    specialize (IH (visited ++ [v]) rs' c lg). rewrite length_app, Nat.add_1_r in IH.
    rewrite IH; [|by rewrite <- app_assoc|done].
    by rewrite <- app_assoc.
Qed.

Lemma to_plotly_run n o vs rs k :
  heap k !! n = Some o → elements o = Some vs → mapM float_of vs = Some rs →
  to_plotly n k =
    Ok (length (heap k))
       (mkKernel (heap k ++ [OList (VFloat <$> rs)]) (clock k) (log k)).
Proof.
  intros Hn Ho Hrs. unfold to_plotly. rewrite !bind_run.
  unfold alloc at 1. cbn beta iota. rewrite !bind_run.
  erewrite len_run;
    [|by simpl; rewrite lookup_app_l by (by eapply lookup_lt_Some)|done].
  pose proof (to_plotly_loop n o vs k Hn Ho vs [] rs (clock k) (log k) []
                eq_refl Hrs) as HL.
  simpl in HL. cbn beta iota. by rewrite bind_run, HL.
Qed.

Lemma mapM_float_rows a : column a → mapM float_of (VRow <$> a) = Some (ravel a).
Proof.
  intros Ha. apply mapM_Some. unfold ravel.
  induction Ha as [|row a Hrow _ IH]; csimpl; [constructor|].
  destruct row as [|r [|]]; simplify_eq/=. by constructor.
Qed.

Lemma mapM_float_scalars a : mapM float_of (VFloat <$> a) = Some a.
Proof. apply mapM_Some. induction a; csimpl; by constructor. Qed.

Lemma to_plotly_nd2_run n a k :
  heap k !! n = Some (ONd2 a) → column a →
  to_plotly n k =
    Ok (length (heap k))
       (mkKernel (heap k ++ [OList (VFloat <$> ravel a)]) (clock k) (log k)).
Proof. intros Hn Ha. eapply to_plotly_run; [done..|by apply mapM_float_rows]. Qed.

Lemma to_plotly_nd1_run n a k :
  heap k !! n = Some (ONd1 a) →
  to_plotly n k =
    Ok (length (heap k)) (mkKernel (heap k ++ [OList (VFloat <$> a)]) (clock k) (log k)).
Proof. intros Hn. eapply to_plotly_run; [done..|by apply mapM_float_scalars]. Qed.

(** ** Runs of the other calls that look inside an array *)

Lemma est_fit_run est s old Xv yv k :
  heap k !! est = Some (OEstimator s old) →
  length Xv = length yv →
  est_fit est Xv yv k =
    Ok tt (mkKernel (<[est := OEstimator s (Some (Xv, yv))]> (heap k)) (clock k)
                    (log k ++ [ECall call_fit])).
Proof.
  intros He Hlen. unfold est_fit. py_unfold. py_simpl. rewrite He.
  rewrite decide_True by done. py_simpl. by rewrite He.
Qed.

Lemma index2_run a v idx k :
  heap k !! a = Some (ONd2 v) →
  Forall (λ i, i < length v)%nat idx →
  index2 a idx k =
    Ok (length (heap k)) (mkKernel (heap k ++ [ONd2 (select [] v idx)]) (clock k) (log k)).
Proof.
  intros Ha Hidx. unfold index2. py_unfold. rewrite Ha.
  by rewrite (take_indices_select [] _ _ Hidx).
Qed.

Lemma index1_run a v idx k :
  heap k !! a = Some (ONd1 v) →
  Forall (λ i, i < length v)%nat idx →
  index1 a idx k =
    Ok (length (heap k)) (mkKernel (heap k ++ [ONd1 (select 0 v idx)]) (clock k) (log k)).
Proof.
  intros Ha Hidx. unfold index1. py_unfold. rewrite Ha.
  by rewrite (take_indices_select 0 _ _ Hidx).
Qed.

Lemma support_lt W s u pos u' pos' :
  support_in_range W →
  Forall (λ i, i < Z.to_nat 10000)%nat
    (support W s (take 100 (sample_X u pos)) (take 100 (sample_y u' pos'))).
Proof.
  intros HW. eapply Forall_impl; [apply HW|]. intros i Hi.
  rewrite length_take, length_sample_X in Hi. lia.
Qed.

(** ** The run of cells 1 to 5 *)

Lemma forallb_is_float a : forallb is_float (VFloat <$> a) = true.
Proof. induction a; csimpl; done. Qed.

Ltac fit_step :=
  erewrite est_fit_run; [|reflexivity|apply length_take_sample]; py_exec.

Ltac to_plotly2_step tac :=
  erewrite to_plotly_nd2_run; [|reflexivity|tac]; py_exec.

Ltac to_plotly1_step :=
  erewrite to_plotly_nd1_run; [|reflexivity]; py_exec.

Ltac plotted_exec Hsup Hk :=
  unfold plotted, cell5; rewrite logspace_1_4_7, Hk;
  py_exec;
  erewrite (sample_data_run _ 0 _ 0 0%nat) by reflexivity;
  py_exec;
  fit_step; fit_step;
  (erewrite index2_run;
     [|reflexivity|rewrite length_sample_X; by apply support_lt]); py_exec;
  to_plotly2_step ltac:(apply column_select;
    [apply column_sample_X|rewrite length_sample_X; by apply support_lt]);
  (erewrite index1_run;
     [|reflexivity|rewrite length_sample_y; by apply support_lt]); py_exec;
  to_plotly1_step;
  to_plotly2_step ltac:(apply column_take, column_sample_X);
  to_plotly1_step;
  to_plotly2_step ltac:(apply column_new_axis);
  to_plotly1_step;
  to_plotly2_step ltac:(apply column_new_axis);
  to_plotly1_step;
  erewrite (sample_data_run _ 0 _ 0) by reflexivity;
  py_exec;
  do 14 fit_step.

Ltac view_exec :=
  lazy beta iota zeta delta
    [figure_view traces_of figure_at trace_at trace_view kind_at
     heap lookup list_lookup mbind option_bind mret option_ret mapM
     fig_data tr_axes tr_x tr_y fmap list_fmap forallb is_float andb];
  rewrite ?forallb_is_float.

Lemma plotted_run W :
  support_in_range W →
  ∃ k, plotted W empty_kernel = Ok (G3, G4 W, G5) k ∧ plotted_session W k.
Proof.
  intros Hsup. destruct (krr_first W) eqn:Hk.
  - eexists. split; [plotted_exec Hsup Hk; reflexivity|].
    split; try reflexivity. by view_exec.
  - eexists. split; [plotted_exec Hsup Hk; reflexivity|].
    split; try reflexivity. by view_exec.
Qed.

(** ** The last two cells and the whole notebook *)

Lemma calls_app l1 l2 : calls (l1 ++ l2) = calls l1 ++ calls l2.
Proof. apply omap_app. Qed.

Lemma warnings_app l1 l2 : warnings (l1 ++ l2) = warnings l1 ++ warnings l2.
Proof. apply omap_app. Qed.

Lemma figure_at_heap k fig f : figure_at k fig = Some f → heap k !! fig = Some (OFigure f).
Proof.
  unfold figure_at. destruct (heap k !! fig) as [[]|]; intros; simplify_eq; done.
Qed.

Lemma cell6_run W g k f :
  heap k !! g_fig g = Some (OFigure f) →
  cell6 W g k = Ok tt (mkKernel (heap k) (clock k) (log k ++ iplot_events W)).
Proof.
  intros Hf. unfold cell6, py_iplot, iplot_events, plot_warnings.
  py_unfold. py_simpl. rewrite Hf.
  destruct (plot_warning W); py_simpl; rewrite <- ?app_assoc; reflexivity.
Qed.

Lemma publish_cell_run W k :
  publisher_importable W = true →
  publish_cell W k =
    Ok tt (mkKernel (heap k) (clock k) (log k ++ install_events W ++ [publish_event W])).
Proof.
  intros Hi. unfold publish_cell, import_publisher, publish, import, display, shell.
  rewrite Hi. py_unfold. py_simpl. rewrite <- !app_assoc. reflexivity.
Qed.

Lemma publish_cell_fails W k :
  publisher_importable W = false →
  publish_cell W k =
    Raise ImportError (mkKernel (heap k) (clock k) (log k ++ install_events W)).
Proof.
  intros Hi. unfold publish_cell, import_publisher, publish, import, display, shell.
  rewrite Hi. py_unfold. py_simpl. rewrite <- !app_assoc. reflexivity.
Qed.

Lemma notebook_run W :
  support_in_range W → publisher_importable W = true →
  ∃ k5, plotted W empty_kernel = Ok (G3, G4 W, G5) k5 ∧ plotted_session W k5 ∧
        notebook W empty_kernel =
          Ok (G3, G4 W, G5)
             (mkKernel (heap k5) (clock k5)
                (log k5 ++ iplot_events W ++ install_events W ++ [publish_event W])).
Proof.
  intros Hsup Hi. destruct (plotted_run W Hsup) as (k5 & Hrun & Hs).
  exists k5. split; [done|]. split; [done|].
  destruct (figure_at k5 8) as [f|] eqn:Hf;
    [|pose proof (ps_grid _ _ Hs) as Hg; rewrite Hf in Hg; discriminate Hg].
  apply figure_at_heap in Hf.
  unfold notebook. rewrite bind_run, Hrun. cbn beta iota.
  rewrite bind_run. erewrite cell6_run by exact Hf. cbn beta iota.
  rewrite bind_run, publish_cell_run by done. cbn beta iota. cbn [heap clock log].
  rewrite <- !app_assoc. reflexivity.
Qed.

Lemma notebook_fails W :
  support_in_range W → publisher_importable W = false →
  ∃ k5, plotted W empty_kernel = Ok (G3, G4 W, G5) k5 ∧ plotted_session W k5 ∧
        notebook W empty_kernel =
          Raise ImportError
             (mkKernel (heap k5) (clock k5)
                (log k5 ++ iplot_events W ++ install_events W)).
Proof.
  intros Hsup Hi. destruct (plotted_run W Hsup) as (k5 & Hrun & Hs).
  exists k5. split; [done|]. split; [done|].
  destruct (figure_at k5 8) as [f|] eqn:Hf;
    [|pose proof (ps_grid _ _ Hs) as Hg; rewrite Hf in Hg; discriminate Hg].
  apply figure_at_heap in Hf.
  unfold notebook. rewrite bind_run, Hrun. cbn beta iota.
  rewrite bind_run. erewrite cell6_run by exact Hf. cbn beta iota.
  rewrite bind_run, publish_cell_fails by done. cbn beta iota. cbn [heap clock log].
  rewrite <- !app_assoc. reflexivity.
Qed.

(** ** The scripts of the 2D-histogram page *)

Ltac hist_exec :=
  lazy beta iota zeta delta
    [mbind Py_bind mret Py_ret raise lift alloc load store emit tick
     load_nd1 load_nd2 load_list load_trace load_figure
     heap clock log length app lookup list_lookup insert list_insert
     for_each fst snd
     import print display import_numpy rng_randn rng_rand1
     new_Scatter new_Histogram2d new_Figure py_iplot
     Histogram2d.version_check Histogram2d.slider_control Histogram2d.imports
     Histogram2d.bivariate Histogram2d.iplot_data Histogram2d.bivariate_histogram
     Histogram2d.styled_histogram Histogram2d.overlaid_histogram
     empty_kernel].

Lemma bivariate_histogram_run W :
  ∃ fig k, Histogram2d.bivariate_histogram W empty_kernel = Ok fig k ∧
           histogram_session 1 fig k.
Proof.
  destruct (plot_warning W) eqn:Hw.
  - eexists _, _. split.
    + hist_exec. rewrite Hw. reflexivity.
    + split; reflexivity.
  - eexists _, _. split.
    + hist_exec. rewrite Hw. reflexivity.
    + split; reflexivity.
Qed.

Lemma styled_histogram_run W :
  ∃ fig k, Histogram2d.styled_histogram W empty_kernel = Ok fig k ∧
           histogram_session 1 fig k.
Proof.
  destruct (plot_warning W) eqn:Hw.
  - eexists _, _. split.
    + hist_exec. rewrite Hw. reflexivity.
    + split; reflexivity.
  - eexists _, _. split.
    + hist_exec. rewrite Hw. reflexivity.
    + split; reflexivity.
Qed.

Lemma overlaid_histogram_run W :
  ∃ fig k, Histogram2d.overlaid_histogram W empty_kernel = Ok fig k ∧
           histogram_session 3 fig k.
Proof.
  destruct (plot_warning W) eqn:Hw.
  - eexists _, _. split.
    + hist_exec. rewrite Hw. reflexivity.
    + split; reflexivity.
  - eexists _, _. split.
    + hist_exec. rewrite Hw. reflexivity.
    + split; reflexivity.
Qed.

(** ** The world of the examples *)

Lemma W0_uniform : uniform_in_range W0.
Proof. intros seed n. simpl. lra. Qed.

Lemma W0_support : support_in_range W0.
Proof. intros s Xt yt. constructor. Qed.

(** ** The generated sample *)

Lemma sample_data_heap W rng k seed pos :
  let u := uniform W seed in
  heap k !! rng = Some (ORandomState seed pos) →
  ∃ k', sample_data W rng k = Ok (length (heap k), S (length (heap k))) k' ∧
        heap k' !! length (heap k) = Some (ONd2 (sample_X u pos)) ∧
        heap k' !! S (length (heap k)) = Some (ONd1 (sample_y u pos)) ∧
        (∀ l o, l ≠ rng → heap k !! l = Some o → heap k' !! l = Some o) ∧
        heap k' !! rng =
          Some (ORandomState seed (pos + Z.to_nat 10000 * 1 + Z.to_nat 2000)).
Proof.
  intros u Hr. eexists. split; [by apply sample_data_run|].
  pose proof (lookup_lt_Some _ _ _ Hr) as Hlt. cbn [heap].
  repeat split.
  - rewrite lookup_app_r by (by rewrite length_insert).
    by rewrite length_insert, Nat.sub_diag.
  - rewrite lookup_app_r by (rewrite length_insert; lia).
    rewrite length_insert. by replace (S _ - _)%nat with 1%nat by lia.
  - intros l o Hl Ho. pose proof (lookup_lt_Some _ _ _ Ho).
    rewrite lookup_app_l by (by rewrite length_insert).
    by rewrite list_lookup_insert_ne.
  - rewrite lookup_app_l by (by rewrite length_insert).
    by rewrite list_lookup_insert_eq.
Qed.

(** C1: the dataset is x-values and noisy sinusoidal y-values. Wherever the
    notebook generates its sample (cell 3, and again in cell 5), X gets
    10000 rows, each holding 5 times a draw from [0, 1) and so a value in
    [0, 5); y is first the sine of every entry of X, and the noise step
    that follows leaves it the sine plus a noise term e. At an index
    that is no multiple of 5, e is zero; at the index 5 j, e is
    3 * (0.5 - d), where d is draw number j (counting from 0) of those
    the generator makes after the 10000 draws of X, so that e lies in
    (-1.5, 1.5]. *)
Theorem C1_sample_is_noisy_sinusoid W rng k seed pos :
  uniform_in_range W →
  heap k !! rng = Some (ORandomState seed pos) →
  ∃ X y k1 k' Xv y0 yv,
    sample_targets W rng k = Ok (X, y) k1 ∧
    heap k1 !! y = Some (ONd1 y0) ∧
    sample_data W rng k = Ok (X, y) k' ∧
    heap k' !! X = Some (ONd2 Xv) ∧ heap k' !! y = Some (ONd1 yv) ∧
    length Xv = Z.to_nat 10000 ∧ length yv = Z.to_nat 10000 ∧
    ∀ i, (i < Z.to_nat 10000)%nat →
      ∃ r e, r = uniform W seed (pos + i)%nat ∧ 0 <= r < 1 ∧
             Xv !! i = Some [5 * r] ∧ 0 <= 5 * r < 5 ∧
             y0 !! i = Some (sin (5 * r)) ∧
             yv !! i = Some (sin (5 * r) + e) ∧
             ((i mod 5 ≠ 0)%nat → e = 0) ∧
             ((i mod 5 = 0)%nat →
                e = 3 * (0.5 - uniform W seed
                                 (pos + Z.to_nat 10000 * 1 + i / 5)%nat) ∧
                -1.5 < e <= 1.5).
Proof.
  intros Hu Hr.
  destruct (sample_data_heap W rng k seed pos Hr) as (k' & Hrun & HX & Hy & _).
  eexists _, _, _, k', _, _, _.
  split; [by apply sample_targets_run|].
  split.
  { cbn [heap]. pose proof (lookup_lt_Some _ _ _ Hr).
    rewrite lookup_app_r by (rewrite length_insert; lia).
    rewrite length_insert. by replace (S _ - _)%nat with 1%nat by lia. }
  split; [exact Hrun|]. split; [exact HX|]. split; [exact Hy|].
  split; [apply length_sample_X|]. split; [apply length_sample_y|].
  intros i Hi. pose proof (Hu seed (pos + i)%nat) as Hri.
  destruct (decide (i mod 5 = 0)%nat) as [Hm|Hm].
  - eexists _, _. split; [reflexivity|]. split; [done|].
    split; [by apply lookup_sample_X|]. split; [lra|].
    split; [by apply lookup_sin_sample_X|].
    split; [by apply lookup_sample_y_on|]. split; [done|].
    intros _. split; [reflexivity|].
    pose proof (Hu seed (pos + Z.to_nat 10000 * 1 + i / 5)%nat). lra.
  - exists (uniform W seed (pos + i)%nat), 0. split; [reflexivity|]. split; [done|].
    split; [by apply lookup_sample_X|]. split; [lra|].
    split; [by apply lookup_sin_sample_X|].
    split; [rewrite Rplus_0_r; by apply lookup_sample_y_off|].
    split; [done|]. intros E. by destruct Hm.
Qed.

Lemma C1_witness :
  ∃ X y k1 k' Xv y0 yv,
    sample_targets W0 0 (generator_only 0 0) = Ok (X, y) k1 ∧
    heap k1 !! y = Some (ONd1 y0) ∧
    sample_data W0 0 (generator_only 0 0) = Ok (X, y) k' ∧
    heap k' !! X = Some (ONd2 Xv) ∧ heap k' !! y = Some (ONd1 yv) ∧
    length Xv = Z.to_nat 10000 ∧ length yv = Z.to_nat 10000 ∧
    ∀ i, (i < Z.to_nat 10000)%nat →
      ∃ r e, r = uniform W0 0 (0 + i)%nat ∧ 0 <= r < 1 ∧
             Xv !! i = Some [5 * r] ∧ 0 <= 5 * r < 5 ∧
             y0 !! i = Some (sin (5 * r)) ∧
             yv !! i = Some (sin (5 * r) + e) ∧
             ((i mod 5 ≠ 0)%nat → e = 0) ∧
             ((i mod 5 = 0)%nat →
                e = 3 * (0.5 - uniform W0 0
                                 (0 + Z.to_nat 10000 * 1 + i / 5)%nat) ∧
                -1.5 < e <= 1.5).
Proof.
  apply (C1_sample_is_noisy_sinusoid W0 0%nat (generator_only 0 0) 0 0%nat).
  - intros seed n. simpl. lra.
  - reflexivity.
Defined.

(** C9: noise is added at the indices divisible by 5 only. The noise term
    3 * (0.5 - r), r a draw from [0, 1), lies in (-1.5, 1.5]; at an index
    not divisible by 5, y[i] is sin(X[i]) exactly; at an index divisible by
    5, y[i] is sin(X[i]) plus the noise term, at most 1.5 away from
    sin(X[i]). *)
Theorem C9_noise_every_fifth W rng k seed pos :
  uniform_in_range W →
  heap k !! rng = Some (ORandomState seed pos) →
  ∃ X y k' Xv yv,
    sample_data W rng k = Ok (X, y) k' ∧
    heap k' !! X = Some (ONd2 Xv) ∧ heap k' !! y = Some (ONd1 yv) ∧
    ∀ i, (i < Z.to_nat 10000)%nat →
      ∃ x r, Xv !! i = Some [x] ∧
             r = uniform W seed (pos + Z.to_nat 10000 * 1 + i / 5)%nat ∧
             0 <= r < 1 ∧ -1.5 < 3 * (0.5 - r) <= 1.5 ∧
             ((i mod 5 ≠ 0)%nat → yv !! i = Some (sin x)) ∧
             ((i mod 5 = 0)%nat →
                yv !! i = Some (sin x + 3 * (0.5 - r)) ∧
                Rabs ((sin x + 3 * (0.5 - r)) - sin x) <= 1.5).
Proof.
  intros Hu Hr.
  destruct (sample_data_heap W rng k seed pos Hr) as (k' & Hrun & HX & Hy & _).
  eexists _, _, k', _, _.
  split; [exact Hrun|]. split; [exact HX|]. split; [exact Hy|].
  intros i Hi.
  pose proof (Hu seed (pos + Z.to_nat 10000 * 1 + i / 5)%nat) as Hri.
  eexists _, _. split; [by apply lookup_sample_X|]. split; [reflexivity|].
  split; [done|]. split; [lra|]. split.
  - intros Hm. by apply lookup_sample_y_off.
  - intros Hm. split; [by apply lookup_sample_y_on|].
    apply Rabs_le. lra.
Qed.

Lemma C9_witness :
  ∃ X y k' Xv yv,
    sample_data W0 0 (generator_only 0 0) = Ok (X, y) k' ∧
    heap k' !! X = Some (ONd2 Xv) ∧ heap k' !! y = Some (ONd1 yv) ∧
    ∀ i, (i < Z.to_nat 10000)%nat →
      ∃ x r, Xv !! i = Some [x] ∧
             r = uniform W0 0 (0 + Z.to_nat 10000 * 1 + i / 5)%nat ∧
             0 <= r < 1 ∧ -1.5 < 3 * (0.5 - r) <= 1.5 ∧
             ((i mod 5 ≠ 0)%nat → yv !! i = Some (sin x)) ∧
             ((i mod 5 = 0)%nat →
                yv !! i = Some (sin x + 3 * (0.5 - r)) ∧
                Rabs ((sin x + 3 * (0.5 - r)) - sin x) <= 1.5).
Proof.
  apply (C9_noise_every_fifth W0 0%nat (generator_only 0 0) 0 0%nat).
  - intros seed n. simpl. lra.
  - reflexivity.
Defined.

(** ** Conversion to lists, and the figure *)

Lemma numeric_floats vs :
  Forall (λ v, is_Some (float_of v)) vs → ∃ rs, mapM float_of vs = Some rs.
Proof.
  induction 1 as [|v vs [r Hr] _ [rs IH]]; [by exists []|].
  exists (r :: rs). apply mapM_Some. apply mapM_Some in IH. by constructor.
Qed.

(** C8: for a sequence [n] of numeric values, [to_plotly(n)] returns a new
    list of [len(n)] elements whose i-th element is [float(n[i])], and
    changes neither its argument nor any other object of the session. *)
Theorem C8_to_plotly_converts n o vs k :
  heap k !! n = Some o →
  elements o = Some vs →
  Forall (λ v, is_Some (float_of v)) vs →
  ∃ l k' rs,
    to_plotly n k = Ok l k' ∧
    heap k !! l = None ∧
    heap k' !! l = Some (OList (VFloat <$> rs)) ∧
    len n k' = Ok (length rs) k' ∧
    (∀ i, (i < length rs)%nat →
       ∃ v r, getitem n i k' = Ok v k' ∧ float v k' = Ok r k' ∧
              getitem l i k' = Ok (VFloat r) k') ∧
    heap k' !! n = Some o ∧
    (∀ l' o', heap k !! l' = Some o' → heap k' !! l' = Some o') ∧
    clock k' = clock k ∧ log k' = log k.
Proof.
  intros Hn Ho Hnum. destruct (numeric_floats vs Hnum) as [rs Hrs].
  pose proof (lookup_lt_Some _ _ _ Hn) as Hlt.
  assert (Hlen : length rs = length vs).
  { apply mapM_Some, Forall2_length in Hrs. done. }
  assert (Hkeep : ∀ l' o', heap k !! l' = Some o' →
                           (heap k ++ [OList (VFloat <$> rs)]) !! l' = Some o').
  { intros l' o' Hl'. rewrite lookup_app_l; [done|]. by eapply lookup_lt_Some. }
  eexists _, _, rs. split; [by eapply to_plotly_run|]. cbn [heap clock log].
  split; [by apply lookup_ge_None_2|].
  split; [apply lookup_alloc|].
  split.
  { rewrite Hlen. eapply len_run; [cbn [heap]; apply Hkeep; exact Hn|exact Ho]. }
  split; [|by auto].
  intros i Hi.
  destruct (lookup_lt_is_Some_2 vs i) as [v Hv]; [lia|].
  destruct (lookup_lt_is_Some_2 rs i) as [r Hri]; [lia|].
  assert (Hvr : float_of v = Some r).
  { apply mapM_Some in Hrs.
    exact (Forall2_lookup_lr (λ x y, float_of x = Some y) vs rs i v r Hrs Hv Hri). }
  exists v, r. split; [eapply getitem_run; [by apply Hkeep|done..]|].
  split; [by apply float_run|].
  eapply getitem_run; [apply lookup_alloc|done|].
  by rewrite list_lookup_fmap, Hri.
Qed.

Lemma C8_witness :
  ∃ l k' rs,
    to_plotly 0 (mkKernel [ONd2 [[1]; [2]]] 0 []) = Ok l k' ∧
    heap (mkKernel [ONd2 [[1]; [2]]] 0 []) !! l = None ∧
    heap k' !! l = Some (OList (VFloat <$> rs)) ∧
    len 0 k' = Ok (length rs) k' ∧
    (∀ i, (i < length rs)%nat →
       ∃ v r, getitem 0 i k' = Ok v k' ∧ float v k' = Ok r k' ∧
              getitem l i k' = Ok (VFloat r) k') ∧
    heap k' !! 0%nat = Some (ONd2 [[1]; [2]]) ∧
    (∀ l' o', heap (mkKernel [ONd2 [[1]; [2]]] 0 []) !! l' = Some o' →
              heap k' !! l' = Some o') ∧
    clock k' = clock (mkKernel [ONd2 [[1]; [2]]] 0 []) ∧
    log k' = log (mkKernel [ONd2 [[1]; [2]]] 0 []).
Proof.
  apply (C8_to_plotly_converts 0 (ONd2 [[1]; [2]]) [VRow [1]; VRow [2]]
           (mkKernel [ONd2 [[1]; [2]]] 0 [])).
  - reflexivity.
  - reflexivity.
  - repeat constructor; by eexists.
Defined.

(** [append_trace] adds the trace at the end of the figure's data and
    keeps the grid. *)
Lemma fig_append_trace_data fig tr row col k k' :
  fig_append_trace fig tr row col k = Ok tt k' →
  ∃ f f', figure_at k fig = Some f ∧ figure_at k' fig = Some f' ∧
          fig_data f' = fig_data f ++ [tr] ∧ fig_grid f' = fig_grid f.
Proof.
  unfold fig_append_trace. py_unfold. intros Hrun.
  cbn beta iota delta [heap clock log] in Hrun.
  destruct (heap k !! fig) as [[| | | | | |f]|] eqn:Hf;
    cbn beta iota delta [heap clock log] in Hrun; try discriminate Hrun.
  destruct (heap k !! tr) as [[| | | | |t|]|] eqn:Ht;
    cbn beta iota delta [heap clock log] in Hrun; try discriminate Hrun.
  destruct ((row =? 0)%nat || (col =? 0)%nat);
    cbn beta iota in Hrun; [discriminate Hrun|].
  destruct (fig_grid f !! (row - 1)%nat) as [cells|];
    cbn beta iota in Hrun; [|discriminate Hrun].
  destruct (cells !! (col - 1)%nat) as [[n|]|];
    cbn beta iota delta [heap clock log] in Hrun; try discriminate Hrun.
  assert (fig ≠ tr) as Hne by (intros ->; congruence).
  rewrite Ht in Hrun. cbn beta iota delta [heap clock log] in Hrun.
  rewrite list_lookup_insert_ne, Hf in Hrun by done.
  injection Hrun as <-. exists f. eexists. unfold figure_at. cbn [heap].
  rewrite Hf. split; [done|].
  rewrite list_lookup_insert_eq by (rewrite length_insert; by eapply lookup_lt_Some).
  done.
Qed.

(** C10: the figure of the plotting cell has a 2-by-2 grid whose cell
    (2,2) is empty; when the cell ends it holds 10 traces, 4 appended to
    subplot (1,1), 4 to subplot (1,2) and 2 to subplot (2,1); and
    [append_trace] puts a trace after the traces already there, which it
    neither removes nor reorders. *)
Theorem C10_figure_has_ten_traces W :
  support_in_range W →
  (∃ k f,
     plotted W empty_kernel = Ok (G3, G4 W, G5) k ∧
     figure_at k (g_fig G5) = Some f ∧
     length (fig_grid f) = 2%nat ∧ Forall (λ row, length row = 2%nat) (fig_grid f) ∧
     grid_cell f 2 2 = Some None ∧
     length (fig_data f) = 10%nat ∧
     length <$> subplot_traces k (g_fig G5) 1 1 = Some 4%nat ∧
     length <$> subplot_traces k (g_fig G5) 1 2 = Some 4%nat ∧
     length <$> subplot_traces k (g_fig G5) 2 1 = Some 2%nat) ∧
  (∀ fig tr row col k k',
     fig_append_trace fig tr row col k = Ok tt k' →
     ∃ f f', figure_at k fig = Some f ∧ figure_at k' fig = Some f' ∧
             fig_data f' = fig_data f ++ [tr]).
Proof.
  intros Hsup. split.
  - destruct (plotted_run W Hsup) as (k & Hrun & Hs).
    pose proof (ps_grid _ _ Hs) as Hg. pose proof (ps_count _ _ Hs) as Hc.
    change (g_fig G5) with 8%nat.
    destruct (figure_at k 8) as [f|] eqn:Hf; [|discriminate Hg].
    injection Hg as Hg. injection Hc as Hc.
    exists k, f. split; [done|]. split; [done|].
    unfold grid_cell. rewrite Hg.
    split; [done|]. split; [by repeat constructor|]. split; [done|]. split; [done|].
    split; [apply (ps_subplot11 _ _ Hs)|].
    split; [apply (ps_subplot12 _ _ Hs)|apply (ps_subplot21 _ _ Hs)].
  - intros fig tr row col k k' Hrun.
    destruct (fig_append_trace_data _ _ _ _ _ _ Hrun) as (f & f' & ? & ? & ? & ?).
    by exists f, f'.
Qed.

Lemma C10_witness :
  (∃ k f,
     plotted W0 empty_kernel = Ok (G3, G4 W0, G5) k ∧
     figure_at k (g_fig G5) = Some f ∧
     length (fig_grid f) = 2%nat ∧ Forall (λ row, length row = 2%nat) (fig_grid f) ∧
     grid_cell f 2 2 = Some None ∧
     length (fig_data f) = 10%nat ∧
     length <$> subplot_traces k (g_fig G5) 1 1 = Some 4%nat ∧
     length <$> subplot_traces k (g_fig G5) 1 2 = Some 4%nat ∧
     length <$> subplot_traces k (g_fig G5) 2 1 = Some 2%nat) ∧
  (∀ fig tr row col k k',
     fig_append_trace fig tr row col k = Ok tt k' →
     ∃ f f', figure_at k fig = Some f ∧ figure_at k' fig = Some f' ∧
             fig_data f' = fig_data f ++ [tr]).
Proof.
  apply (C10_figure_has_ten_traces W0).
  intros s Xt yt. constructor.
Defined.

(** ** C3 *)

Lemma sample_y_0_W0 : sample_y (uniform W0 0) 0 !! 0%nat = Some (sin (5 * 0) + 3 * (0.5 - 0)).
Proof. rewrite lookup_sample_y_on by (reflexivity || lia). reflexivity. Qed.

Lemma sin_sample_0_W0 :
  ravel (sin2 (sample_X (uniform W0 0) 0)) !! 0%nat = Some (sin (5 * 0)).
Proof. rewrite lookup_sin_sample_X by lia. reflexivity. Qed.

(** C3, as stated, fails: the noise step changes the array that the step
    before it created. *)
Lemma C3_counterexample : ¬ values_stay_unchanged W0.
Proof.
  intros [Himm _].
  pose proof (sample_targets_run W0 0%nat (generator_only 0 0) 0 0%nat eq_refl) as H1.
  cbn [heap clock log generator_only length insert list_insert app] in H1.
  set (k1 := mkKernel _ _ _) in H1.
  pose proof (add_noise_run W0 0%nat 1%nat 2%nat k1 0 0%nat eq_refl eq_refl eq_refl
                ltac:(done)) as H2.
  specialize (Himm 0%nat 1%nat 2%nat k1 tt _ H2 2%nat _ eq_refl).
  cbn [heap k1 insert list_insert lookup list_lookup] in Himm.
  apply (f_equal (λ o, match o with Some (ONd1 a) => a !! 0%nat | _ => None end))
    in Himm.
  cbv beta iota in Himm.
  rewrite sample_y_0_W0, sin_sample_0_W0 in Himm.
  apply (f_equal (default 0)) in Himm. cbv [default from_option id Datatypes.id] in Himm. lra.
Qed.

(** C3, amended: the noise step changes [y] in place, at the indices
    divisible by 5 only; generating a sample again, as cell 5 does before it
    rebinds [X] and [y], creates the two arrays as new objects and changes
    no object of the session but the generator; and when cell 5 ends, the
    names [X], [y], [svr] and [kr] refer to other objects than the ones
    cells 3 and 4 bound them to, while the arrays of cell 3 are still the
    sample of cell 3. *)
Theorem C3_in_place_noise_and_fresh_rebinding W rng k seed pos :
  heap k !! rng = Some (ORandomState seed pos) →
  support_in_range W →
  (∃ X y k1 k2 y0 y1,
     sample_targets W rng k = Ok (X, y) k1 ∧
     add_noise W rng X y k1 = Ok tt k2 ∧
     heap k1 !! y = Some (ONd1 y0) ∧ heap k2 !! y = Some (ONd1 y1) ∧
     length y1 = length y0 ∧
     ∀ i, (i mod 5 ≠ 0)%nat → y1 !! i = y0 !! i) ∧
  (∃ X' y' k',
     sample_data W rng k = Ok (X', y') k' ∧
     heap k !! X' = None ∧ heap k !! y' = None ∧
     is_Some (heap k' !! X') ∧ is_Some (heap k' !! y') ∧
     ∀ l o, l ≠ rng → heap k !! l = Some o → heap k' !! l = Some o) ∧
  (∃ g3 g4 g5 k5,
     plotted W empty_kernel = Ok (g3, g4, g5) k5 ∧
     g_X' g5 ≠ g_X g3 ∧ g_y' g5 ≠ g_y g3 ∧
     g_svr' g5 ≠ g_svr g4 ∧ g_kr' g5 ≠ g_kr g4 ∧
     heap k5 !! g_X g3 = Some (ONd2 (sample_X (uniform W 0) 0)) ∧
     heap k5 !! g_y g3 = Some (ONd1 (sample_y (uniform W 0) 0))).
Proof.
  intros Hr Hsup. pose proof (lookup_lt_Some _ _ _ Hr) as Hlt.
  split; [|split].
  - eexists _, _, _, _, _, _.
    split; [by apply sample_targets_run|].
    split.
    { eapply (add_noise_run W rng _ _ _ seed pos); cbn [heap].
      - rewrite lookup_app_l by (by rewrite length_insert).
        by rewrite list_lookup_insert_eq.
      - rewrite lookup_app_r by (by rewrite length_insert).
        by rewrite length_insert, Nat.sub_diag.
      - rewrite lookup_app_r by (rewrite length_insert; lia).
        rewrite length_insert. by replace (S _ - _)%nat with 1%nat by lia.
      - lia. }
    cbn [heap].
    split.
    { rewrite lookup_app_r by (rewrite length_insert; lia).
      rewrite length_insert. by replace (S _ - _)%nat with 1%nat by lia. }
    split.
    { rewrite list_lookup_insert_eq; [done|].
      rewrite length_insert, length_app, length_insert. simpl. lia. }
    split; [by rewrite length_sample_y, length_ravel_sin2_sample_X|].
    intros i Hi. unfold sample_y. rewrite list_lookup_imap.
    destruct (ravel (sin2 (sample_X (uniform W seed) pos)) !! i); [|done].
    rewrite option_fmap_Some. by rewrite decide_False.
  - destruct (sample_data_heap W rng k seed pos Hr) as (k' & Hrun & HX & Hy & Hkeep & _).
    eexists _, _, k'. split; [exact Hrun|].
    split; [by apply lookup_ge_None_2|]. split; [apply lookup_ge_None_2; lia|].
    split; [by eexists|]. split; [by eexists|]. exact Hkeep.
  - destruct (plotted_run W Hsup) as (k5 & Hrun & Hs).
    exists G3, (G4 W), G5, k5. split; [exact Hrun|].
    cbn [G3 G4 G5 g_X g_y g_X' g_y' g_svr g_kr g_svr' g_kr'].
    split; [discriminate|]. split; [discriminate|].
    split; [discriminate|]. split; [discriminate|].
    split; [apply (ps_X _ _ Hs)|apply (ps_y _ _ Hs)].
Qed.

Lemma C3_witness :
  (∃ X y k1 k2 y0 y1,
     sample_targets W0 0 (generator_only 0 0) = Ok (X, y) k1 ∧
     add_noise W0 0 X y k1 = Ok tt k2 ∧
     heap k1 !! y = Some (ONd1 y0) ∧ heap k2 !! y = Some (ONd1 y1) ∧
     length y1 = length y0 ∧
     ∀ i, (i mod 5 ≠ 0)%nat → y1 !! i = y0 !! i) ∧
  (∃ X' y' k',
     sample_data W0 0 (generator_only 0 0) = Ok (X', y') k' ∧
     heap (generator_only 0 0) !! X' = None ∧ heap (generator_only 0 0) !! y' = None ∧
     is_Some (heap k' !! X') ∧ is_Some (heap k' !! y') ∧
     ∀ l o, l ≠ 0%nat → heap (generator_only 0 0) !! l = Some o → heap k' !! l = Some o) ∧
  (∃ g3 g4 g5 k5,
     plotted W0 empty_kernel = Ok (g3, g4, g5) k5 ∧
     g_X' g5 ≠ g_X g3 ∧ g_y' g5 ≠ g_y g3 ∧
     g_svr' g5 ≠ g_svr g4 ∧ g_kr' g5 ≠ g_kr g4 ∧
     heap k5 !! g_X g3 = Some (ONd2 (sample_X (uniform W0 0) 0)) ∧
     heap k5 !! g_y g3 = Some (ONd1 (sample_y (uniform W0 0) 0))).
Proof.
  apply (C3_in_place_noise_and_fresh_rebinding W0 0%nat (generator_only 0 0) 0 0%nat).
  - reflexivity.
  - intros s Xt yt. constructor.
Defined.

Lemma view_not_serializable k fig views :
  figure_view k fig = Some views →
  (∃ v, v ∈ views ∧ v.1.2 = Array) →
  ¬ all_serializable k fig.
Proof.
  unfold figure_view, all_serializable. intros Hv (v & Hin & Hk) (ts & Hts & Hall).
  rewrite Hts in Hv. injection Hv as <-.
  apply list_elem_of_fmap in Hin as (t & -> & Ht).
  rewrite Forall_forall in Hall. destruct (Hall t Ht) as [Hx _].
  unfold json_serializable in Hx. apply bool_decide_eq_true in Hx.
  unfold trace_view in Hk. simpl in Hk. congruence.
Qed.

(** C6, as stated, fails: the timing traces are given the numpy array
    [sizes] as [x]. *)
Lemma C6_counterexample :
  ∃ k, plotted W0 empty_kernel = Ok (G3, G4 W0, G5) k ∧
       ¬ all_serializable k (g_fig G5).
Proof.
  destruct (plotted_run W0 W0_support) as (k & Hrun & Hs).
  exists k. split; [exact Hrun|].
  apply (view_not_serializable _ _ _ (ps_view _ _ Hs)).
  exists (Some 2%nat, Array, FloatList). split; [|done].
  apply (list_elem_of_lookup_2 _ 4%nat). reflexivity.
Qed.

(** C6, amended: in the comparison notebook the four traces of subplot
    (1,1) get lists of floats made by [to_plotly] as [x] and [y]; the four
    timing traces get the numpy array [sizes] as [x] and a list of floats as
    [y]; the two learning-curve traces get numpy arrays as [x] and [y]. The
    traces of the scripts of the 2D-histogram page get numpy arrays as [x]
    and [y]. *)
Theorem C6_trace_data_kinds W :
  support_in_range W →
  (∃ k, plotted W empty_kernel = Ok (G3, G4 W, G5) k ∧
        figure_view k (g_fig G5) =
          Some (replicate 4 (Some 1%nat, FloatList, FloatList) ++
                replicate 4 (Some 2%nat, Array, FloatList) ++
                replicate 2 (Some 3%nat, Array, Array))) ∧
  (∃ fig k, Histogram2d.bivariate_histogram W empty_kernel = Ok fig k ∧
            figure_view k fig = Some [(None, Array, Array)]) ∧
  (∃ fig k, Histogram2d.styled_histogram W empty_kernel = Ok fig k ∧
            figure_view k fig = Some [(None, Array, Array)]) ∧
  (∃ fig k, Histogram2d.overlaid_histogram W empty_kernel = Ok fig k ∧
            figure_view k fig = Some (replicate 3 (None, Array, Array))).
Proof.
  intros Hsup. split.
  { destruct (plotted_run W Hsup) as (k & Hrun & Hs).
    exists k. split; [exact Hrun|]. exact (ps_view _ _ Hs). }
  split.
  { destruct (bivariate_histogram_run W) as (fig & k & Hrun & Hs).
    exists fig, k. split; [exact Hrun|]. exact (hs_view _ _ _ Hs). }
  split.
  { destruct (styled_histogram_run W) as (fig & k & Hrun & Hs).
    exists fig, k. split; [exact Hrun|]. exact (hs_view _ _ _ Hs). }
  destruct (overlaid_histogram_run W) as (fig & k & Hrun & Hs).
  exists fig, k. split; [exact Hrun|]. exact (hs_view _ _ _ Hs).
Qed.

Lemma C6_witness :
  (∃ k, plotted W0 empty_kernel = Ok (G3, G4 W0, G5) k ∧
        figure_view k (g_fig G5) =
          Some (replicate 4 (Some 1%nat, FloatList, FloatList) ++
                replicate 4 (Some 2%nat, Array, FloatList) ++
                replicate 2 (Some 3%nat, Array, Array))) ∧
  (∃ fig k, Histogram2d.bivariate_histogram W0 empty_kernel = Ok fig k ∧
            figure_view k fig = Some [(None, Array, Array)]) ∧
  (∃ fig k, Histogram2d.styled_histogram W0 empty_kernel = Ok fig k ∧
            figure_view k fig = Some [(None, Array, Array)]) ∧
  (∃ fig k, Histogram2d.overlaid_histogram W0 empty_kernel = Ok fig k ∧
            figure_view k fig = Some (replicate 3 (None, Array, Array))).
Proof.
  apply (C6_trace_data_kinds W0).
  intros s Xt yt. constructor.
Defined.

(** ** The log of the whole notebook *)

Lemma phases_app l1 l2 : phases (l1 ++ l2) = phases l1 ++ phases l2.
Proof. unfold phases. by rewrite calls_app, omap_app. Qed.

Lemma calls_iplot_events W : calls (iplot_events W) = [CApi call_iplot].
Proof. unfold iplot_events, plot_warnings. by destruct (plot_warning W). Qed.

Lemma warnings_iplot_events W : warnings (iplot_events W) = plot_warnings W.
Proof. unfold iplot_events, plot_warnings. by destruct (plot_warning W). Qed.

Lemma notebook_log_calls W k5 :
  plotted_session W k5 →
  calls (log k5 ++ iplot_events W ++ install_events W ++ [publish_event W])
    = notebook_calls.
Proof.
  intros Hs. rewrite !calls_app, (ps_calls _ _ Hs), calls_iplot_events.
  reflexivity.
Qed.

Lemma notebook_log_warnings W k5 :
  plotted_session W k5 →
  warnings (log k5 ++ iplot_events W ++ install_events W ++ [publish_event W])
    = notebook_warnings W.
Proof.
  intros Hs. rewrite !warnings_app, (ps_warnings _ _ Hs), warnings_iplot_events.
  unfold notebook_warnings. cbn [warnings omap install_events]. 
  by rewrite app_nil_r.
Qed.

Lemma notebook_stages_eq : collapse (omap phase_of notebook_calls) = notebook_stages.
Proof. reflexivity. Qed.

Lemma notebook_log_stages W k5 :
  plotted_session W k5 →
  stages (log k5 ++ iplot_events W ++ install_events W ++ [publish_event W])
    = notebook_stages.
Proof.
  intros Hs. unfold stages, phases. rewrite (notebook_log_calls _ _ Hs).
  apply notebook_stages_eq.
Qed.

(** C5, as stated, fails: the notebook plots before it generates its
    second sample and before the fits of the timing loop. *)
Lemma C5_counterexample :
  ∃ g k, notebook W0 empty_kernel = Ok g k ∧ ¬ four_step_order (log k).
Proof.
  destruct (notebook_run W0 W0_support eq_refl) as (k5 & _ & Hs & Hrun).
  eexists _, _. split; [exact Hrun|].
  unfold four_step_order. cbn [log]. rewrite (notebook_log_stages _ _ Hs).
  discriminate.
Qed.

(** C5, amended: the notebook generates its sample first and requests the
    publish last, and in between its steps alternate: it generates, fits and
    predicts, plots the first four traces, generates a second sample, then
    fits or scores and plots three more times, the last plot step sending
    the figure. Of the scripts of the 2D-histogram page, the three that plot
    generate and then plot, and the other two do none of the four steps. *)
Theorem C5_stages_of_the_scripts W :
  support_in_range W → publisher_importable W = true →
  (∃ g k, notebook W empty_kernel = Ok g k ∧
          stages (log k) =
            [Generate; FitPredict; Plot; Generate; FitPredict; Plot;
             FitPredict; Plot; FitPredict; Plot; Publish]) ∧
  (∃ fig k, Histogram2d.bivariate_histogram W empty_kernel = Ok fig k ∧
            stages (log k) = [Generate; Plot]) ∧
  (∃ fig k, Histogram2d.styled_histogram W empty_kernel = Ok fig k ∧
            stages (log k) = [Generate; Plot]) ∧
  (∃ fig k, Histogram2d.overlaid_histogram W empty_kernel = Ok fig k ∧
            stages (log k) = [Generate; Plot]) ∧
  (∃ k, Histogram2d.version_check empty_kernel = Ok tt k ∧ stages (log k) = []) ∧
  (∃ k, Histogram2d.slider_control empty_kernel = Ok tt k ∧ stages (log k) = []).
Proof.
  intros Hsup Hi. split.
  { destruct (notebook_run W Hsup Hi) as (k5 & _ & Hs & Hrun).
    eexists _, _. split; [exact Hrun|]. cbn [log].
    apply (notebook_log_stages _ _ Hs). }
  split.
  { destruct (bivariate_histogram_run W) as (fig & k & Hrun & Hs).
    exists fig, k. split; [exact Hrun|]. exact (hs_stages _ _ _ Hs). }
  split.
  { destruct (styled_histogram_run W) as (fig & k & Hrun & Hs).
    exists fig, k. split; [exact Hrun|]. exact (hs_stages _ _ _ Hs). }
  split.
  { destruct (overlaid_histogram_run W) as (fig & k & Hrun & Hs).
    exists fig, k. split; [exact Hrun|]. exact (hs_stages _ _ _ Hs). }
  split; eexists; split; reflexivity.
Qed.

Lemma C5_witness :
  (∃ g k, notebook W0 empty_kernel = Ok g k ∧
          stages (log k) =
            [Generate; FitPredict; Plot; Generate; FitPredict; Plot;
             FitPredict; Plot; FitPredict; Plot; Publish]) ∧
  (∃ fig k, Histogram2d.bivariate_histogram W0 empty_kernel = Ok fig k ∧
            stages (log k) = [Generate; Plot]) ∧
  (∃ fig k, Histogram2d.styled_histogram W0 empty_kernel = Ok fig k ∧
            stages (log k) = [Generate; Plot]) ∧
  (∃ fig k, Histogram2d.overlaid_histogram W0 empty_kernel = Ok fig k ∧
            stages (log k) = [Generate; Plot]) ∧
  (∃ k, Histogram2d.version_check empty_kernel = Ok tt k ∧ stages (log k) = []) ∧
  (∃ k, Histogram2d.slider_control empty_kernel = Ok tt k ∧ stages (log k) = []).
Proof.
  apply (C5_stages_of_the_scripts W0).
  - intros s Xt yt. constructor.
  - reflexivity.
Defined.

(** C2: no failure of a run is handled, retried or reported by the
    notebook. Whatever the exit status of the install command, and whether
    or not the plotting service warns, the run makes one and the same
    sequence of calls, the warnings and the status are only recorded, and
    the install command is followed by the import of [publisher] and by the
    call of [publish]; and when that import fails, the exception ends the
    run there: no call follows it. *)
Theorem C2_failures_are_not_handled W :
  support_in_range W →
  (publisher_importable W = true →
   ∃ g k pre,
     notebook W empty_kernel = Ok g k ∧
     calls (log k) = notebook_calls ∧
     warnings (log k) = notebook_warnings W ∧
     log k = pre ++ [EShell pip_install (pip_status W); EImport "publisher";
                     EPublish publish_args publish_kwargs (files W !! notebook_path)]) ∧
  (publisher_importable W = false →
   ∃ k pre,
     notebook W empty_kernel = Raise ImportError k ∧
     calls (log k) = plotted_calls ++ install_calls ∧
     log k = pre ++ [EShell pip_install (pip_status W); EImport "publisher"]).
Proof.
  intros Hsup. split; intros Hi.
  - destruct (notebook_run W Hsup Hi) as (k5 & _ & Hs & Hrun).
    eexists _, _,
      (log k5 ++ iplot_events W ++
       [EImport "IPython.display"; ECall call_display; ECall call_display]).
    split; [exact Hrun|]. cbn [log].
    split; [apply (notebook_log_calls _ _ Hs)|].
    split; [apply (notebook_log_warnings _ _ Hs)|].
    unfold install_events, publish_event.
    rewrite <- !app_assoc. reflexivity.
  - destruct (notebook_fails W Hsup Hi) as (k5 & _ & Hs & Hrun).
    eexists _,
      (log k5 ++ iplot_events W ++
       [EImport "IPython.display"; ECall call_display; ECall call_display]).
    split; [exact Hrun|]. cbn [log].
    split.
    + rewrite !calls_app, (ps_calls _ _ Hs), calls_iplot_events. reflexivity.
    + unfold install_events.
      rewrite <- !app_assoc. reflexivity.
Qed.

Lemma C2_witness :
  ∃ g k pre,
    notebook W0 empty_kernel = Ok g k ∧
    calls (log k) = notebook_calls ∧
    warnings (log k) = notebook_warnings W0 ∧
    log k = pre ++ [EShell pip_install 1; EImport "publisher";
                    EPublish publish_args publish_kwargs None].
Proof.
  assert (support_in_range W0) as Hsup by (intros s Xt yt; constructor).
  exact (proj1 (C2_failures_are_not_handled W0 Hsup) eq_refl).
Defined.

(** ** The front matter of the page *)

Import FrontMatter.

Lemma front_matter_entries :
  front_matter =
    Some [("permalink", "python/2D-Histogram/");
          ("description", "How to make 2D Histograms in Python with Plotly.");
          ("name", "Python 2D Histograms | plotly");
          ("has_thumbnail", "true");
          ("thumbnail", "thumbnail/histogram2d.jpg");
          ("layout", "user-guide");
          ("name", "2D Histograms");
          ("language", "python");
          ("title", "Python 2D Histograms | plotly");
          ("display_as", "statistical");
          ("has_thumbnail", "true");
          ("ipynb", "~notebook_demo/24");
          ("order", "6");
          ("page_type", "u-guide")]%string.
Proof. vm_compute. reflexivity. Qed.

(** C4, as stated, fails: in the front matter of the page the keys
    [name] and [has_thumbnail] occur twice. *)
Lemma C4_counterexample : ¬ well_formed_mapping front_matter_lines.
Proof.
  intros (entries & Hp & _ & Hocc).
  change (mapM parse_line front_matter_lines) with front_matter in Hp.
  rewrite front_matter_entries in Hp. injection Hp as <-.
  specialize (Hocc "name"%string). vm_compute in Hocc. lia.
Qed.

(** C4, amended: every line of the front matter of the page is one of the
    twelve keys with a value, and each of the twelve keys occurs; ten of
    them occur once, and [name] and [has_thumbnail] occur twice, [name]
    with two different values and [has_thumbnail] twice with the same
    one. *)
Theorem C4_front_matter_keys :
  ∃ entries,
    front_matter = Some entries ∧
    length entries = 14%nat ∧
    Forall (λ e, e.1 ∈ pipeline_keys) entries ∧
    Forall (λ k, k ∈ entries.*1) pipeline_keys ∧
    values_of "name" entries = ["Python 2D Histograms | plotly"; "2D Histograms"]%string ∧
    values_of "has_thumbnail" entries = ["true"; "true"]%string ∧
    Forall (λ k, k ≠ "name"%string → k ≠ "has_thumbnail"%string →
                 occurrences k entries = 1%nat) pipeline_keys.
Proof.
  eexists. split; [exact front_matter_entries|].
  split; [reflexivity|].
  split.
  { apply Forall_forall. intros e He.
    apply (bool_decide_unpack _).
    revert e He. apply Forall_forall.
    repeat constructor. }
  split.
  { apply Forall_forall. intros e He. apply (bool_decide_unpack _).
    revert e He. apply Forall_forall. repeat constructor. }
  split; [vm_compute; reflexivity|].
  split; [vm_compute; reflexivity|].
  repeat constructor; intros; try congruence; vm_compute; reflexivity.
Qed.

(** ** The two artifacts *)

Ltac world_unfold :=
  lazy beta iota delta
    [time_time new_RandomState import_numpy rng_rand1 rng_rand2 rng_randn
     est_fit est_predict est_support est_learning_curve py_iplot
     sample_targets add_noise sample_data cell3 cell4 time_estimator
     time_and_trace cell5 cell6 import_publisher publish publish_cell
     plotted notebook
     Histogram2d.imports Histogram2d.bivariate Histogram2d.iplot_data
     Histogram2d.bivariate_histogram Histogram2d.styled_histogram
     Histogram2d.overlaid_histogram
     uniform gauss entropy now regress support curve krr_first pip_status
     publisher_importable plot_warning files default from_option head Datatypes.id id].

Lemma same_but_file_with_file path content W :
  same_but_file path W (with_file path content W).
Proof.
  repeat (split; [reflexivity|]). intros q Hq.
  cbn [with_file files]. symmetry. apply lookup_insert_ne. congruence.
Qed.

(** C7: the two artifacts do not interact. Of two runs that differ only in
    the content of one file, which is not the notebook itself (so, at the
    page of the 2D histograms), the notebook is the same program: from every
    state it gives the same result, the same objects and the same log. And
    the scripts of the page are the same programs whichever file differs,
    the notebook included; the front matter of the page is read from the
    page alone. *)
Theorem C7_artifacts_do_not_interact W W' path :
  same_but_file path W W' →
  (path ≠ notebook_path → notebook W = notebook W') ∧
  Histogram2d.bivariate_histogram W = Histogram2d.bivariate_histogram W' ∧
  Histogram2d.styled_histogram W = Histogram2d.styled_histogram W' ∧
  Histogram2d.overlaid_histogram W = Histogram2d.overlaid_histogram W'.
Proof.
  destruct W as [u g e n r s c kf ps pi pw f].
  destruct W' as [u' g' e' n' r' s' c' kf' ps' pi' pw' f'].
  unfold same_but_file.
  cbn [uniform gauss entropy now regress support curve krr_first pip_status
       publisher_importable plot_warning files].
  intros (<- & <- & <- & <- & <- & <- & <- & <- & <- & <- & <- & Hf).
  split; [|repeat split; reflexivity].
  intros Hp. world_unfold.
  assert (f !! notebook_path = f' !! notebook_path) as Hn
    by (apply Hf; congruence).
  unfold notebook_path in Hn. rewrite Hn. reflexivity.
Qed.

Lemma C7_witness :
  notebook W0 = notebook (with_file page_path "<html>" W0) ∧
  Histogram2d.bivariate_histogram W0 =
    Histogram2d.bivariate_histogram (with_file page_path "<html>" W0) ∧
  Histogram2d.styled_histogram W0 =
    Histogram2d.styled_histogram (with_file page_path "<html>" W0) ∧
  Histogram2d.overlaid_histogram W0 =
    Histogram2d.overlaid_histogram (with_file page_path "<html>" W0).
Proof.
  destruct (C7_artifacts_do_not_interact W0 (with_file page_path "<html>" W0)
              page_path (same_but_file_with_file _ _ _)) as [Hn Hh].
  split; [apply Hn; discriminate | exact Hh].
Defined.


(** * Further properties of the code *)

(** ** More about [to_plotly] *)

Lemma float_raises v k : float_of v = None → float v k = Raise TypeError k.
Proof. destruct v as [|[|?[|]]|]; simpl; intros; simplify_eq; done. Qed.

Lemma first_unconvertible vs :
  Exists (λ v, float_of v = None) vs →
  ∃ good rs bad rest,
    vs = good ++ bad :: rest ∧ mapM float_of good = Some rs ∧ float_of bad = None.
Proof.
  induction vs as [|v vs IH]; intros Hex; [by apply Exists_nil in Hex|].
  destruct (float_of v) as [r|] eqn:Hv.
  - apply Exists_cons in Hex as [Hex|Hex]; [congruence|].
    destruct (IH Hex) as (good & rs & bad & rest & -> & Hrs & Hbad).
    exists (v :: good), (r :: rs), bad, rest. split; [done|]. split; [|done].
    apply mapM_Some. apply mapM_Some in Hrs. by constructor.
  - exists [], [], v, vs. by repeat split.
Qed.

(** The loop of [to_plotly] when an element does not convert: the
    elements before it are appended, then [float] raises. *)
Lemma to_plotly_loop_raises n o vs k0 :
  heap k0 !! n = Some o → elements o = Some vs →
  ∀ good visited rs bad rest c lg acc,
    vs = visited ++ good ++ bad :: rest →
    mapM float_of good = Some rs → float_of bad = None →
    for_each (seq (length visited) (length (good ++ bad :: rest))) (λ i,
      v ← getitem n i; r ← float v; list_append (length (heap k0)) (VFloat r))
      (mkKernel (heap k0 ++ [OList acc]) c lg)
    = Raise TypeError (mkKernel (heap k0 ++ [OList (acc ++ (VFloat <$> rs))]) c lg).
Proof.
  intros Hn Ho.
  pose proof (lookup_lt_Some _ _ _ Hn) as Hlt.
  induction good as [|v good IH]; intros visited rs bad rest c lg acc Hvs Hrs Hbad.
  - injection Hrs as <-. cbn [app length seq for_each]. rewrite !bind_run.
    erewrite getitem_run; [|by simpl; rewrite lookup_app_l|done|].
    2:{ rewrite Hvs. by apply list_lookup_middle. }
    cbn beta iota. rewrite bind_run, (float_raises _ _ Hbad). cbn beta iota.
    simpl. by rewrite app_nil_r.
  - rewrite mapM_Some in Hrs.
    apply Forall2_cons_inv_l in Hrs as (r & rs' & Hr & Hrs' & ->).
    apply mapM_Some in Hrs'.
    cbn [app length seq for_each]. rewrite !bind_run.
    erewrite getitem_run; [|by simpl; rewrite lookup_app_l|done|].
    2:{ rewrite Hvs. by apply list_lookup_middle. }
    cbn beta iota. rewrite bind_run, (float_run _ _ _ Hr). cbn beta iota.
    erewrite list_append_run by (simpl; apply lookup_alloc).
    cbn beta iota. simpl heap.
    rewrite insert_app_r_alt, Nat.sub_diag by lia. simpl.
    specialize (IH (visited ++ [v]) rs' bad rest c lg). rewrite length_app, Nat.add_1_r in IH.
    rewrite IH; [|by rewrite <- app_assoc|done|done].
    by rewrite <- app_assoc.
Qed.

Lemma row_unconvertible v :
  (∃ row, v = VRow row ∧ length row ≠ 1%nat) → float_of v = None.
Proof. intros (row & -> & Hrow). by destruct row as [|? [|]]. Qed.

(** X1: [to_plotly(n)] raises [TypeError] when [n] has no length (a random
    generator, an estimator), and when [n] is a sequence of floats and
    array rows one of whose rows has no or several entries (a 2-D array
    with another number of columns than one); the argument and every
    other object stay as they were, and nothing is logged. *)
Theorem to_plotly_raises_TypeError n o k :
  heap k !! n = Some o →
  (∃ seed pos, o = ORandomState seed pos) ∨ (∃ s fitted, o = OEstimator s fitted) ∨
  (∃ vs, elements o = Some vs ∧
         Forall (λ v, ∀ l, v ≠ VRef l) vs ∧
         Exists (λ v, ∃ row, v = VRow row ∧ length row ≠ 1%nat) vs) →
  ∃ k', to_plotly n k = Raise TypeError k' ∧
        heap k' !! n = Some o ∧
        (∀ l' o', heap k !! l' = Some o' → heap k' !! l' = Some o') ∧
        clock k' = clock k ∧ log k' = log k.
Proof.
  intros Hn Hcase.
  pose proof (lookup_lt_Some _ _ _ Hn) as Hlt.
  assert (Hkeep : ∀ items l' o', heap k !! l' = Some o' →
                    (heap k ++ [OList items]) !! l' = Some o').
  { intros items l' o' Hl'. rewrite lookup_app_l; [done|]. by eapply lookup_lt_Some. }
  destruct Hcase as [(seed & pos & ->)|[(s & fitted & ->)|(vs & Ho & _ & Hrow)]].
  - eexists. split.
    { unfold to_plotly, len. py_unfold. py_simpl.
      rewrite lookup_app_l by done. rewrite Hn. reflexivity. }
    cbn [heap clock log]. split; [by apply Hkeep|]. split; [by apply Hkeep|]. done.
  - eexists. split.
    { unfold to_plotly, len. py_unfold. py_simpl.
      rewrite lookup_app_l by done. rewrite Hn. reflexivity. }
    cbn [heap clock log]. split; [by apply Hkeep|]. split; [by apply Hkeep|]. done.
  - assert (Hex : Exists (λ v, float_of v = None) vs).
    { eapply Exists_impl; [exact Hrow|]. apply row_unconvertible. }
    destruct (first_unconvertible vs Hex) as (good & rs & bad & rest & Hvs & Hrs & Hbad).
    eexists. split.
    { unfold to_plotly. rewrite !bind_run.
      unfold alloc at 1. cbn beta iota. rewrite !bind_run.
      erewrite len_run; [|by simpl; apply Hkeep|done].
      cbn beta iota. rewrite bind_run.
      pose proof (to_plotly_loop_raises n o vs k Hn Ho good [] rs bad rest
                    (clock k) (log k) [] Hvs Hrs Hbad) as HL.
      cbn [length] in HL. rewrite Hvs. cbn [heap]. rewrite HL. reflexivity. }
    cbn [heap clock log]. split; [by apply Hkeep|]. split; [by apply Hkeep|]. done.
Qed.

Lemma to_plotly_raises_TypeError_witness :
  ∃ k', to_plotly 0 (mkKernel [ONd2 [[1; 2]; [3; 4]]] 0 []) = Raise TypeError k' ∧
        heap k' !! 0%nat = Some (ONd2 [[1; 2]; [3; 4]]) ∧
        (∀ l' o', heap (mkKernel [ONd2 [[1; 2]; [3; 4]]] 0 []) !! l' = Some o' →
                  heap k' !! l' = Some o') ∧
        clock k' = clock (mkKernel [ONd2 [[1; 2]; [3; 4]]] 0 []) ∧
        log k' = log (mkKernel [ONd2 [[1; 2]; [3; 4]]] 0 []).
Proof.
  apply (to_plotly_raises_TypeError 0 (ONd2 [[1; 2]; [3; 4]])
           (mkKernel [ONd2 [[1; 2]; [3; 4]]] 0 [])).
  - reflexivity.
  - right. right. exists [VRow [1; 2]; VRow [3; 4]]. split; [reflexivity|].
    split.
    + repeat constructor; intros l; discriminate.
    + apply Exists_cons_hd. exists [1; 2]. split; [reflexivity|]. simpl. lia.
Defined.

Lemma length_ravel_column a : column a → length (ravel a) = length a.
Proof.
  unfold ravel. induction 1 as [|row a Hrow _ IH]; [done|].
  cbn [concat length]. rewrite length_app, IH, Hrow. done.
Qed.

(** X2: for an array [X] of shape (n, 1), [to_plotly(X)] gives the list
    that [to_plotly(X.ravel())] gives: the column is flattened, and the
    list has one float for every row. *)
Theorem to_plotly_flattens_column n m a k :
  heap k !! n = Some (ONd2 a) → column a →
  heap k !! m = Some (ONd1 (ravel a)) →
  ∃ l k1 l' k2 items,
    to_plotly n k = Ok l k1 ∧ heap k1 !! l = Some (OList items) ∧
    to_plotly m k = Ok l' k2 ∧ heap k2 !! l' = Some (OList items) ∧
    items = VFloat <$> ravel a ∧ length items = length a.
Proof.
  intros Hn Ha Hm. eexists _, _, _, _, _.
  split; [by apply to_plotly_nd2_run|].
  split; [apply lookup_alloc|].
  split; [by apply to_plotly_nd1_run|].
  split; [apply lookup_alloc|]. split; [done|].
  rewrite length_fmap. by apply length_ravel_column.
Qed.

Lemma to_plotly_flattens_column_witness :
  ∃ l k1 l' k2 items,
    to_plotly 0 (mkKernel [ONd2 [[1]; [2]]; ONd1 [1; 2]] 0 []) = Ok l k1 ∧
    heap k1 !! l = Some (OList items) ∧
    to_plotly 1 (mkKernel [ONd2 [[1]; [2]]; ONd1 [1; 2]] 0 []) = Ok l' k2 ∧
    heap k2 !! l' = Some (OList items) ∧
    items = VFloat <$> ravel [[1]; [2]] ∧ length items = length [[1]; [2]].
Proof.
  apply (to_plotly_flattens_column 0 1 [[1]; [2]]
           (mkKernel [ONd2 [[1]; [2]]; ONd1 [1; 2]] 0 [])).
  - reflexivity.
  - repeat constructor.
  - reflexivity.
Defined.

(** X3: every call of [to_plotly] makes a list of its own. Two calls on
    the same argument, as for [X_plot] in traces 3 and 4, return two
    different lists with the same elements, and the second call leaves the
    first list and the argument as they are. *)
Theorem to_plotly_twice n o vs rs k :
  heap k !! n = Some o → elements o = Some vs → mapM float_of vs = Some rs →
  ∃ l1 k1 l2 k2,
    to_plotly n k = Ok l1 k1 ∧ to_plotly n k1 = Ok l2 k2 ∧ l1 ≠ l2 ∧
    heap k2 !! l1 = Some (OList (VFloat <$> rs)) ∧
    heap k2 !! l2 = Some (OList (VFloat <$> rs)) ∧
    heap k2 !! n = Some o.
Proof.
  intros Hn Ho Hrs. pose proof (lookup_lt_Some _ _ _ Hn) as Hlt.
  eexists _, _, _, _.
  split; [by eapply to_plotly_run|].
  split.
  { eapply to_plotly_run; [|done..]. cbn [heap]. by rewrite lookup_app_l. }
  cbn [heap]. rewrite length_app. cbn [length].
  split; [lia|].
  split. { rewrite lookup_app_l by (rewrite length_app; simpl; lia). apply lookup_alloc. }
  split. { rewrite <- (length_app (heap k) [OList (VFloat <$> rs)]). apply lookup_alloc. }
  rewrite !lookup_app_l; [done|done|rewrite length_app; simpl; lia].
Qed.

Lemma to_plotly_twice_witness :
  ∃ l1 k1 l2 k2,
    to_plotly 0 (mkKernel [ONd1 [1; 2]] 0 []) = Ok l1 k1 ∧
    to_plotly 0 k1 = Ok l2 k2 ∧ l1 ≠ l2 ∧
    heap k2 !! l1 = Some (OList (VFloat <$> [1; 2])) ∧
    heap k2 !! l2 = Some (OList (VFloat <$> [1; 2])) ∧
    heap k2 !! 0%nat = Some (ONd1 [1; 2]).
Proof.
  apply (to_plotly_twice 0 (ONd1 [1; 2]) [VFloat 1; VFloat 2] [1; 2]
           (mkKernel [ONd1 [1; 2]] 0 [])); reflexivity.
Defined.

(** ** The noise step on a sample of any size *)

(** [int(n / 5)] for the float quotient is the integer quotient. *)
Lemma trunc_true_div_5 (n : nat) :
  Z.to_nat (trunc (true_div (Z.of_nat n) 5)) = (n / 5)%nat.
Proof.
  pose proof (Nat.div_mod_eq n 5) as Hn.
  pose proof (Nat.mod_upper_bound n 5 ltac:(lia)) as Hr.
  assert (IZR (Z.of_nat n) = 5 * IZR (Z.of_nat (n / 5)) + IZR (Z.of_nat (n mod 5))) as HR.
  { rewrite Hn at 1. rewrite Nat2Z.inj_add, Nat2Z.inj_mul, plus_IZR, mult_IZR.
    reflexivity. }
  assert (0 <= IZR (Z.of_nat (n mod 5)) < 5) as [H0 H5].
  { split; [apply IZR_le; lia|apply IZR_lt; lia]. }
  assert (0 <= IZR (Z.of_nat (n / 5))) as Hq by (apply IZR_le; lia).
  unfold true_div, trunc. destruct (Rle_dec 0 (IZR (Z.of_nat n) / IZR 5)) as [_|Hneg].
  - rewrite <- (Int_part_spec _ (Z.of_nat (n / 5))); [apply Nat2Z.id|].
    rewrite HR. lra.
  - exfalso. apply Hneg. rewrite HR. lra.
Qed.

Lemma length_noise u pos q : length (mul1 3 (rsub1 0.5 (rand1 u pos q))) = q.
Proof. unfold mul1, rsub1. by rewrite !length_fmap, length_rand1. Qed.

Lemma lookup_noise u pos q j :
  (j < q)%nat →
  mul1 3 (rsub1 0.5 (rand1 u pos q)) !! j = Some (3 * (0.5 - u (pos + j)%nat)).
Proof.
  intros Hj. unfold mul1, rsub1.
  by rewrite !list_lookup_fmap, lookup_rand1.
Qed.

Lemma step_len_5 n : step_len n 5 = (if decide (n mod 5 = 0)%nat then n / 5 else S (n / 5))%nat.
Proof.
  unfold step_len. pose proof (Nat.div_mod_eq n 5) as Hn.
  pose proof (Nat.mod_upper_bound n 5 ltac:(lia)) as Hr.
  destruct (decide (n mod 5 = 0)%nat) as [H0|H0].
  - symmetry. apply (Nat.div_unique _ 5 _ 4); lia.
  - symmetry. apply (Nat.div_unique _ 5 _ (n mod 5 - 1)); lia.
Qed.

(** The run of the noise step up to the in-place addition. *)
Lemma add_noise_steps W rng X y k seed pos a yv :
  heap k !! rng = Some (ORandomState seed pos) →
  heap k !! X = Some (ONd2 a) →
  heap k !! y = Some (ONd1 yv) →
  add_noise W rng X y k =
    let k1 := mkKernel (<[rng := ORandomState seed (pos + length a / 5)]> (heap k))
                       (clock k)
                       (log k ++ [EWarn "VisibleDeprecationWarning"; ECall call_rand]) in
    match iadd_step 5 yv (mul1 3 (rsub1 0.5 (rand1 (uniform W seed) pos (length a / 5)))) with
    | Some yv' => Ok tt (mkKernel (<[y := ONd1 yv']> (heap k1)) (clock k1) (log k1))
    | None => Raise ValueError k1
    end.
Proof.
  intros Hr HX Hy. unfold add_noise, index_of_float, rng_rand1.
  py_unfold. py_simpl. rewrite Hy, HX, Hr. py_simpl. rewrite Hr. py_simpl.
  rewrite trunc_true_div_5. rewrite <- app_assoc. cbn [app].
  destruct (iadd_step 5 yv _) as [yv'|]; py_unfold; py_simpl; [|reflexivity].
  assert (rng ≠ y) as Hne by (intros ->; congruence).
  rewrite list_lookup_insert_ne by done. rewrite Hy. reflexivity.
Qed.

(** X4: the noise step [y[::5] += 3 * (0.5 - rng.rand(X.shape[0]/5))] on
    a sample of any size that is a multiple of 5 (the empty sample
    included): it succeeds; [y] keeps its length; the entry at an index [i]
    divisible by 5 gets the noise of draw number [i/5] of the call, every
    other entry stays; [X] stays; the generator advances by a fifth of the
    size; and the float given to [rand] as a size is warned about once. *)
Theorem add_noise_multiple_of_5 W rng X y k seed pos a yv :
  heap k !! rng = Some (ORandomState seed pos) →
  heap k !! X = Some (ONd2 a) →
  heap k !! y = Some (ONd1 yv) →
  length a = length yv →
  (length yv mod 5 = 0)%nat →
  ∃ k' yv',
    add_noise W rng X y k = Ok tt k' ∧
    heap k' !! y = Some (ONd1 yv') ∧
    length yv' = length yv ∧
    (∀ i v, yv !! i = Some v →
       yv' !! i = Some (if decide (i mod 5 = 0)%nat
                        then v + 3 * (0.5 - uniform W seed (pos + i / 5)%nat)
                        else v)) ∧
    heap k' !! X = Some (ONd2 a) ∧
    heap k' !! rng = Some (ORandomState seed (pos + length yv / 5)) ∧
    log k' = log k ++ [EWarn "VisibleDeprecationWarning"; ECall call_rand].
Proof.
  intros Hr HX Hy Hlen Hm.
  assert (rng ≠ y) as Hne by (intros ->; congruence).
  assert (X ≠ y) as HXy by (intros ->; congruence).
  assert (X ≠ rng) as HXr by (intros ->; congruence).
  pose proof (lookup_lt_Some _ _ _ Hr). pose proof (lookup_lt_Some _ _ _ Hy).
  rewrite (add_noise_steps W rng X y k seed pos a yv Hr HX Hy). cbv zeta.
  unfold iadd_step. rewrite length_noise, step_len_5, Hlen.
  rewrite (decide_True (P := (length yv mod 5 = 0)%nat)) by done.
  rewrite decide_True by done.
  eexists _, _. split; [reflexivity|]. cbn [heap clock log].
  split; [by rewrite list_lookup_insert_eq by (by rewrite length_insert)|].
  split; [by rewrite length_imap|].
  split.
  { intros i v Hi. rewrite list_lookup_imap, Hi. cbn [fmap option_fmap option_map].
    destruct (decide (i mod 5 = 0)%nat) as [H5|H5]; [|done].
    rewrite lookup_noise; [done|].
    apply lookup_lt_Some in Hi. apply Nat.Div0.div_lt_upper_bound.
    pose proof (Nat.div_mod_eq (length yv) 5). lia. }
  split; [by rewrite !list_lookup_insert_ne by done|].
  split; [|done].
  rewrite list_lookup_insert_ne by done. by rewrite list_lookup_insert_eq.
Qed.

Lemma add_noise_multiple_of_5_witness :
  ∃ k' yv',
    add_noise W0 0 1 2 (mkKernel [ORandomState 0 0; ONd2 [[1]; [2]; [3]; [4]; [5]];
                                  ONd1 [1; 2; 3; 4; 5]] 0 []) = Ok tt k' ∧
    heap k' !! 2%nat = Some (ONd1 yv') ∧
    length yv' = length [1; 2; 3; 4; 5] ∧
    (∀ i v, [1; 2; 3; 4; 5] !! i = Some v →
       yv' !! i = Some (if decide (i mod 5 = 0)%nat
                        then v + 3 * (0.5 - uniform W0 0 (0 + i / 5)%nat)
                        else v)) ∧
    heap k' !! 1%nat = Some (ONd2 [[1]; [2]; [3]; [4]; [5]]) ∧
    heap k' !! 0%nat = Some (ORandomState 0 (0 + length [1; 2; 3; 4; 5] / 5)) ∧
    log k' = log (mkKernel [ORandomState 0 0; ONd2 [[1]; [2]; [3]; [4]; [5]];
                            ONd1 [1; 2; 3; 4; 5]] 0 [])
               ++ [EWarn "VisibleDeprecationWarning"; ECall call_rand].
Proof.
  apply (add_noise_multiple_of_5 W0 0%nat 1%nat 2%nat
           (mkKernel [ORandomState 0 0; ONd2 [[1]; [2]; [3]; [4]; [5]];
                      ONd1 [1; 2; 3; 4; 5]] 0 []) 0 0%nat);
    reflexivity.
Defined.

(** X5: the noise step on a sample whose size is no multiple of 5. The
    slice [y[::5]] then has one entry more than [rand] draws, and the
    addition raises [ValueError], after the generator has advanced and with
    [y] unchanged; except for the sizes 6 to 9, where the single draw is
    broadcast: the entries 0 and 5 get the same noise. *)
Theorem add_noise_other_sizes W rng X y k seed pos a yv :
  heap k !! rng = Some (ORandomState seed pos) →
  heap k !! X = Some (ONd2 a) →
  heap k !! y = Some (ONd1 yv) →
  length a = length yv →
  (length yv mod 5 ≠ 0)%nat →
  (¬ (5 < length yv < 10)%nat →
   ∃ k', add_noise W rng X y k = Raise ValueError k' ∧
         heap k' !! y = Some (ONd1 yv) ∧
         heap k' !! rng = Some (ORandomState seed (pos + length yv / 5))) ∧
  ((5 < length yv < 10)%nat →
   ∃ k' yv',
     add_noise W rng X y k = Ok tt k' ∧
     heap k' !! y = Some (ONd1 yv') ∧
     length yv' = length yv ∧
     ∀ i v, yv !! i = Some v →
       yv' !! i = Some (if decide (i mod 5 = 0)%nat
                        then v + 3 * (0.5 - uniform W seed pos)
                        else v)).
Proof.
  intros Hr HX Hy Hlen Hm.
  assert (rng ≠ y) as Hne by (intros ->; congruence).
  pose proof (lookup_lt_Some _ _ _ Hr). pose proof (lookup_lt_Some _ _ _ Hy).
  rewrite (add_noise_steps W rng X y k seed pos a yv Hr HX Hy). cbv zeta.
  unfold iadd_step. rewrite length_noise, step_len_5, Hlen.
  rewrite (decide_False (P := (length yv mod 5 = 0)%nat)) by done.
  rewrite (decide_False (P := (length yv / 5 = S (length yv / 5))%nat)) by lia.
  pose proof (Nat.div_mod_eq (length yv) 5) as Hd.
  pose proof (Nat.mod_upper_bound (length yv) 5 ltac:(lia)) as Hu.
  split.
  - intros Hn. rewrite decide_False by lia.
    eexists. split; [reflexivity|]. cbn [heap].
    split; [by rewrite list_lookup_insert_ne|].
    by rewrite list_lookup_insert_eq.
  - intros Hn. assert (length yv / 5 = 1)%nat as Hq by lia.
    rewrite decide_True by done.
    eexists _, _. split; [reflexivity|]. cbn [heap clock log].
    split; [by rewrite list_lookup_insert_eq by (by rewrite length_insert)|].
    split; [by rewrite length_imap|].
    intros i v Hi. rewrite list_lookup_imap, Hi. cbn [fmap option_fmap option_map].
    destruct (decide (i mod 5 = 0)%nat) as [H5|H5]; [|done].
    rewrite Hq, lookup_noise by lia. cbn [default from_option].
    by rewrite Nat.add_0_r.
Qed.

Lemma add_noise_other_sizes_witness :
  (∃ k', add_noise W0 0 1 2 (mkKernel [ORandomState 0 0; ONd2 [[1]; [2]; [3]];
                                       ONd1 [1; 2; 3]] 0 []) = Raise ValueError k' ∧
         heap k' !! 2%nat = Some (ONd1 [1; 2; 3]) ∧
         heap k' !! 0%nat = Some (ORandomState 0 (0 + length [1; 2; 3] / 5))) ∧
  (∃ k' yv',
     add_noise W0 0 1 2 (mkKernel [ORandomState 0 0;
                                   ONd2 [[1]; [2]; [3]; [4]; [5]; [6]];
                                   ONd1 [1; 2; 3; 4; 5; 6]] 0 []) = Ok tt k' ∧
     heap k' !! 2%nat = Some (ONd1 yv') ∧
     length yv' = length [1; 2; 3; 4; 5; 6] ∧
     ∀ i v, [1; 2; 3; 4; 5; 6] !! i = Some v →
       yv' !! i = Some (if decide (i mod 5 = 0)%nat
                        then v + 3 * (0.5 - uniform W0 0 0)
                        else v)).
Proof.
  split.
  - refine (proj1 (add_noise_other_sizes W0 0%nat 1%nat 2%nat
             (mkKernel [ORandomState 0 0; ONd2 [[1]; [2]; [3]]; ONd1 [1; 2; 3]] 0 [])
             0 0%nat [[1]; [2]; [3]] [1; 2; 3] eq_refl eq_refl eq_refl eq_refl _) _);
      simpl; lia.
  - refine (proj2 (add_noise_other_sizes W0 0%nat 1%nat 2%nat
             (mkKernel [ORandomState 0 0; ONd2 [[1]; [2]; [3]; [4]; [5]; [6]];
                        ONd1 [1; 2; 3; 4; 5; 6]] 0 [])
             0 0%nat [[1]; [2]; [3]; [4]; [5]; [6]] [1; 2; 3; 4; 5; 6]
             eq_refl eq_refl eq_refl eq_refl _) _);
      simpl; lia.
Defined.

(** X6: generating a sample takes 12000 draws from the generator, 10000
    for [X] and 2000 for the noise, so the second sample of the notebook is
    made of the draws that follow those of the first: no draw is used
    twice, the four arrays are four objects, and the first sample is still
    there, as it was, when the second exists. *)
Theorem sample_data_twice W rng k seed pos :
  heap k !! rng = Some (ORandomState seed pos) →
  ∃ X1 y1 k1 X2 y2 k2 X1v y1v X2v y2v,
    sample_data W rng k = Ok (X1, y1) k1 ∧
    heap k1 !! rng = Some (ORandomState seed (pos + Z.to_nat 12000)) ∧
    sample_data W rng k1 = Ok (X2, y2) k2 ∧
    heap k2 !! rng = Some (ORandomState seed (pos + Z.to_nat 24000)) ∧
    NoDup [rng; X1; y1; X2; y2] ∧
    heap k1 !! X1 = Some (ONd2 X1v) ∧ heap k1 !! y1 = Some (ONd1 y1v) ∧
    heap k2 !! X1 = Some (ONd2 X1v) ∧ heap k2 !! y1 = Some (ONd1 y1v) ∧
    heap k2 !! X2 = Some (ONd2 X2v) ∧ heap k2 !! y2 = Some (ONd1 y2v) ∧
    ∀ i, (i < Z.to_nat 10000)%nat →
      X1v !! i = Some [5 * uniform W seed (pos + i)%nat] ∧
      X2v !! i = Some [5 * uniform W seed (pos + Z.to_nat 12000 + i)%nat] ∧
      ((i mod 5 = 0)%nat →
       y1v !! i = Some (sin (5 * uniform W seed (pos + i)%nat) +
                        3 * (0.5 - uniform W seed (pos + Z.to_nat 10000 + i / 5)%nat)) ∧
       y2v !! i = Some (sin (5 * uniform W seed (pos + Z.to_nat 12000 + i)%nat) +
                        3 * (0.5 - uniform W seed (pos + Z.to_nat 22000 + i / 5)%nat))).
Proof.
  intros Hr.
  destruct (sample_data_heap W rng k seed pos Hr)
    as (k1 & Hrun1 & HX1 & Hy1 & Hkeep1 & Hr1).
  destruct (sample_data_heap W rng k1 seed _ Hr1)
    as (k2 & Hrun2 & HX2 & Hy2 & Hkeep2 & Hr2).
  pose proof (lookup_lt_Some _ _ _ Hr) as Hlt.
  pose proof (lookup_lt_Some _ _ _ HX1) as HltX.
  pose proof (lookup_lt_Some _ _ _ Hy1) as Hlty.
  pose proof (lookup_lt_Some _ _ _ Hr1) as Hltr.
  eexists _, _, k1, _, _, k2, _, _, _, _.
  split; [exact Hrun1|].
  split. { rewrite Hr1. do 2 f_equal. lia. }
  split; [exact Hrun2|].
  split. { rewrite Hr2. do 2 f_equal. lia. }
  split.
  { repeat (apply NoDup_cons; split; [rewrite ?elem_of_cons, elem_of_nil; lia|]).
    apply NoDup_nil. done. }
  split; [exact HX1|]. split; [exact Hy1|].
  split; [apply Hkeep2; [lia|exact HX1]|].
  split; [apply Hkeep2; [lia|exact Hy1]|].
  split; [exact HX2|]. split; [exact Hy2|].
  intros i Hi.
  split; [by apply lookup_sample_X|].
  split.
  { rewrite lookup_sample_X by done.
    by replace (pos + Z.to_nat 10000 * 1 + Z.to_nat 2000 + i)%nat
      with (pos + Z.to_nat 12000 + i)%nat by lia. }
  intros Hm. split.
  - rewrite lookup_sample_y_on by done.
    by replace (pos + Z.to_nat 10000 * 1 + i / 5)%nat
      with (pos + Z.to_nat 10000 + i / 5)%nat by lia.
  - rewrite lookup_sample_y_on by done.
    replace (pos + Z.to_nat 10000 * 1 + Z.to_nat 2000 + i)%nat
      with (pos + Z.to_nat 12000 + i)%nat by lia.
    by replace (pos + Z.to_nat 10000 * 1 + Z.to_nat 2000 + Z.to_nat 10000 * 1 + i / 5)%nat
      with (pos + Z.to_nat 22000 + i / 5)%nat by lia.
Qed.

Lemma sample_data_twice_witness :
  ∃ X1 y1 k1 X2 y2 k2 X1v y1v X2v y2v,
    sample_data W0 0 (generator_only 0 0) = Ok (X1, y1) k1 ∧
    heap k1 !! 0%nat = Some (ORandomState 0 (0 + Z.to_nat 12000)) ∧
    sample_data W0 0 k1 = Ok (X2, y2) k2 ∧
    heap k2 !! 0%nat = Some (ORandomState 0 (0 + Z.to_nat 24000)) ∧
    NoDup [0%nat; X1; y1; X2; y2] ∧
    heap k1 !! X1 = Some (ONd2 X1v) ∧ heap k1 !! y1 = Some (ONd1 y1v) ∧
    heap k2 !! X1 = Some (ONd2 X1v) ∧ heap k2 !! y1 = Some (ONd1 y1v) ∧
    heap k2 !! X2 = Some (ONd2 X2v) ∧ heap k2 !! y2 = Some (ONd1 y2v) ∧
    ∀ i, (i < Z.to_nat 10000)%nat →
      X1v !! i = Some [5 * uniform W0 0 (0 + i)%nat] ∧
      X2v !! i = Some [5 * uniform W0 0 (0 + Z.to_nat 12000 + i)%nat] ∧
      ((i mod 5 = 0)%nat →
       y1v !! i = Some (sin (5 * uniform W0 0 (0 + i)%nat) +
                        3 * (0.5 - uniform W0 0 (0 + Z.to_nat 10000 + i / 5)%nat)) ∧
       y2v !! i = Some (sin (5 * uniform W0 0 (0 + Z.to_nat 12000 + i)%nat) +
                        3 * (0.5 - uniform W0 0 (0 + Z.to_nat 22000 + i / 5)%nat))).
Proof.
  apply (sample_data_twice W0 0%nat (generator_only 0 0) 0 0%nat).
  reflexivity.
Defined.

Import Timing Detail.

(** ** The timing loop *)

Lemma length_take_same {A B} n (a : list A) (b : list B) :
  length a = length b → length (take n a) = length (take n b).
Proof. intros H. by rewrite !length_take, H. Qed.

Lemma time_estimator_run W g X y est train_time test_time s k Xv yv Xp spec old tr te :
  heap k !! X = Some (ONd2 Xv) →
  heap k !! y = Some (ONd1 yv) →
  heap k !! g_X_plot g = Some (ONd2 Xp) →
  heap k !! est = Some (OEstimator spec old) →
  heap k !! train_time = Some (OList tr) →
  heap k !! test_time = Some (OList te) →
  train_time ≠ test_time →
  length Xv = length yv →
  time_estimator W g X y est train_time test_time s k =
    Ok tt (mkKernel
             (<[test_time := OList (te ++ [VFloat (now W (clock k + 3) - now W (clock k + 2))])]>
               (<[train_time := OList (tr ++ [VFloat (now W (clock k + 1) - now W (clock k))])]>
                 (<[est := OEstimator spec
                             (Some (take (Z.to_nat (trunc s)) Xv,
                                    take (Z.to_nat (trunc s)) yv))]> (heap k))))
             (clock k + 4)
             (log k ++ [ECall call_time; EWarn "VisibleDeprecationWarning";
                        EWarn "VisibleDeprecationWarning"; ECall call_fit;
                        ECall call_time; ECall call_time; ECall call_predict;
                        ECall call_time])).
Proof.
  intros HX Hy HXp He Htr Hte Hne Hlen.
  assert (est ≠ train_time) as H1 by (intros ->; congruence).
  assert (est ≠ test_time) as H2 by (intros ->; congruence).
  assert (est ≠ X) as H3 by (intros ->; congruence).
  assert (est ≠ y) as H4 by (intros ->; congruence).
  assert (est ≠ g_X_plot g) as H5 by (intros ->; congruence).
  assert (train_time ≠ g_X_plot g) as H6 by (intros ->; congruence).
  pose proof (lookup_lt_Some _ _ _ He). pose proof (lookup_lt_Some _ _ _ Htr).
  pose proof (lookup_lt_Some _ _ _ Hte).
  unfold time_estimator, time_time, index_of_float, est_fit, est_predict, list_append.
  py_unfold.
  repeat (py_simpl;
          first [ rewrite HX | rewrite Hy | rewrite HXp | rewrite He | rewrite Htr
                | rewrite Hte
                | rewrite decide_True by (by apply length_take_same)
                | rewrite list_lookup_insert_eq by (rewrite ?length_insert; done)
                | rewrite list_lookup_insert_ne by done ]).
  repeat rewrite <- app_assoc. cbn [app].
  replace (S (S (S (S (clock k))))) with (clock k + 4)%nat by lia.
  replace (S (S (S (clock k)))) with (clock k + 3)%nat by lia.
  replace (S (S (clock k))) with (clock k + 2)%nat by lia.
  replace (S (clock k)) with (clock k + 1)%nat by lia.
  reflexivity.
Qed.


Lemma train_durations_S W c n :
  train_durations W c (S n) =
    VFloat (now W (c + 1) - now W c) :: train_durations W (c + 4) n.
Proof.
  unfold train_durations. cbn [seq fmap list_fmap]. f_equal.
  - do 3 f_equal; lia.
  - rewrite <- fmap_S_seq, <- list_fmap_compose. apply list_fmap_ext.
    intros _ j _. cbn [compose]. do 3 f_equal; lia.
Qed.

Lemma test_durations_S W c n :
  test_durations W c (S n) =
    VFloat (now W (c + 3) - now W (c + 2)) :: test_durations W (c + 4) n.
Proof.
  unfold test_durations. cbn [seq fmap list_fmap]. f_equal.
  - do 3 f_equal; lia.
  - rewrite <- fmap_S_seq, <- list_fmap_compose. apply list_fmap_ext.
    intros _ j _. cbn [compose]. do 3 f_equal; lia.
Qed.

Lemma last_fit_cons s sz Xv yv old :
  last_fit (s :: sz) Xv yv old =
    last_fit sz Xv yv (Some (take (Z.to_nat (trunc s)) Xv, take (Z.to_nat (trunc s)) yv)).
Proof. unfold last_fit. rewrite last_cons. by destruct (last sz). Qed.

Lemma timing_loop_run W g X y est train_time test_time Xv yv Xp spec sz :
  train_time ≠ test_time →
  length Xv = length yv →
  ∀ k old tr te,
    heap k !! X = Some (ONd2 Xv) →
    heap k !! y = Some (ONd1 yv) →
    heap k !! g_X_plot g = Some (ONd2 Xp) →
    heap k !! est = Some (OEstimator spec old) →
    heap k !! train_time = Some (OList tr) →
    heap k !! test_time = Some (OList te) →
    ∃ k',
      for_each sz (time_estimator W g X y est train_time test_time) k = Ok tt k' ∧
      heap k' !! train_time = Some (OList (tr ++ train_durations W (clock k) (length sz))) ∧
      heap k' !! test_time = Some (OList (te ++ test_durations W (clock k) (length sz))) ∧
      heap k' !! est = Some (OEstimator spec (last_fit sz Xv yv old)) ∧
      clock k' = (clock k + 4 * length sz)%nat ∧
      length (heap k') = length (heap k) ∧
      ∀ l o, l ≠ est → l ≠ train_time → l ≠ test_time →
             heap k !! l = Some o → heap k' !! l = Some o.
Proof.
  intros Hne Hlen. induction sz as [|s sz IH]; intros k old tr te HX Hy HXp He Htr Hte.
  - exists k. split; [reflexivity|]. cbn [length]. unfold train_durations, test_durations.
    cbn [seq fmap list_fmap]. rewrite !app_nil_r.
    repeat split; (done || lia).
  - assert (est ≠ train_time) as H1 by (intros ->; congruence).
    assert (est ≠ test_time) as H2 by (intros ->; congruence).
    assert (X ≠ est ∧ X ≠ train_time ∧ X ≠ test_time) as (?&?&?)
      by (repeat split; intros ->; congruence).
    assert (y ≠ est ∧ y ≠ train_time ∧ y ≠ test_time) as (?&?&?)
      by (repeat split; intros ->; congruence).
    assert (g_X_plot g ≠ est ∧ g_X_plot g ≠ train_time ∧ g_X_plot g ≠ test_time)
      as (?&?&?) by (repeat split; intros E; congruence).
    pose proof (lookup_lt_Some _ _ _ He). pose proof (lookup_lt_Some _ _ _ Htr).
    pose proof (lookup_lt_Some _ _ _ Hte).
    cbn [for_each]. rewrite bind_run.
    rewrite (time_estimator_run W g X y est train_time test_time s k Xv yv Xp spec old tr te)
      by done.
    cbn beta iota.
    set (k1 := mkKernel _ _ _).
    assert (heap k1 !! X = Some (ONd2 Xv)) as HX1
      by (cbn [heap k1]; by rewrite !list_lookup_insert_ne).
    assert (heap k1 !! y = Some (ONd1 yv)) as Hy1
      by (cbn [heap k1]; by rewrite !list_lookup_insert_ne).
    assert (heap k1 !! g_X_plot g = Some (ONd2 Xp)) as HXp1
      by (cbn [heap k1]; by rewrite !list_lookup_insert_ne).
    assert (heap k1 !! est =
              Some (OEstimator spec (Some (take (Z.to_nat (trunc s)) Xv,
                                           take (Z.to_nat (trunc s)) yv)))) as He1.
    { cbn [heap k1]. rewrite !list_lookup_insert_ne by done.
      by rewrite list_lookup_insert_eq. }
    assert (heap k1 !! train_time =
              Some (OList (tr ++ [VFloat (now W (clock k + 1) - now W (clock k))]))) as Htr1.
    { cbn [heap k1]. rewrite list_lookup_insert_ne by done.
      by rewrite list_lookup_insert_eq by (by rewrite length_insert). }
    assert (heap k1 !! test_time =
              Some (OList (te ++ [VFloat (now W (clock k + 3) - now W (clock k + 2))]))) as Hte1.
    { cbn [heap k1]. by rewrite list_lookup_insert_eq by (by rewrite !length_insert). }
    destruct (IH k1 _ _ _ HX1 Hy1 HXp1 He1 Htr1 Hte1)
      as (k' & Hrun & Htr' & Hte' & He' & Hc & Hl & Hkeep).
    exists k'. split; [exact Hrun|]. cbn [clock heap k1] in *.
    split. { rewrite Htr'. cbn [length]. rewrite train_durations_S.
             by rewrite <- app_assoc. }
    split. { rewrite Hte'. cbn [length]. rewrite test_durations_S.
             by rewrite <- app_assoc. }
    split. { rewrite He'. by rewrite last_fit_cons. }
    split; [cbn [length]; lia|].
    split; [by rewrite Hl, !length_insert|].
    intros l o ? ? ? Hlo. apply Hkeep; try done.
    by rewrite !list_lookup_insert_ne.
Qed.

(** X7: the loop [for train_test_size in sizes] of cell 5, for any list
    of sizes that are at least 1, any RBF regressor with positive
    parameters and any arrays that [fit] and [predict] accept: [X] and
    [X_plot] with one column and at least one row, [y] as long as [X].
    Every pass reads the clock four times and appends one duration to
    [train_time] (second reading minus first) and one to [test_time]
    (fourth minus third), so both lists grow by the number of sizes and
    entry [j] belongs to size [j]; the estimator ends fitted on the slice
    of the last size (it stays as it was when there is no size); no other
    object changes. *)
Theorem timing_loop_appends_one_duration_per_size
    W g X y est train_time test_time Xv yv Xp spec old tr te sz k :
  heap k !! X = Some (ONd2 Xv) →
  heap k !! y = Some (ONd1 yv) →
  heap k !! g_X_plot g = Some (ONd2 Xp) →
  heap k !! est = Some (OEstimator spec old) →
  heap k !! train_time = Some (OList tr) →
  heap k !! test_time = Some (OList te) →
  train_time ≠ test_time →
  fit_and_predict_accept spec Xv yv Xp →
  Forall (λ s, 1 <= s) sz →
  ∃ k' tr' te',
    for_each sz (time_estimator W g X y est train_time test_time) k = Ok tt k' ∧
    heap k' !! train_time = Some (OList (tr ++ tr')) ∧
    heap k' !! test_time = Some (OList (te ++ te')) ∧
    length tr' = length sz ∧ length te' = length sz ∧
    (∀ j, (j < length sz)%nat →
       tr' !! j = Some (VFloat (now W (clock k + 4 * j + 1) - now W (clock k + 4 * j))) ∧
       te' !! j = Some (VFloat (now W (clock k + 4 * j + 3) - now W (clock k + 4 * j + 2)))) ∧
    heap k' !! est = Some (OEstimator spec (last_fit sz Xv yv old)) ∧
    clock k' = (clock k + 4 * length sz)%nat ∧
    ∀ l o, l ≠ est → l ≠ train_time → l ≠ test_time →
           heap k !! l = Some o → heap k' !! l = Some o.
Proof.
  intros HX Hy HXp He Htr Hte Hne (_ & _ & _ & _ & Hlen & _) _.
  destruct (timing_loop_run W g X y est train_time test_time Xv yv Xp spec sz Hne Hlen
              k old tr te HX Hy HXp He Htr Hte)
    as (k' & Hrun & Htr' & Hte' & He' & Hc & _ & Hkeep).
  exists k', (train_durations W (clock k) (length sz)),
    (test_durations W (clock k) (length sz)).
  split; [exact Hrun|]. split; [exact Htr'|]. split; [exact Hte'|].
  unfold train_durations, test_durations.
  split; [by rewrite length_fmap, length_seq|].
  split; [by rewrite length_fmap, length_seq|].
  split; [|done].
  intros j Hj. by rewrite !list_lookup_fmap, lookup_seq_lt by done.
Qed.

Lemma timing_loop_appends_one_duration_per_size_witness :
  ∃ k' tr' te',
    for_each [1; 2]
      (time_estimator W0 {| g_rng := 0; g_X := 0; g_y := 1; g_X_plot := 2 |} 0 1 3 4 5)
      (mkKernel [ONd2 [[1]; [2]]; ONd1 [1; 2]; ONd2 [[0]];
                 OEstimator (SVR "rbf" 10 10) None; OList []; OList []] 0 [])
      = Ok tt k' ∧
    heap k' !! 4%nat = Some (OList ([] ++ tr')) ∧
    heap k' !! 5%nat = Some (OList ([] ++ te')) ∧
    length tr' = length [1; 2] ∧ length te' = length [1; 2] ∧
    (∀ j, (j < length [1; 2])%nat →
       tr' !! j = Some (VFloat (now W0 (0 + 4 * j + 1) - now W0 (0 + 4 * j))) ∧
       te' !! j = Some (VFloat (now W0 (0 + 4 * j + 3) - now W0 (0 + 4 * j + 2)))) ∧
    heap k' !! 3%nat =
      Some (OEstimator (SVR "rbf" 10 10) (last_fit [1; 2] [[1]; [2]] [1; 2] None)) ∧
    clock k' = (0 + 4 * length [1; 2])%nat ∧
    ∀ l o, l ≠ 3%nat → l ≠ 4%nat → l ≠ 5%nat →
           heap (mkKernel [ONd2 [[1]; [2]]; ONd1 [1; 2]; ONd2 [[0]];
                           OEstimator (SVR "rbf" 10 10) None; OList []; OList []] 0 [])
             !! l = Some o →
           heap k' !! l = Some o.
Proof.
  apply (timing_loop_appends_one_duration_per_size W0
           {| g_rng := 0; g_X := 0; g_y := 1; g_X_plot := 2 |} 0%nat 1%nat 3%nat 4%nat 5%nat
           [[1]; [2]] [1; 2] [[0]] (SVR "rbf" 10 10) None [] [] [1; 2]
           (mkKernel [ONd2 [[1]; [2]]; ONd1 [1; 2]; ONd2 [[0]];
                      OEstimator (SVR "rbf" 10 10) None; OList []; OList []] 0 []));
    try reflexivity.
  - lia.
  - repeat split; try (repeat constructor; fail); try lra; simpl; lia.
  - repeat constructor; lra.
Defined.

(** ** One entry of the dict of estimators *)

Lemma new_Scatter_run x y name attrs k :
  new_Scatter x y name attrs k =
    Ok (length (heap k))
       (mkKernel (heap k ++ [OTrace (Trace "scatter" x y name attrs None)])
                 (clock k) (log k ++ [ECall call_Scatter])).
Proof. reflexivity. Qed.

(** X8: the body of [for name, estimator in {...}.items()] of cell 5,
    for one entry of the dict in any session that holds the list [plot2],
    an RBF regressor with positive parameters, sizes that are at least 1
    and arrays that [fit] and [predict] accept. It makes two new lists of
    durations and two new traces, named after the entry, a train trace and
    a test trace, both with the array [sizes] itself as [x], with one of
    the two lists as [y], as long as [sizes], and red for SVR and green
    otherwise; it appends the two traces to [plot2], in this order; the
    estimator ends fitted on the slice of the last size; and it changes no
    other object. *)
Theorem time_and_trace_appends_a_pair
    W g X y sizes plot2 name est Xv yv Xp sz spec old ps k :
  heap k !! X = Some (ONd2 Xv) →
  heap k !! y = Some (ONd1 yv) →
  heap k !! g_X_plot g = Some (ONd2 Xp) →
  heap k !! sizes = Some (ONd1 sz) →
  heap k !! plot2 = Some (OList ps) →
  heap k !! est = Some (OEstimator spec old) →
  fit_and_predict_accept spec Xv yv Xp →
  Forall (λ s, 1 <= s) sz →
  ∃ k' t5 t6 tr5 tr6 train test,
    time_and_trace W g X y sizes plot2 (name, est) k = Ok tt k' ∧
    heap k' !! plot2 = Some (OList (ps ++ [VRef t5; VRef t6])) ∧
    heap k !! t5 = None ∧ heap k !! t6 = None ∧ t5 ≠ t6 ∧
    heap k' !! t5 = Some (OTrace tr5) ∧ heap k' !! t6 = Some (OTrace tr6) ∧
    tr_name tr5 = Some (Fmt "%s (train)" [AStr name]) ∧
    tr_name tr6 = Some (Fmt "%s (test)" [AStr name]) ∧
    colour tr5 = Some (if String.eqb name "SVR" then "red" else "green")%string ∧
    colour tr6 = colour tr5 ∧
    tr_x tr5 = sizes ∧ tr_x tr6 = sizes ∧ tr_y tr5 ≠ tr_y tr6 ∧
    heap k !! tr_y tr5 = None ∧ heap k !! tr_y tr6 = None ∧
    heap k' !! tr_y tr5 = Some (OList train) ∧
    heap k' !! tr_y tr6 = Some (OList test) ∧
    length train = length sz ∧ length test = length sz ∧
    heap k' !! est = Some (OEstimator spec (last_fit sz Xv yv old)) ∧
    clock k' = (clock k + 4 * length sz)%nat ∧
    ∀ l o, l ≠ est → l ≠ plot2 → heap k !! l = Some o → heap k' !! l = Some o.
Proof.
  intros HX Hy HXp Hsz Hp He (_ & _ & _ & _ & Hlen & _) _.
  set (tt0 := length (heap k)).
  set (k0 := mkKernel (heap k ++ [OList []; OList []]) (clock k) (log k)).
  assert (Hold : ∀ l o, heap k !! l = Some o → heap k0 !! l = Some o).
  { intros l o Hl. cbn [heap k0]. rewrite lookup_app_l; [done|]. by eapply lookup_lt_Some. }
  assert (Htr0 : heap k0 !! tt0 = Some (OList [])).
  { cbn [heap k0]. rewrite lookup_app_r by (unfold tt0; lia).
    by replace (tt0 - length (heap k))%nat with 0%nat by (unfold tt0; lia). }
  assert (Hte0 : heap k0 !! S tt0 = Some (OList [])).
  { cbn [heap k0]. rewrite lookup_app_r by (unfold tt0; lia).
    by replace (S tt0 - length (heap k))%nat with 1%nat by (unfold tt0; lia). }
  destruct (timing_loop_run W g X y est tt0 (S tt0) Xv yv Xp spec sz ltac:(lia) Hlen
              k0 old [] [] (Hold _ _ HX) (Hold _ _ Hy) (Hold _ _ HXp) (Hold _ _ He)
              Htr0 Hte0)
    as (k1 & Hrun & Htr1 & Hte1 & He1 & Hc1 & Hl1 & Hkeep1).
  assert (length (heap k1) = S (S tt0)) as Hlk1.
  { rewrite Hl1. cbn [heap k0]. rewrite length_app. cbn [length]. unfold tt0. lia. }
  pose proof (lookup_lt_Some _ _ _ He) as Hlte.
  pose proof (lookup_lt_Some _ _ _ Hp) as Hltp.
  pose proof (lookup_lt_Some _ _ _ Hsz) as Hlts.
  assert (plot2 ≠ est) as Hpe by (intros ->; congruence).
  assert (sizes ≠ est) as Hse by (intros ->; congruence).
  assert (Hp1 : heap k1 !! plot2 = Some (OList ps)).
  { apply Hkeep1; [done|unfold tt0; lia|unfold tt0; lia|by apply Hold]. }
  assert (Hs1 : heap k1 !! sizes = Some (ONd1 sz)).
  { apply Hkeep1; [done|unfold tt0; lia|unfold tt0; lia|by apply Hold]. }
  eexists _, (S (S tt0)), (S (S (S tt0))), _, _, _, _.
  split.
  { unfold time_and_trace. rewrite !bind_run.
    unfold alloc at 1. cbn beta iota. rewrite bind_run.
    unfold alloc at 1. cbn beta iota. cbn [heap clock log].
    rewrite length_app. cbn [length]. rewrite Nat.add_1_r.
    rewrite <- app_assoc. cbn [app]. fold tt0. fold k0.
    rewrite !bind_run. unfold load_nd1. rewrite bind_run. unfold load at 1.
    rewrite (Hold _ _ Hsz). cbn beta iota. unfold mret at 1, Py_ret at 1.
    rewrite bind_run, Hrun. cbn beta iota.
    rewrite bind_run, new_Scatter_run. cbn beta iota.
    rewrite bind_run, new_Scatter_run. cbn beta iota. cbn [heap clock log].
    rewrite bind_run.
    erewrite list_append_run; cycle 1.
    { cbn [heap]. rewrite <- app_assoc. rewrite lookup_app_l by lia. exact Hp1. }
    cbn beta iota.
    erewrite list_append_run; cycle 1.
    { cbn [heap]. apply list_lookup_insert_eq.
      rewrite !length_app. cbn [length]. lia. }
    cbn [heap clock log]. rewrite Hlk1, length_app, Hlk1. cbn [length].
    rewrite Nat.add_1_r. reflexivity. }
  cbn [heap clock log tr_name tr_x tr_y].
  assert (Hin : ∀ l o, (l < S (S tt0))%nat → l ≠ plot2 → heap k1 !! l = Some o →
            <[plot2:=OList ((ps ++ [VRef (S (S tt0))]) ++ [VRef (S (S (S tt0)))])]>
              (<[plot2:=OList (ps ++ [VRef (S (S tt0))])]>
                 ((heap k1 ++ [OTrace (Trace "scatter" sizes tt0
                                  (Some (Fmt "%s (train)" [AStr name]))
                                  [("mode", "lines+markers");
                                   ("marker.color", color_of name)]%string None)]) ++
                  [OTrace (Trace "scatter" sizes (S tt0)
                             (Some (Fmt "%s (test)" [AStr name]))
                             [("mode", "lines+markers"); ("marker.color", color_of name);
                              ("line.dash", "dash")]%string None)])) !! l = Some o).
  { intros l o Hl Hne Hlo. rewrite !list_lookup_insert_ne by done.
    rewrite <- app_assoc. rewrite lookup_app_l by lia. exact Hlo. }
  split.
  { rewrite list_lookup_insert_eq; [by rewrite <- app_assoc|].
    rewrite length_insert, !length_app. cbn [length]. lia. }
  split; [apply lookup_ge_None_2; unfold tt0; lia|].
  split; [apply lookup_ge_None_2; unfold tt0; lia|].
  split; [lia|].
  split.
  { rewrite !list_lookup_insert_ne by (unfold tt0; lia).
    rewrite lookup_app_l by (rewrite length_app; cbn [length]; lia).
    rewrite <- Hlk1. apply lookup_alloc. }
  split.
  { rewrite !list_lookup_insert_ne by (unfold tt0; lia).
    rewrite lookup_app_r by (rewrite length_app; cbn [length]; lia).
    rewrite length_app, Hlk1. cbn [length].
    by replace (S (S (S tt0)) - (S (S tt0) + 1))%nat with 0%nat by lia. }
  split; [reflexivity|]. split; [reflexivity|].
  split; [reflexivity|]. split; [reflexivity|].
  split; [reflexivity|]. split; [reflexivity|].
  cbn [tr_x tr_y].
  split; [lia|].
  split; [apply lookup_ge_None_2; unfold tt0; lia|].
  split; [apply lookup_ge_None_2; unfold tt0; lia|].
  split; [apply Hin; [lia|unfold tt0; lia|exact Htr1]|].
  split; [apply Hin; [lia|unfold tt0; lia|exact Hte1]|].
  unfold train_durations, test_durations. cbn [app].
  split; [by rewrite length_fmap, length_seq|].
  split; [by rewrite length_fmap, length_seq|].
  split; [apply Hin; [unfold tt0; lia|done|exact He1]|].
  split; [exact Hc1|].
  intros l o Hle Hlp Hlo. pose proof (lookup_lt_Some _ _ _ Hlo).
  apply Hin; [unfold tt0; lia|done|].
  apply Hkeep1; [done|unfold tt0; lia|unfold tt0; lia|by apply Hold].
Qed.

Lemma time_and_trace_appends_a_pair_witness :
  ∃ k' t5 t6 tr5 tr6 train test,
    time_and_trace W0 {| g_rng := 0; g_X := 0; g_y := 1; g_X_plot := 2 |} 0 1 3 4
      ("SVR"%string, 5%nat)
      (mkKernel [ONd2 [[1]; [2]]; ONd1 [1; 2]; ONd2 [[0]]; ONd1 [1; 2]; OList [];
                 OEstimator (SVR "rbf" 10 10) None] 0 []) = Ok tt k' ∧
    heap k' !! 4%nat = Some (OList ([] ++ [VRef t5; VRef t6])) ∧
    heap (mkKernel [ONd2 [[1]; [2]]; ONd1 [1; 2]; ONd2 [[0]]; ONd1 [1; 2]; OList [];
                    OEstimator (SVR "rbf" 10 10) None] 0 []) !! t5 = None ∧
    heap (mkKernel [ONd2 [[1]; [2]]; ONd1 [1; 2]; ONd2 [[0]]; ONd1 [1; 2]; OList [];
                    OEstimator (SVR "rbf" 10 10) None] 0 []) !! t6 = None ∧
    t5 ≠ t6 ∧
    heap k' !! t5 = Some (OTrace tr5) ∧ heap k' !! t6 = Some (OTrace tr6) ∧
    tr_name tr5 = Some (Fmt "%s (train)" [AStr "SVR"]) ∧
    tr_name tr6 = Some (Fmt "%s (test)" [AStr "SVR"]) ∧
    colour tr5 = Some (if String.eqb "SVR" "SVR" then "red" else "green")%string ∧
    colour tr6 = colour tr5 ∧
    tr_x tr5 = 3%nat ∧ tr_x tr6 = 3%nat ∧ tr_y tr5 ≠ tr_y tr6 ∧
    heap (mkKernel [ONd2 [[1]; [2]]; ONd1 [1; 2]; ONd2 [[0]]; ONd1 [1; 2]; OList [];
                    OEstimator (SVR "rbf" 10 10) None] 0 []) !! tr_y tr5 = None ∧
    heap (mkKernel [ONd2 [[1]; [2]]; ONd1 [1; 2]; ONd2 [[0]]; ONd1 [1; 2]; OList [];
                    OEstimator (SVR "rbf" 10 10) None] 0 []) !! tr_y tr6 = None ∧
    heap k' !! tr_y tr5 = Some (OList train) ∧
    heap k' !! tr_y tr6 = Some (OList test) ∧
    length train = length [1; 2] ∧ length test = length [1; 2] ∧
    heap k' !! 5%nat =
      Some (OEstimator (SVR "rbf" 10 10) (last_fit [1; 2] [[1]; [2]] [1; 2] None)) ∧
    clock k' = (0 + 4 * length [1; 2])%nat ∧
    ∀ l o, l ≠ 5%nat → l ≠ 4%nat →
           heap (mkKernel [ONd2 [[1]; [2]]; ONd1 [1; 2]; ONd2 [[0]]; ONd1 [1; 2]; OList [];
                           OEstimator (SVR "rbf" 10 10) None] 0 []) !! l = Some o →
           heap k' !! l = Some o.
Proof.
  apply (time_and_trace_appends_a_pair W0
           {| g_rng := 0; g_X := 0; g_y := 1; g_X_plot := 2 |} 0%nat 1%nat 3%nat 4%nat
           "SVR"%string 5%nat [[1]; [2]] [1; 2] [[0]] [1; 2] (SVR "rbf" 10 10) None []
           (mkKernel [ONd2 [[1]; [2]]; ONd1 [1; 2]; ONd2 [[0]]; ONd1 [1; 2]; OList [];
                      OEstimator (SVR "rbf" 10 10) None] 0 []));
    try reflexivity.
  - repeat split; try (repeat constructor; fail); try lra; simpl; lia.
  - repeat constructor; lra.
Defined.

(** ** The objects of the session when cell 5 ends *)


Ltac layout_exec :=
  lazy beta iota zeta delta
    [figure_at heap lookup list_lookup fmap option_fmap option_map layout_view
     fig_xaxes fig_yaxes fig_titles fig_layout list_fmap];
  vm_compute; reflexivity.

Ltac detail_exec :=
  lazy beta iota zeta delta
    [trace_fields traces_of figure_at trace_at
     heap lookup list_lookup mbind option_bind mret option_ret mapM
     fig_data tr_name tr_x tr_y tr_attrs tr_axes fmap list_fmap option_fmap option_map
     colour assoc String.eqb Ascii.eqb Bool.eqb];
  try reflexivity.

Lemma plotted_detail_run W :
  support_in_range W →
  ∃ k, plotted W empty_kernel = Ok (G3, G4 W, G5) k ∧ plotted_detail W k.
Proof.
  intros Hsup. destruct (krr_first W) eqn:Hk.
  - eexists. split; [plotted_exec Hsup Hk; reflexivity|].
    split; unfold dict_order; rewrite ?Hk; [layout_exec|..]; try reflexivity.
    all: detail_exec.
  - eexists. split; [plotted_exec Hsup Hk; reflexivity|].
    split; unfold dict_order; rewrite ?Hk; [layout_exec|..]; try reflexivity.
    all: detail_exec.
Qed.

(** ** The sizes of the timing loop *)

Lemma trunc_between r z : (0 <= z)%Z → IZR z <= r < IZR z + 1 → trunc r = z.
Proof.
  intros Hz [Hl Hu]. unfold trunc.
  assert (0 <= IZR z) by (by apply IZR_le).
  destruct (Rle_dec 0 r) as [_|Hn]; [|lra].
  symmetry. apply Int_part_spec. lra.
Qed.

Lemma sqrt_10_bounds : 3.162 <= sqrt 10 < 3.163.
Proof.
  split.
  - rewrite <- (sqrt_square 3.162) by lra. apply sqrt_le_1_alt. lra.
  - rewrite <- (sqrt_square 3.163) by lra. apply sqrt_lt_1_alt. lra.
Qed.

Lemma Rpower_10_nat (n : nat) : Rpower 10 (INR n) = 10 ^ n.
Proof. apply Rpower_pow. lra. Qed.

Lemma Rpower_10_half (n : nat) : Rpower 10 (INR n + /2) = 10 ^ n * sqrt 10.
Proof. rewrite Rpower_plus, Rpower_10_nat, Rpower_sqrt by lra. reflexivity. Qed.

Lemma logspace_1_4_7_values :
  logspace 1 4 7 =
    [10; 10 * sqrt 10; 100; 100 * sqrt 10; 1000; 1000 * sqrt 10; 10000].
Proof.
  rewrite logspace_1_4_7.
  replace (1 + INR 0 * (4 - 1) / INR 6) with (INR 1) by (simpl; lra).
  replace (1 + INR 1 * (4 - 1) / INR 6) with (INR 1 + /2) by (simpl; lra).
  replace (1 + INR 2 * (4 - 1) / INR 6) with (INR 2) by (simpl; lra).
  replace (1 + INR 3 * (4 - 1) / INR 6) with (INR 2 + /2) by (simpl; lra).
  replace (1 + INR 4 * (4 - 1) / INR 6) with (INR 3) by (simpl; lra).
  replace (1 + INR 5 * (4 - 1) / INR 6) with (INR 3 + /2) by (simpl; lra).
  replace (1 + INR 6 * (4 - 1) / INR 6) with (INR 4) by (simpl; lra).
  rewrite !Rpower_10_nat, !Rpower_10_half.
  repeat f_equal; lra.
Qed.

Lemma trunc_logspace_1_4_7 :
  trunc <$> logspace 1 4 7 = [10; 31; 100; 316; 1000; 3162; 10000]%Z.
Proof.
  rewrite logspace_1_4_7_values. pose proof sqrt_10_bounds as [Hl Hu].
  cbn [fmap list_fmap].
  repeat f_equal; apply trunc_between; (lia || lra).
Qed.

(** X9: the sizes of the timing loop are floats, [10 ** 1.5] and so on,
    and a float slice bound is truncated, not rounded. The pass of the
    loop body for size number [j] of [np.logspace(1, 4, 7)], on arrays
    that [fit] and [predict] accept, leaves the estimator fitted on the
    first [n] samples (all of them when there are fewer), where [n] is
    entry [j] of 10, 31, 100, 316, 1000, 3162, 10000; the second size is
    above 31.5 and 31 samples are used. *)
Theorem timing_sizes_truncated
    W g X y est train_time test_time Xv yv Xp spec old tr te k j s :
  heap k !! X = Some (ONd2 Xv) →
  heap k !! y = Some (ONd1 yv) →
  heap k !! g_X_plot g = Some (ONd2 Xp) →
  heap k !! est = Some (OEstimator spec old) →
  heap k !! train_time = Some (OList tr) →
  heap k !! test_time = Some (OList te) →
  train_time ≠ test_time →
  fit_and_predict_accept spec Xv yv Xp →
  logspace 1 4 7 !! j = Some s →
  ∃ n k' Xt yt,
    [10; 31; 100; 316; 1000; 3162; 10000]%Z !! j = Some n ∧
    trunc s = n ∧ IZR n <= s ∧
    (j = 1%nat → n = 31%Z ∧ 31.5 < s) ∧
    time_estimator W g X y est train_time test_time s k = Ok tt k' ∧
    heap k' !! est = Some (OEstimator spec (Some (Xt, yt))) ∧
    Xt = take (Z.to_nat n) Xv ∧ yt = take (Z.to_nat n) yv ∧
    length Xt = Nat.min (Z.to_nat n) (length Xv) ∧ length yt = length Xt.
Proof.
  intros HX Hy HXp He Htr Hte Hne (_ & _ & _ & _ & Hlen & _) Hj.
  assert (est ≠ train_time) as H1 by (intros ->; congruence).
  assert (est ≠ test_time) as H2 by (intros ->; congruence).
  pose proof (lookup_lt_Some _ _ _ He) as Hlt.
  assert (Hn : [10; 31; 100; 316; 1000; 3162; 10000]%Z !! j = Some (trunc s)).
  { rewrite <- trunc_logspace_1_4_7, list_lookup_fmap, Hj. reflexivity. }
  assert (Hs : IZR (trunc s) <= s ∧ (j = 1%nat → 31.5 < s)).
  { rewrite logspace_1_4_7_values in Hj. pose proof sqrt_10_bounds as [Hl Hu].
    assert (H0 : 0 <= s).
    { destruct j as [|[|[|[|[|[|[|j]]]]]]]; cbn [lookup list_lookup] in Hj;
        [injection Hj as <-; lra..|discriminate]. }
    split.
    - unfold trunc. destruct (Rle_dec 0 s) as [_|Hneg]; [|by destruct Hneg].
      pose proof (base_Int_part s). lra.
    - intros ->. cbn [lookup list_lookup] in Hj. injection Hj as <-. lra. }
  eexists (trunc s), _, _, _.
  split; [exact Hn|]. split; [reflexivity|]. split; [apply Hs|].
  split.
  { intros ->. split; [|by apply Hs]. cbn [lookup list_lookup] in Hn. congruence. }
  split.
  { apply (time_estimator_run W g X y est train_time test_time s k Xv yv Xp spec old tr te);
      assumption. }
  cbn [heap].
  split.
  { rewrite !list_lookup_insert_ne by done. by rewrite list_lookup_insert_eq. }
  split; [reflexivity|]. split; [reflexivity|].
  rewrite !length_take, Hlen. split; reflexivity.
Qed.

Lemma timing_sizes_truncated_witness :
  ∃ n k' Xt yt,
    [10; 31; 100; 316; 1000; 3162; 10000]%Z !! 1%nat = Some n ∧
    trunc (10 * sqrt 10) = n ∧ IZR n <= 10 * sqrt 10 ∧
    (1%nat = 1%nat → n = 31%Z ∧ 31.5 < 10 * sqrt 10) ∧
    time_estimator W0 {| g_rng := 0; g_X := 0; g_y := 1; g_X_plot := 2 |} 0 1 3 4 5
      (10 * sqrt 10)
      (mkKernel [ONd2 [[1]; [2]]; ONd1 [1; 2]; ONd2 [[0]];
                 OEstimator (SVR "rbf" 10 10) None; OList []; OList []] 0 [])
      = Ok tt k' ∧
    heap k' !! 3%nat = Some (OEstimator (SVR "rbf" 10 10) (Some (Xt, yt))) ∧
    Xt = take (Z.to_nat n) [[1]; [2]] ∧ yt = take (Z.to_nat n) [1; 2] ∧
    length Xt = Nat.min (Z.to_nat n) (length [[1]; [2]]) ∧ length yt = length Xt.
Proof.
  apply (timing_sizes_truncated W0
           {| g_rng := 0; g_X := 0; g_y := 1; g_X_plot := 2 |} 0%nat 1%nat 3%nat 4%nat 5%nat
           [[1]; [2]] [1; 2] [[0]] (SVR "rbf" 10 10) None [] []
           (mkKernel [ONd2 [[1]; [2]]; ONd1 [1; 2]; ONd2 [[0]];
                      OEstimator (SVR "rbf" 10 10) None; OList []; OList []] 0 [])
           1%nat (10 * sqrt 10));
    try reflexivity.
  - lia.
  - repeat split; try (repeat constructor; fail); try lra; simpl; lia.
  - rewrite logspace_1_4_7_values. reflexivity.
Defined.

(** ** What the figure of the notebook holds *)

Lemma trace_fields_Some {A} (f : trace → A) k fig l :
  trace_fields f k fig = Some l → ∃ ts, traces_of k fig = Some ts ∧ f <$> ts = l.
Proof.
  unfold trace_fields. destruct (traces_of k fig) as [ts|]; [|done].
  intros [= <-]. by exists ts.
Qed.

Lemma length_plot_grid : length plot_grid = Z.to_nat 100000.
Proof. unfold plot_grid, new_axis, linspace. by rewrite !length_fmap, length_seq. Qed.

Lemma length_select {A} (d : A) a idx : length (select d a idx) = length idx.
Proof. unfold select. by rewrite length_fmap. Qed.

Lemma dict_order_both W : dict_order W ≡ₚ ["KRR"; "SVR"]%string.
Proof. unfold dict_order. destruct (krr_first W); [done|apply Permutation_swap]. Qed.

(** X10: the durations that cell 4 measures are differences of two
    successive clock readings, non-negative when the clock does not go
    back; the lines that cell 4 prints and the names of traces 3 and 4 of
    the figure carry these same values; the prediction lines report the
    100000 inputs of the grid, and the support vector ratio is the number
    of support vectors over 100 as a float. *)
Theorem durations_printed_and_plotted W :
  support_in_range W →
  ∃ g3 g4 g5 k names,
    plotted W empty_kernel = Ok (g3, g4, g5) k ∧
    g_svr_fit g4 = now W 1 - now W 0 ∧ g_kr_fit g4 = now W 3 - now W 2 ∧
    g_svr_predict g4 = now W 5 - now W 4 ∧ g_kr_predict g4 = now W 7 - now W 6 ∧
    take 5 (prints (log k)) =
      [Fmt "SVR complexity and bandwidth selected and model fitted in %.3f s"
           [AFloat (g_svr_fit g4)];
       Fmt "KRR complexity and bandwidth selected and model fitted in %.3f s"
           [AFloat (g_kr_fit g4)];
       Fmt "Support vector ratio: %.3f"
           [AFloat (INR (length (sv_ind W)) / 100)];
       Fmt "SVR prediction for %d inputs in %.3f s"
           [AInt 100000; AFloat (g_svr_predict g4)];
       Fmt "KRR prediction for %d inputs in %.3f s"
           [AInt 100000; AFloat (g_kr_predict g4)]] ∧
    trace_fields tr_name k (g_fig g5) = Some names ∧
    names !! 2%nat =
      Some (Some (Fmt "SVR (fit: %.3fs, predict: %.3fs)"
                      [AFloat (g_svr_fit g4); AFloat (g_svr_predict g4)])) ∧
    names !! 3%nat =
      Some (Some (Fmt "KRR (fit: %.3fs, predict: %.3fs)"
                      [AFloat (g_kr_fit g4); AFloat (g_kr_predict g4)])) ∧
    ((∀ n m, (n ≤ m)%nat → now W n <= now W m) →
     0 <= g_svr_fit g4 ∧ 0 <= g_kr_fit g4 ∧
     0 <= g_svr_predict g4 ∧ 0 <= g_kr_predict g4).
Proof.
  intros Hsup. destruct (plotted_detail_run W Hsup) as (k & Hrun & Hd).
  eexists G3, (G4 W), G5, k, _. split; [exact Hrun|].
  cbn [G4 G5 g_svr_fit g_kr_fit g_svr_predict g_kr_predict g_fig].
  do 4 (split; [reflexivity|]).
  split.
  { rewrite (pd_prints _ _ Hd). cbn [take]. rewrite length_plot_grid.
    rewrite Z2Nat.id by lia. unfold true_div.
    rewrite <- INR_IZR_INZ. reflexivity. }
  split; [exact (pd_names _ _ Hd)|].
  split; [reflexivity|]. split; [reflexivity|].
  intros Hmono.
  pose proof (Hmono 0%nat 1%nat ltac:(lia)). pose proof (Hmono 2%nat 3%nat ltac:(lia)).
  pose proof (Hmono 4%nat 5%nat ltac:(lia)). pose proof (Hmono 6%nat 7%nat ltac:(lia)).
  lra.
Qed.

Lemma durations_printed_and_plotted_witness :
  ∃ g3 g4 g5 k names,
    plotted W0 empty_kernel = Ok (g3, g4, g5) k ∧
    g_svr_fit g4 = now W0 1 - now W0 0 ∧ g_kr_fit g4 = now W0 3 - now W0 2 ∧
    g_svr_predict g4 = now W0 5 - now W0 4 ∧ g_kr_predict g4 = now W0 7 - now W0 6 ∧
    take 5 (prints (log k)) =
      [Fmt "SVR complexity and bandwidth selected and model fitted in %.3f s"
           [AFloat (g_svr_fit g4)];
       Fmt "KRR complexity and bandwidth selected and model fitted in %.3f s"
           [AFloat (g_kr_fit g4)];
       Fmt "Support vector ratio: %.3f"
           [AFloat (INR (length (sv_ind W0)) / 100)];
       Fmt "SVR prediction for %d inputs in %.3f s"
           [AInt 100000; AFloat (g_svr_predict g4)];
       Fmt "KRR prediction for %d inputs in %.3f s"
           [AInt 100000; AFloat (g_kr_predict g4)]] ∧
    trace_fields tr_name k (g_fig g5) = Some names ∧
    names !! 2%nat =
      Some (Some (Fmt "SVR (fit: %.3fs, predict: %.3fs)"
                      [AFloat (g_svr_fit g4); AFloat (g_svr_predict g4)])) ∧
    names !! 3%nat =
      Some (Some (Fmt "KRR (fit: %.3fs, predict: %.3fs)"
                      [AFloat (g_kr_fit g4); AFloat (g_kr_predict g4)])) ∧
    ((∀ n m, (n ≤ m)%nat → now W0 n <= now W0 m) →
     0 <= g_svr_fit g4 ∧ 0 <= g_kr_fit g4 ∧
     0 <= g_svr_predict g4 ∧ 0 <= g_kr_predict g4).
Proof.
  apply (durations_printed_and_plotted W0).
  intros s Xt yt. constructor.
Defined.

(** X11: the timing traces come in the order in which the dict of
    estimators yields its entries, a train trace and then a test trace for
    each; whichever the order, the traces of SVR are red and the traces of
    KRR green, as in the other two subplots, and [plot2] holds the four
    timing traces in the order in which the figure holds them. *)
Theorem timing_traces_follow_dict_order W :
  support_in_range W →
  ∃ k f ts,
    plotted W empty_kernel = Ok (G3, G4 W, G5) k ∧
    figure_at k (g_fig G5) = Some f ∧
    traces_of k (g_fig G5) = Some ts ∧
    dict_order W ≡ₚ ["KRR"; "SVR"]%string ∧
    tr_name <$> take 4 (drop 4 ts) =
      for_both (λ n, [Some (Fmt "%s (train)" [AStr n]);
                      Some (Fmt "%s (test)" [AStr n])]) (dict_order W) ∧
    colour <$> take 4 (drop 4 ts) =
      for_both (λ n, [Some (if String.eqb n "SVR" then "red" else "green")%string;
                      Some (if String.eqb n "SVR" then "red" else "green")%string])
               (dict_order W) ∧
    colour <$> take 4 ts = [Some "red"; Some "green"; Some "red"; Some "green"]%string ∧
    colour <$> drop 8 ts = [Some "red"; Some "green"]%string ∧
    tr_name <$> drop 8 ts = [Some (Lit "SVR"); Some (Lit "KRR")] ∧
    heap k !! g_plot2 G5 = Some (OList (VRef <$> take 4 (drop 4 (fig_data f)))).
Proof.
  intros Hsup. destruct (plotted_detail_run W Hsup) as (k & Hrun & Hd).
  destruct (trace_fields_Some _ _ _ _ (pd_names _ _ Hd)) as (ts & Hts & Hnames).
  pose proof (pd_colours _ _ Hd) as Hc. unfold trace_fields in Hc.
  pose proof (pd_data _ _ Hd) as Hdata.
  change (g_fig G5) with 8%nat. change (g_plot2 G5) with 28%nat.
  rewrite Hts in Hc. injection Hc as Hc.
  destruct (figure_at k 8) as [f|] eqn:Hf; [|discriminate Hdata].
  injection Hdata as Hdata.
  exists k, f, ts. split; [exact Hrun|]. split; [exact Hf|]. split; [exact Hts|].
  split; [apply dict_order_both|].
  rewrite !fmap_take, !fmap_drop, Hnames, Hc, Hdata, (pd_plot2 _ _ Hd).
  unfold dict_order, color_of. destruct (krr_first W); repeat split; reflexivity.
Qed.

Lemma timing_traces_follow_dict_order_witness :
  ∃ k f ts,
    plotted W0 empty_kernel = Ok (G3, G4 W0, G5) k ∧
    figure_at k (g_fig G5) = Some f ∧
    traces_of k (g_fig G5) = Some ts ∧
    dict_order W0 ≡ₚ ["KRR"; "SVR"]%string ∧
    tr_name <$> take 4 (drop 4 ts) =
      for_both (λ n, [Some (Fmt "%s (train)" [AStr n]);
                      Some (Fmt "%s (test)" [AStr n])]) (dict_order W0) ∧
    colour <$> take 4 (drop 4 ts) =
      for_both (λ n, [Some (if String.eqb n "SVR" then "red" else "green")%string;
                      Some (if String.eqb n "SVR" then "red" else "green")%string])
               (dict_order W0) ∧
    colour <$> take 4 ts = [Some "red"; Some "green"; Some "red"; Some "green"]%string ∧
    colour <$> drop 8 ts = [Some "red"; Some "green"]%string ∧
    tr_name <$> drop 8 ts = [Some (Lit "SVR"); Some (Lit "KRR")] ∧
    heap k !! g_plot2 G5 = Some (OList (VRef <$> take 4 (drop 4 (fig_data f)))).
Proof.
  apply (timing_traces_follow_dict_order W0).
  intros s Xt yt. constructor.
Defined.

Lemma lookup_field {A} (f : trace → A) (ts : list trace) (l : list A) (i : nat) t :
  f <$> ts = l → ts !! i = Some t → l !! i = Some (f t).
Proof. intros <- Ht. by rewrite list_lookup_fmap, Ht. Qed.

(** X12: which traces of the figure share their data. The four timing
    traces all have the one array [sizes] as [x]. The two learning-curve
    traces have one array as [x]: the train sizes that [learning_curve]
    returned for SVR; the array it returned for KRR ([train_sizes_abs]) is
    given to no trace. Traces 3 and 4 have two different lists as [x], with
    the same elements. *)
Theorem traces_share_their_x_data W :
  support_in_range W →
  ∃ k ts,
    plotted W empty_kernel = Ok (G3, G4 W, G5) k ∧
    traces_of k (g_fig G5) = Some ts ∧
    (∀ i t, (4 ≤ i < 8)%nat → ts !! i = Some t → tr_x t = g_sizes G5) ∧
    heap k !! g_sizes G5 = Some (ONd1 (logspace 1 4 7)) ∧
    (∃ t7 t8, ts !! 8%nat = Some t7 ∧ ts !! 9%nat = Some t8 ∧
              tr_x t7 = tr_x t8 ∧ tr_y t7 ≠ tr_y t8 ∧
              heap k !! tr_x t7 = Some (ONd1 (svr_curve W).1.1)) ∧
    (∃ l, heap k !! l = Some (ONd1 (kr_curve W).1.1) ∧
          Forall (λ t, tr_x t ≠ l ∧ tr_y t ≠ l) ts) ∧
    (∃ t3 t4 items, ts !! 2%nat = Some t3 ∧ ts !! 3%nat = Some t4 ∧
                    tr_x t3 ≠ tr_x t4 ∧
                    heap k !! tr_x t3 = Some (OList items) ∧
                    heap k !! tr_x t4 = Some (OList items)).
Proof.
  intros Hsup. destruct (plotted_detail_run W Hsup) as (k & Hrun & Hd).
  destruct (trace_fields_Some _ _ _ _ (pd_xs _ _ Hd)) as (ts & Hts & Hxs).
  pose proof (pd_ys _ _ Hd) as Hys. unfold trace_fields in Hys.
  rewrite Hts in Hys. injection Hys as Hys.
  assert (length ts = 10%nat) as Hlen by (by rewrite <- (length_fmap tr_x), Hxs).
  exists k, ts. split; [exact Hrun|]. split; [exact Hts|].
  change (g_sizes G5) with 27%nat.
  split.
  { intros i t Hi Ht. pose proof (lookup_field _ _ _ _ _ Hxs Ht) as Hx.
    do 4 (destruct i as [|i]; [lia|]).
    do 4 (destruct i as [|i]; [by injection Hx|]). lia. }
  split; [exact (pd_sizes _ _ Hd)|].
  destruct (lookup_lt_is_Some_2 ts 8) as [t7 H7]; [lia|].
  destruct (lookup_lt_is_Some_2 ts 9) as [t8 H8]; [lia|].
  destruct (lookup_lt_is_Some_2 ts 2) as [t3 H3]; [lia|].
  destruct (lookup_lt_is_Some_2 ts 3) as [t4 H4]; [lia|].
  pose proof (lookup_field _ _ _ _ _ Hxs H7) as Hx7. injection Hx7 as Hx7.
  pose proof (lookup_field _ _ _ _ _ Hxs H8) as Hx8. injection Hx8 as Hx8.
  pose proof (lookup_field _ _ _ _ _ Hys H7) as Hy7. injection Hy7 as Hy7.
  pose proof (lookup_field _ _ _ _ _ Hys H8) as Hy8. injection Hy8 as Hy8.
  pose proof (lookup_field _ _ _ _ _ Hxs H3) as Hx3. injection Hx3 as Hx3.
  pose proof (lookup_field _ _ _ _ _ Hxs H4) as Hx4. injection Hx4 as Hx4.
  split.
  { exists t7, t8. split; [done|]. split; [done|].
    rewrite <- Hx7, <- Hx8, <- Hy7, <- Hy8.
    split; [done|]. split; [lia|]. exact (pd_sizes_svr _ _ Hd). }
  split.
  { exists 44%nat. split; [exact (pd_sizes_kr _ _ Hd)|].
    apply Forall_forall. intros t Ht. split.
    - assert (tr_x t ∈ tr_x <$> ts) as Hin by (by apply list_elem_of_fmap_2).
      rewrite Hxs in Hin. intros E. rewrite E in Hin.
      rewrite !elem_of_cons, elem_of_nil in Hin. lia.
    - assert (tr_y t ∈ tr_y <$> ts) as Hin by (by apply list_elem_of_fmap_2).
      rewrite Hys in Hin. intros E. rewrite E in Hin.
      rewrite !elem_of_cons, elem_of_nil in Hin. lia. }
  exists t3, t4, (VFloat <$> ravel plot_grid). split; [done|]. split; [done|].
  rewrite <- Hx3, <- Hx4. split; [lia|].
  split; [exact (pd_x3 _ _ Hd)|exact (pd_x4 _ _ Hd)].
Qed.

Lemma traces_share_their_x_data_witness :
  ∃ k ts,
    plotted W0 empty_kernel = Ok (G3, G4 W0, G5) k ∧
    traces_of k (g_fig G5) = Some ts ∧
    (∀ i t, (4 ≤ i < 8)%nat → ts !! i = Some t → tr_x t = g_sizes G5) ∧
    heap k !! g_sizes G5 = Some (ONd1 (logspace 1 4 7)) ∧
    (∃ t7 t8, ts !! 8%nat = Some t7 ∧ ts !! 9%nat = Some t8 ∧
              tr_x t7 = tr_x t8 ∧ tr_y t7 ≠ tr_y t8 ∧
              heap k !! tr_x t7 = Some (ONd1 (svr_curve W0).1.1)) ∧
    (∃ l, heap k !! l = Some (ONd1 (kr_curve W0).1.1) ∧
          Forall (λ t, tr_x t ≠ l ∧ tr_y t ≠ l) ts) ∧
    (∃ t3 t4 items, ts !! 2%nat = Some t3 ∧ ts !! 3%nat = Some t4 ∧
                    tr_x t3 ≠ tr_x t4 ∧
                    heap k !! tr_x t3 = Some (OList items) ∧
                    heap k !! tr_x t4 = Some (OList items)).
Proof.
  apply (traces_share_their_x_data W0).
  intros s Xt yt. constructor.
Defined.

Lemma data_at_list k l a :
  heap k !! l = Some (OList (VFloat <$> a)) → data_at k l = Some a.
Proof. intros Hl. unfold data_at. rewrite Hl. simpl. apply mapM_float_scalars. Qed.

Lemma data_at_nd1 k l a : heap k !! l = Some (ONd1 a) → data_at k l = Some a.
Proof. intros Hl. unfold data_at. rewrite Hl. simpl. apply mapM_float_scalars. Qed.

Lemma train_durations_floats W c n :
  train_durations W c n =
    VFloat <$> ((λ j, now W (c + 4 * j + 1) - now W (c + 4 * j)) <$> seq 0 n).
Proof. unfold train_durations. by rewrite <- list_fmap_compose. Qed.

Lemma test_durations_floats W c n :
  test_durations W c n =
    VFloat <$> ((λ j, now W (c + 4 * j + 3) - now W (c + 4 * j + 2)) <$> seq 0 n).
Proof. unfold test_durations. by rewrite <- list_fmap_compose. Qed.

Lemma column_sample1_X W : column (sample1_X W).
Proof. apply column_sample_X. Qed.

(** X13: each of the first eight traces of the figure has as many [x]
    values as [y] values: as many as there are support vectors for trace
    1, then 100, 100000 and 100000, and 7 for each timing trace. *)
Theorem traces_have_as_many_x_as_y W :
  support_in_range W →
  ∃ k ts,
    plotted W empty_kernel = Ok (G3, G4 W, G5) k ∧
    traces_of k (g_fig G5) = Some ts ∧
    ∀ i t, ts !! i = Some t →
      ∀ n, [length (sv_ind W); 100%nat; Z.to_nat 100000; Z.to_nat 100000;
            7%nat; 7%nat; 7%nat; 7%nat] !! i = Some n →
      ∃ xs ys, data_at k (tr_x t) = Some xs ∧ data_at k (tr_y t) = Some ys ∧
               length xs = n ∧ length ys = n.
Proof.
  intros Hsup. destruct (plotted_detail_run W Hsup) as (k & Hrun & Hd).
  destruct (trace_fields_Some _ _ _ _ (pd_xs _ _ Hd)) as (ts & Hts & Hxs).
  pose proof (pd_ys _ _ Hd) as Hys. unfold trace_fields in Hys.
  rewrite Hts in Hys. injection Hys as Hys.
  exists k, ts. split; [exact Hrun|]. split; [exact Hts|].
  intros i t Ht n Hn.
  pose proof (lookup_field _ _ _ _ _ Hxs Ht) as Hx.
  pose proof (lookup_field _ _ _ _ _ Hys Ht) as Hy.
  assert (Hsv : Forall (λ i, i < length (sample1_X W))%nat (sv_ind W)).
  { unfold sv_ind, sample1_X. rewrite length_sample_X. by apply support_lt. }
  destruct i as [|[|[|[|[|[|[|[|i]]]]]]]];
    try discriminate Hn; injection Hn as <-; injection Hx as <-; injection Hy as <-.
  - eexists _, _.
    split; [apply data_at_list, (pd_x1 _ _ Hd)|].
    split; [apply data_at_list, (pd_y1 _ _ Hd)|].
    rewrite length_ravel_column by (apply column_select; [apply column_sample1_X|done]).
    rewrite (length_select [] (sample1_X W)), (length_select 0 (sample1_y W)). split; reflexivity.
  - eexists _, _.
    split; [apply data_at_list, (pd_x2 _ _ Hd)|].
    split; [apply data_at_list, (pd_y2 _ _ Hd)|].
    rewrite length_ravel_column by apply column_take, column_sample1_X.
    unfold sample1_X, sample1_y. rewrite !length_take, length_sample_X, length_sample_y. lia.
  - eexists _, _.
    split; [apply data_at_list, (pd_x3 _ _ Hd)|].
    split; [apply data_at_list, (pd_y3 _ _ Hd)|].
    rewrite length_ravel_column by apply column_new_axis.
    split; [apply length_plot_grid|]. rewrite <- length_plot_grid. apply length_fmap.
  - eexists _, _.
    split; [apply data_at_list, (pd_x4 _ _ Hd)|].
    split; [apply data_at_list, (pd_y4 _ _ Hd)|].
    rewrite length_ravel_column by apply column_new_axis.
    split; [apply length_plot_grid|]. rewrite <- length_plot_grid. apply length_fmap.
  - eexists _, _.
    split; [apply data_at_nd1, (pd_sizes _ _ Hd)|].
    split; [apply data_at_list; rewrite <- train_durations_floats; apply (pd_train1 _ _ Hd)|].
    split; [reflexivity|]. rewrite length_fmap. apply length_seq.
  - eexists _, _.
    split; [apply data_at_nd1, (pd_sizes _ _ Hd)|].
    split; [apply data_at_list; rewrite <- test_durations_floats; apply (pd_test1 _ _ Hd)|].
    split; [reflexivity|]. rewrite length_fmap. apply length_seq.
  - eexists _, _.
    split; [apply data_at_nd1, (pd_sizes _ _ Hd)|].
    split; [apply data_at_list; rewrite <- train_durations_floats; apply (pd_train2 _ _ Hd)|].
    split; [reflexivity|]. rewrite length_fmap. apply length_seq.
  - eexists _, _.
    split; [apply data_at_nd1, (pd_sizes _ _ Hd)|].
    split; [apply data_at_list; rewrite <- test_durations_floats; apply (pd_test2 _ _ Hd)|].
    split; [reflexivity|]. rewrite length_fmap. apply length_seq.
Qed.

Lemma traces_have_as_many_x_as_y_witness :
  ∃ k ts,
    plotted W0 empty_kernel = Ok (G3, G4 W0, G5) k ∧
    traces_of k (g_fig G5) = Some ts ∧
    ∀ i t, ts !! i = Some t →
      ∀ n, [length (sv_ind W0); 100%nat; Z.to_nat 100000; Z.to_nat 100000;
            7%nat; 7%nat; 7%nat; 7%nat] !! i = Some n →
      ∃ xs ys, data_at k (tr_x t) = Some xs ∧ data_at k (tr_y t) = Some ys ∧
               length xs = n ∧ length ys = n.
Proof.
  apply (traces_have_as_many_x_as_y W0).
  intros s Xt yt. constructor.
Defined.

Lemma last_fit_whole_sample u pos u' pos' old :
  last_fit (logspace 1 4 7) (sample_X u pos) (sample_y u' pos') old =
    Some (sample_X u pos, sample_y u' pos').
Proof.
  rewrite logspace_1_4_7_values. unfold last_fit. cbn [last].
  rewrite trunc_IZR by lia.
  rewrite !take_ge; [done| |]; rewrite ?length_sample_y, ?length_sample_X; lia.
Qed.

(** X14: what the estimators hold when cell 5 ends. The two grid searches
    of cell 4 are fitted on the first 100 rows of the first sample, which
    the names [X] and [y] of cell 3 still refer to; the two estimators of
    the timing loop are fitted on the whole second sample, the last size
    being 10000; the estimators that the names [svr] and [kr] now refer to
    were given to [learning_curve] and are not fitted. The generator has
    given 24000 draws and the clock has been read 64 times. *)
Theorem estimators_when_cell5_ends W :
  support_in_range W →
  ∃ g3 g4 g5 k Xv yv Xv' yv',
    plotted W empty_kernel = Ok (g3, g4, g5) k ∧
    heap k !! g_X g3 = Some (ONd2 Xv) ∧ heap k !! g_y g3 = Some (ONd1 yv) ∧
    heap k !! g_X' g5 = Some (ONd2 Xv') ∧ heap k !! g_y' g5 = Some (ONd1 yv') ∧
    fitted_at k (g_svr g4) = Some (Some (take 100 Xv, take 100 yv)) ∧
    fitted_at k (g_kr g4) = Some (Some (take 100 Xv, take 100 yv)) ∧
    (∃ krr svr,
       heap k !! krr = Some (OEstimator (KernelRidge "rbf" 0.1 10) (Some (Xv', yv'))) ∧
       heap k !! svr = Some (OEstimator (SVR "rbf" 10 10) (Some (Xv', yv')))) ∧
    fitted_at k (g_svr' g5) = Some None ∧
    fitted_at k (g_kr' g5) = Some None ∧
    heap k !! g_rng g3 = Some (ORandomState 0 (Z.to_nat 24000)) ∧
    clock k = 64%nat.
Proof.
  intros Hsup. destruct (plotted_detail_run W Hsup) as (k & Hrun & Hd).
  exists G3, (G4 W), G5, k, (sample1_X W), (sample1_y W), (sample2_X W), (sample2_y W).
  split; [exact Hrun|].
  cbn [G3 G4 G5 g_X g_y g_X' g_y' g_svr g_kr g_svr' g_kr' g_rng].
  split; [exact (pd_X _ _ Hd)|]. split; [exact (pd_y _ _ Hd)|].
  split; [exact (pd_X' _ _ Hd)|]. split; [exact (pd_y' _ _ Hd)|].
  unfold fitted_at.
  rewrite (pd_svr _ _ Hd), (pd_kr _ _ Hd), (pd_svr' _ _ Hd), (pd_kr' _ _ Hd).
  split; [done|]. split; [done|].
  split.
  { exists 29%nat, 30%nat.
    rewrite (pd_krr_timed _ _ Hd), (pd_svr_timed _ _ Hd).
    unfold sample2_X, sample2_y. rewrite !last_fit_whole_sample. split; reflexivity. }
  split; [done|]. split; [done|].
  split; [|exact (pd_clock _ _ Hd)].
  rewrite (pd_rng _ _ Hd). do 2 f_equal; lia.
Qed.

Lemma estimators_when_cell5_ends_witness :
  ∃ g3 g4 g5 k Xv yv Xv' yv',
    plotted W0 empty_kernel = Ok (g3, g4, g5) k ∧
    heap k !! g_X g3 = Some (ONd2 Xv) ∧ heap k !! g_y g3 = Some (ONd1 yv) ∧
    heap k !! g_X' g5 = Some (ONd2 Xv') ∧ heap k !! g_y' g5 = Some (ONd1 yv') ∧
    fitted_at k (g_svr g4) = Some (Some (take 100 Xv, take 100 yv)) ∧
    fitted_at k (g_kr g4) = Some (Some (take 100 Xv, take 100 yv)) ∧
    (∃ krr svr,
       heap k !! krr = Some (OEstimator (KernelRidge "rbf" 0.1 10) (Some (Xv', yv'))) ∧
       heap k !! svr = Some (OEstimator (SVR "rbf" 10 10) (Some (Xv', yv')))) ∧
    fitted_at k (g_svr' g5) = Some None ∧
    fitted_at k (g_kr' g5) = Some None ∧
    heap k !! g_rng g3 = Some (ORandomState 0 (Z.to_nat 24000)) ∧
    clock k = 64%nat.
Proof.
  apply (estimators_when_cell5_ends W0).
  intros s Xt yt. constructor.
Defined.

Lemma Forall_field {A} (f : trace → A) (l : list trace) n x :
  f <$> l = replicate n x → Forall (λ t, f t = x) l.
Proof.
  revert n. induction l as [|t l IH]; intros [|n] H; try discriminate H; [done|].
  injection H as Ht Hl. constructor; [done|]. by eapply IH.
Qed.

Lemma filter_all {A} (P : A → Prop) `{∀ x, Decision (P x)} l :
  Forall P l → filter P l = l.
Proof.
  induction 1 as [|x l Hx _ IH]; [done|]. rewrite filter_cons_True by done. by f_equal.
Qed.

Lemma filter_none {A} (P : A → Prop) `{∀ x, Decision (P x)} l :
  Forall (λ x, ¬ P x) l → filter P l = [].
Proof.
  induction 1 as [|x l Hx _ IH]; [done|]. by rewrite filter_cons_False.
Qed.

Lemma filter_by_field {A} `{EqDecision A} (f : trace → A) ts l1 l2 l3 a b c n1 n2 n3 :
  ts = l1 ++ l2 ++ l3 →
  f <$> l1 = replicate n1 a → f <$> l2 = replicate n2 b → f <$> l3 = replicate n3 c →
  a ≠ b → c ≠ b →
  filter (λ t, f t = b) ts = l2.
Proof.
  intros -> H1 H2 H3 Hab Hcb.
  apply Forall_field in H1, H2, H3.
  rewrite !filter_app.
  rewrite (filter_none _ l1), (filter_none _ l3), (filter_all _ l2).
  - by rewrite app_nil_r.
  - exact H2.
  - eapply Forall_impl; [exact H3|]. intros t Ht. by rewrite Ht.
  - eapply Forall_impl; [exact H1|]. intros t Ht. by rewrite Ht.
Qed.

(** X15: the layout of the figure when cell 5 ends. The three subplots
    have the axes 1, 2 and 3 and the titles given to [make_subplots]; the
    updates of the layout leave every axis with its own title, and with a
    logarithmic scale on the x and the y axis number 2 and on no other; the
    traces on the axes number 2 are the four timing traces; the height is
    900. *)
Theorem log_axes_are_those_of_the_timing_traces W :
  support_in_range W →
  ∃ k f ts,
    plotted W empty_kernel = Ok (G3, G4 W, G5) k ∧
    figure_at k (g_fig G5) = Some f ∧
    traces_of k (g_fig G5) = Some ts ∧
    grid_cell f 1 1 = Some (Some 1%nat) ∧ grid_cell f 1 2 = Some (Some 2%nat) ∧
    grid_cell f 2 1 = Some (Some 3%nat) ∧
    fig_titles f = ["SVR versus Kernel Ridge"; "Execution Time"; "Learning Curves"]%string ∧
    axis_view <$> fig_xaxes f =
      [(Some "data", None); (Some "Train size", Some "log");
       (Some "Train size", None)]%string ∧
    axis_view <$> fig_yaxes f =
      [(Some "target", None); (Some "Time (seconds)", Some "log");
       (Some "Mean Squared Error", None)]%string ∧
    fig_layout f !! "height"%string = Some "900"%string ∧
    tr_axes <$> ts =
      replicate 4 (Some 1%nat) ++ replicate 4 (Some 2%nat) ++ replicate 2 (Some 3%nat) ∧
    tr_name <$> filter (λ t, tr_axes t = Some 2%nat) ts =
      for_both (λ n, [Some (Fmt "%s (train)" [AStr n]);
                      Some (Fmt "%s (test)" [AStr n])]) (dict_order W).
Proof.
  intros Hsup. destruct (plotted_detail_run W Hsup) as (k & Hrun & Hd).
  destruct (trace_fields_Some _ _ _ _ (pd_axes _ _ Hd)) as (ts & Hts & Haxes).
  pose proof (pd_names _ _ Hd) as Hnames. unfold trace_fields in Hnames.
  rewrite Hts in Hnames. injection Hnames as Hnames.
  pose proof (pd_layout _ _ Hd) as Hl. pose proof (pd_cells _ _ Hd) as Hc.
  change (g_fig G5) with 8%nat.
  destruct (figure_at k 8) as [f|] eqn:Hf; [|discriminate Hl].
  cbn [fmap option_fmap option_map] in Hl, Hc. unfold layout_view in Hl.
  injection Hl as Hx Hy Ht Hh. injection Hc as Hc.
  exists k, f, ts. split; [exact Hrun|]. split; [exact Hf|]. split; [exact Hts|].
  unfold grid_cell. rewrite Hc.
  do 3 (split; [reflexivity|]).
  split; [exact Ht|]. split; [exact Hx|]. split; [exact Hy|]. split; [exact Hh|].
  split; [exact Haxes|].
  assert (filter (λ t, tr_axes t = Some 2%nat) ts = take 4 (drop 4 ts)) as ->.
  { apply (filter_by_field tr_axes ts (take 4 ts) (take 4 (drop 4 ts)) (drop 8 ts)
             (Some 1%nat) (Some 2%nat) (Some 3%nat) 4 4 2).
    - rewrite <- (take_drop 4 ts) at 1. f_equal.
      rewrite <- (take_drop 4 (drop 4 ts)) at 1. f_equal. by rewrite drop_drop.
    - rewrite fmap_take, Haxes. reflexivity.
    - rewrite fmap_take, fmap_drop, Haxes. reflexivity.
    - rewrite fmap_drop, Haxes. reflexivity.
    - intros [=].
    - intros [=]. }
  rewrite fmap_take, fmap_drop, Hnames.
  unfold dict_order. destruct (krr_first W); reflexivity.
Qed.

Lemma log_axes_are_those_of_the_timing_traces_witness :
  ∃ k f ts,
    plotted W0 empty_kernel = Ok (G3, G4 W0, G5) k ∧
    figure_at k (g_fig G5) = Some f ∧
    traces_of k (g_fig G5) = Some ts ∧
    grid_cell f 1 1 = Some (Some 1%nat) ∧ grid_cell f 1 2 = Some (Some 2%nat) ∧
    grid_cell f 2 1 = Some (Some 3%nat) ∧
    fig_titles f = ["SVR versus Kernel Ridge"; "Execution Time"; "Learning Curves"]%string ∧
    axis_view <$> fig_xaxes f =
      [(Some "data", None); (Some "Train size", Some "log");
       (Some "Train size", None)]%string ∧
    axis_view <$> fig_yaxes f =
      [(Some "target", None); (Some "Time (seconds)", Some "log");
       (Some "Mean Squared Error", None)]%string ∧
    fig_layout f !! "height"%string = Some "900"%string ∧
    tr_axes <$> ts =
      replicate 4 (Some 1%nat) ++ replicate 4 (Some 2%nat) ++ replicate 2 (Some 3%nat) ∧
    tr_name <$> filter (λ t, tr_axes t = Some 2%nat) ts =
      for_both (λ n, [Some (Fmt "%s (train)" [AStr n]);
                      Some (Fmt "%s (test)" [AStr n])]) (dict_order W0).
Proof.
  apply (log_axes_are_those_of_the_timing_traces W0).
  intros s Xt yt. constructor.
Defined.

(** ** The data of the scripts of the 2D-histogram page *)

Lemma lookup_add_scalar1 a c i : add_scalar1 a c !! i = (λ v, v + c) <$> a !! i.
Proof. unfold add_scalar1. apply list_lookup_fmap. Qed.

Lemma bivariate_run W np_random k seed pos :
  heap k !! np_random = Some (ORandomState seed pos) →
  Histogram2d.bivariate W np_random k =
    Ok (length (heap k), S (length (heap k)))
       (mkKernel (<[np_random := ORandomState seed (pos + 500 + 500)]> (heap k)
                    ++ [ONd1 (rand1 (gauss W seed) pos 500);
                        ONd1 (add_scalar1 (rand1 (gauss W seed) (pos + 500) 500) 1)])
                 (clock k) (log k ++ [ECall call_randn; ECall call_randn])).
Proof.
  intros Hr. pose proof (lookup_lt_Some _ _ _ Hr) as Hlt.
  unfold Histogram2d.bivariate, rng_randn. py_unfold. py_simpl.
  rewrite Hr. py_simpl. rewrite Hr. py_simpl.
  rewrite lookup_app_l by (by rewrite length_insert).
  rewrite list_lookup_insert_eq by done. py_simpl.
  rewrite lookup_app_l by (by rewrite length_insert).
  rewrite list_lookup_insert_eq by done.
  rewrite insert_app_l by (by rewrite length_insert).
  rewrite list_insert_insert_eq.
  py_simpl. rewrite !length_app, !length_insert. cbn [length].
  rewrite <- !app_assoc. cbn [app]. rewrite Nat.add_1_r. reflexivity.
Qed.

(** X16: the sample that [x = np.random.randn(500)] and
    [y = np.random.randn(500)+1] make, for any generator: [x] holds 500
    successive normal draws and [y] the 500 draws that follow them, each
    plus one; both are new arrays, and of the objects that were there only
    the generator changes. *)
Theorem bivariate_sample W np_random k seed pos :
  heap k !! np_random = Some (ORandomState seed pos) →
  ∃ x y k' xs ys,
    Histogram2d.bivariate W np_random k = Ok (x, y) k' ∧
    heap k !! x = None ∧ heap k !! y = None ∧ x ≠ y ∧
    heap k' !! x = Some (ONd1 xs) ∧ heap k' !! y = Some (ONd1 ys) ∧
    length xs = 500%nat ∧ length ys = 500%nat ∧
    (∀ i, (i < 500)%nat →
       xs !! i = Some (gauss W seed (pos + i)) ∧
       ys !! i = Some (gauss W seed (pos + 500 + i) + 1)) ∧
    heap k' !! np_random = Some (ORandomState seed (pos + 1000)) ∧
    ∀ l o, l ≠ np_random → heap k !! l = Some o → heap k' !! l = Some o.
Proof.
  intros Hr. pose proof (lookup_lt_Some _ _ _ Hr) as Hlt.
  eexists _, _, _, _, _. split; [by apply bivariate_run|]. cbn [heap].
  split; [by apply lookup_ge_None_2|]. split; [apply lookup_ge_None_2; lia|].
  split; [lia|].
  split. { rewrite lookup_app_r by (by rewrite length_insert).
           by rewrite length_insert, Nat.sub_diag. }
  split. { rewrite lookup_app_r by (rewrite length_insert; lia).
           rewrite length_insert. by replace (S _ - _)%nat with 1%nat by lia. }
  split; [apply length_rand1|].
  split; [unfold add_scalar1; by rewrite length_fmap, length_rand1|].
  split.
  { intros i Hi. split; [by apply lookup_rand1|].
    by rewrite lookup_add_scalar1, lookup_rand1. }
  split.
  { rewrite lookup_app_l by (by rewrite length_insert).
    rewrite list_lookup_insert_eq by done. do 2 f_equal. lia. }
  intros l o Hl Ho. pose proof (lookup_lt_Some _ _ _ Ho).
  rewrite lookup_app_l by (by rewrite length_insert).
  by rewrite list_lookup_insert_ne.
Qed.

Lemma bivariate_sample_witness :
  ∃ x y k' xs ys,
    Histogram2d.bivariate W0 0 (generator_only 0 0) = Ok (x, y) k' ∧
    heap (generator_only 0 0) !! x = None ∧ heap (generator_only 0 0) !! y = None ∧
    x ≠ y ∧
    heap k' !! x = Some (ONd1 xs) ∧ heap k' !! y = Some (ONd1 ys) ∧
    length xs = 500%nat ∧ length ys = 500%nat ∧
    (∀ i, (i < 500)%nat →
       xs !! i = Some (gauss W0 0 (0 + i)) ∧
       ys !! i = Some (gauss W0 0 (0 + 500 + i) + 1)) ∧
    heap k' !! 0%nat = Some (ORandomState 0 (0 + 1000)) ∧
    ∀ l o, l ≠ 0%nat → heap (generator_only 0 0) !! l = Some o → heap k' !! l = Some o.
Proof.
  apply (bivariate_sample W0 0%nat (generator_only 0 0) 0 0%nat). reflexivity.
Defined.

Ltac hist_detail :=
  lazy beta iota zeta delta
    [traces_of figure_at trace_at
     heap lookup list_lookup mbind option_bind mret option_ret mapM
     fig_data tr_type tr_x tr_y fmap list_fmap option_fmap option_map].

(** X17: the first two plotting scripts of the page give a figure of
    one [histogram2d] trace each, on the sample above drawn from the start
    of numpy's generator: the binning and styling options of the second
    script change the attributes of the trace, not its data, and [x] and
    [y] have one length. *)
Theorem histogram_scripts_bin_the_bivariate_sample W :
  let xs := rand1 (gauss W (entropy W)) 0 500 in
  let ys := add_scalar1 (rand1 (gauss W (entropy W)) 500 500) 1 in
  (∃ fig k t,
     Histogram2d.bivariate_histogram W empty_kernel = Ok fig k ∧
     traces_of k fig = Some [t] ∧ tr_type t = "histogram2d"%string ∧
     tr_attrs t = [] ∧
     heap k !! tr_x t = Some (ONd1 xs) ∧ heap k !! tr_y t = Some (ONd1 ys)) ∧
  (∃ fig k t,
     Histogram2d.styled_histogram W empty_kernel = Ok fig k ∧
     traces_of k fig = Some [t] ∧ tr_type t = "histogram2d"%string ∧
     heap k !! tr_x t = Some (ONd1 xs) ∧ heap k !! tr_y t = Some (ONd1 ys)) ∧
  length xs = length ys.
Proof.
  intros xs ys. split; [|split].
  - destruct (plot_warning W) eqn:Hw; eexists _, _, _;
      (split; [hist_exec; rewrite Hw; reflexivity|]);
      repeat split; reflexivity.
  - destruct (plot_warning W) eqn:Hw; eexists _, _, _;
      (split; [hist_exec; rewrite Hw; reflexivity|]);
      repeat split; reflexivity.
  - unfold xs, ys, add_scalar1. by rewrite length_fmap, !length_rand1.
Qed.




(** ** Cell 3 in any session *)

Lemma cell3_run W k :
  cell3 W k =
    Ok {| g_rng := length (heap k); g_X := S (length (heap k));
          g_y := S (S (length (heap k))); g_X_plot := S (S (S (length (heap k)))) |}
       (mkKernel
          (heap k ++
           [ORandomState 0 (0 + Z.to_nat 10000 * 1 + Z.to_nat 2000);
            ONd2 (sample_X (uniform W 0) 0); ONd1 (sample_y (uniform W 0) 0);
            ONd2 (new_axis (linspace 0 5 (Z.to_nat 100000)))])
          (clock k)
          (log k ++ [ECall call_RandomState; ECall call_rand;
                     EWarn "VisibleDeprecationWarning"; ECall call_rand])).
Proof.
  unfold cell3, new_RandomState. rewrite !bind_run.
  unfold emit at 1. cbn beta iota. unfold alloc at 1. cbn beta iota. cbn [heap clock log].
  rewrite bind_run.
  rewrite (sample_data_run W (length (heap k)) _ 0 0%nat) by (cbn [heap]; apply lookup_alloc).
  cbn beta iota. cbn [heap clock log]. rewrite bind_run. unfold alloc at 1. cbn beta iota.
  cbn [heap clock log]. unfold mret, Py_ret.
  rewrite insert_app_r_alt, Nat.sub_diag by lia. cbn [insert list_insert].
  rewrite !length_app. cbn [length]. rewrite <- !app_assoc. cbn [app].
  replace (length (heap k) + 1)%nat with (S (length (heap k))) by lia.
  replace (S (length (heap k)) + 2)%nat with (S (S (S (length (heap k))))) by lia.
  reflexivity.
Qed.

Lemma lookup_linspace a b n i :
  (i < n)%nat → linspace a b n !! i = Some (a + INR i * (b - a) / INR (n - 1)).
Proof. intros Hi. unfold linspace. by rewrite list_lookup_fmap, lookup_seq_lt. Qed.

Lemma INR_99999 : INR (Z.to_nat 100000 - 1) = 99999.
Proof.
  rewrite INR_IZR_INZ. f_equal; lia.
Qed.

(** X19: the grid [X_plot] that cell 3 makes, in any session: 100000 rows
    of one value each, evenly spaced from 0 up to 5, both ends included and
    in increasing order; and cell 3 creates its four objects anew, the
    generator seeded with 0, without changing an object that was there. *)
Theorem cell3_grid W k :
  ∃ g k' P,
    cell3 W k = Ok g k' ∧
    heap k' !! g_X_plot g = Some (ONd2 P) ∧
    length P = Z.to_nat 100000 ∧
    (∀ i, (i < Z.to_nat 100000)%nat → P !! i = Some [5 * INR i / 99999]) ∧
    P !! 0%nat = Some [0] ∧ P !! (Z.to_nat 99999) = Some [5] ∧
    (∀ i j x y, (i < j)%nat → P !! i = Some [x] → P !! j = Some [y] → x < y) ∧
    NoDup [g_rng g; g_X g; g_y g; g_X_plot g] ∧
    Forall (λ l, heap k !! l = None) [g_rng g; g_X g; g_y g; g_X_plot g] ∧
    heap k' !! g_rng g = Some (ORandomState 0 (Z.to_nat 12000)) ∧
    ∀ l o, heap k !! l = Some o → heap k' !! l = Some o.
Proof.
  assert (HP : ∀ i, (i < Z.to_nat 100000)%nat →
            new_axis (linspace 0 5 (Z.to_nat 100000)) !! i = Some [5 * INR i / 99999]).
  { intros i Hi. unfold new_axis. rewrite list_lookup_fmap, lookup_linspace by done.
    rewrite INR_99999. cbn [fmap option_fmap option_map]. do 3 f_equal. lra. }
  eexists _, _, _. split; [apply cell3_run|]. cbn [heap g_rng g_X g_y g_X_plot].
  split.
  { rewrite lookup_app_r by lia.
    by replace (S (S (S (length (heap k)))) - length (heap k))%nat with 3%nat by lia. }
  split; [unfold new_axis, linspace; by rewrite !length_fmap, length_seq|].
  split; [exact HP|].
  split. { rewrite HP by lia. do 3 f_equal. simpl. lra. }
  split. { rewrite HP by lia. do 3 f_equal. rewrite INR_IZR_INZ, Z2Nat.id by lia. lra. }
  split.
  { intros i j x y Hij Hi Hj.
    assert (j < Z.to_nat 100000)%nat as Hjn.
    { apply lookup_lt_Some in Hj. unfold new_axis, linspace in Hj.
      by rewrite !length_fmap, length_seq in Hj. }
    rewrite HP in Hi by lia. rewrite HP in Hj by lia.
    injection Hi as <-. injection Hj as <-.
    apply lt_INR in Hij. lra. }
  split.
  { repeat (apply NoDup_cons; split; [rewrite ?elem_of_cons, elem_of_nil; lia|]).
    apply NoDup_nil. done. }
  split. { repeat constructor; apply lookup_ge_None_2; lia. }
  split.
  { rewrite lookup_app_r by lia. rewrite Nat.sub_diag. cbn [lookup list_lookup].
    do 2 f_equal; lia. }
  intros l o Hl. rewrite lookup_app_l; [done|]. by eapply lookup_lt_Some.
Qed.
